(** * dinq-message: the send pipeline, recall, read marks, group creation
      and the connection hub, as Rocq functions

    The development follows the Go sources:
    - [model/conversation.go], [model/message.go] and the relationship model
      give the row types;
    - [sql/init.sql] gives the tables and their constraints;
    - the message service ([MessageService], the file that declares
      [SendMessage], [RecallMessage], [MarkAsRead], [CheckCanSend]);
    - [service/conversation_service.go] ([CreateGroupConversation], the
      membership operations on groups, [HideConversation],
      [checkCanSendFromMessages]);
    - [service/relationship_service.go] ([BlockUser], [UnblockUser],
      [IsBlocked]);
    - [service/system_settings_service.go] (the cache of settings and its
      table);
    - [handler/websocket.go] ([Hub.Register], [Hub.Unregister],
      [Hub.IsOnline]).

    The relational store is a record of row lists, the cache and the pushes
    to the hub are a trace of effects, and every source of nondeterminism
    (clock, generated ids, the answers of SETNX) is a field of the world the
    code runs in. *)

From Stdlib Require Import ZArith NArith List String Ascii Bool Lia QArith.
From stdpp Require Import gmap strings list pretty.

Local Open Scope Z_scope.
Local Open Scope string_scope.

(** ** Go values *)

(** A [uuid.UUID] is a 128-bit value; [uuid.Nil] is the all-zero one.  The
    canonical text form is fixed-width lower-case hexadecimal, so comparing
    [String()] forms is comparing the numbers. *)
Definition UUID := N.
Definition Nil : UUID := 0%N.
Bind Scope N_scope with UUID.

(** Timestamps, in microseconds (the resolution of a PostgreSQL TIMESTAMP). *)
Definition Time := Z.
Definition second : Z := 1000000.
Bind Scope Z_scope with Time.

(** *** Strings and runes

    A Go string is a byte sequence.  [[]rune(s)] decodes it as UTF-8 the way
    [utf8.DecodeRuneInString] does: a byte that does not start a well-formed
    sequence yields U+FFFD and is skipped alone. *)
Definition RuneError : N := 65533%N.

Definition byte_in (lo hi b : N) : bool := ((lo <=? b) && (b <=? hi))%N.
Definition cont (b : N) : bool := byte_in 128 191 b.

(** The range allowed for the second byte, by first byte (Go's
    [acceptRanges]). *)
Definition second_ok (b0 b1 : N) : bool :=
  if (b0 =? 224)%N then byte_in 160 191 b1
  else if (b0 =? 237)%N then byte_in 128 159 b1
  else if (b0 =? 240)%N then byte_in 144 191 b1
  else if (b0 =? 244)%N then byte_in 128 143 b1
  else cont b1.

Fixpoint runes (s : string) : list N :=
  match s with
  | EmptyString => []
  | String a0 s1 =>
    let b0 := N_of_ascii a0 in
    let invalid := RuneError :: runes s1 in
    if (b0 <? 128)%N then b0 :: runes s1
    else match s1 with
    | EmptyString => invalid
    | String a1 s2 =>
      let b1 := N_of_ascii a1 in
      if byte_in 194 223 b0 then
        if cont b1 then ((b0 - 192) * 64 + (b1 - 128))%N :: runes s2
        else invalid
      else match s2 with
      | EmptyString => invalid
      | String a2 s3 =>
        let b2 := N_of_ascii a2 in
        if byte_in 224 239 b0 then
          if second_ok b0 b1 && cont b2
          then ((b0 - 224) * 4096 + (b1 - 128) * 64 + (b2 - 128))%N :: runes s3
          else invalid
        else match s3 with
        | EmptyString => invalid
        | String a3 s4 =>
          let b3 := N_of_ascii a3 in
          if byte_in 240 244 b0 && second_ok b0 b1 && cont b2 && cont b3
          then ((b0 - 240) * 262144 + (b1 - 128) * 4096
                + (b2 - 128) * 64 + (b3 - 128))%N :: runes s4
          else invalid
        end
      end
    end
  end.

Definition byte_string (bs : list N) : string :=
  fold_right (fun b acc => String (ascii_of_N b) acc) EmptyString bs.

(** [utf8.AppendRune]: surrogates and values above U+10FFFF are written as
    U+FFFD. *)
Definition encode_rune (r : N) : list N :=
  (if r <? 128 then [r]
   else if r <? 2048 then [192 + r / 64; 128 + r mod 64]
   else if (1114111 <? r) || byte_in 55296 57343 r then [239; 191; 189]
   else if r <? 65536 then [224 + r / 4096; 128 + (r / 64) mod 64; 128 + r mod 64]
   else [240 + r / 262144; 128 + (r / 4096) mod 64;
         128 + (r / 64) mod 64; 128 + r mod 64])%N.

(** [string(rs)] for a rune slice. *)
Definition string_of_runes (rs : list N) : string :=
  byte_string (concat (map encode_rune rs)).

(** ** Row types (the [model] package) *)

Record Conversation := {
  conv_ID : UUID;
  ConversationType : string;          (* 'private' | 'group' *)
  GroupName : option string;
  conv_CreatedAt : Time;
  UpdatedAt : Time;
  LastMessageAt : option Time;
  LastMessageID : option UUID;
}.

Record ConversationMember := {
  cm_ID : UUID;
  cm_ConversationID : UUID;
  cm_UserID : UUID;
  Role : string;                      (* 'owner' | 'admin' | 'member' *)
  IsMuted : bool;
  IsHidden : bool;
  JoinedAt : Time;
  LeftAt : option Time;
  UnreadCount : Z;
  LastReadMessageID : option UUID;
  LastReadAt : option Time;
}.

#[local] Set Warnings "-register-all".

(** A JSON value as [encoding/json] decodes it into [interface{}]: numbers
    are float64 (every float64 is a rational), objects are
    [map[string]interface{}]. *)
Inductive JSONValue :=
| JNull
| JBool (b : bool)
| JNumber (q : Q)
| JString (s : string)
| JArray (items : list JSONValue)
| JObject (fields : list (string * JSONValue)).

Definition MetadataBag := list (string * JSONValue).

Record Message := {
  msg_ID : UUID;
  msg_ConversationID : UUID;
  SenderID : UUID;
  MessageType : string;               (* 'text' | 'image' | 'video' | 'emoji' *)
  Content : option string;
  Metadata : option MetadataBag;
  Status : string;
  ReplyToMessageID : option UUID;
  IsRecalled : bool;
  RecalledAt : option Time;
  msg_CreatedAt : Time;
}.

Record UserRelationship := {
  rel_ID : UUID;
  rel_UserID : UUID;
  TargetUserID : UUID;
  RelationshipType : string;
  rel_CreatedAt : Time;
}.

(** ** The relational store ([sql/init.sql]) *)

Record DB := {
  conversations : list Conversation;
  conversation_members : list ConversationMember;
  messages : list Message;
  user_relationships : list UserRelationship;
}.

(** ** Errors

    [fmt.Errorf("text")] is [ErrMsg], [fmt.Errorf("text: %w", err)] is
    [ErrWrap], an error raised by the database is [ErrSQL].  The numbers that
    two messages interpolate (megabytes, elapsed seconds) are left out of the
    text. *)
Inductive error :=
| ErrMsg (text : string)
| ErrWrap (text : string) (cause : error)
| ErrSQL (text : string).

Fixpoint Error (e : error) : string :=
  match e with
  | ErrMsg t => t
  | ErrWrap t c => t +:+ ": " +:+ Error c
  | ErrSQL t => t
  end.

Inductive result (A : Type) :=
| Ok (a : A)
| Err (e : error).
Arguments Ok {A} a.
Arguments Err {A} e.

Definition is_ok {A} (r : result A) : bool :=
  match r with Ok _ => true | Err _ => false end.

(** ** The cache and the hub, seen from the services *)

Inductive RedisKey :=
| LockCreateConversation (smaller larger : UUID)  (* lock:create_conversation:%s:%s *)
| LockSendMsg (conversation sender : UUID)        (* lock:send_msg:%s:%s *)
| OfflineMsg (user : UUID)                        (* offline_msg:<user> *)
| Online (user : UUID).                           (* online:<user> *)

Inductive Effect :=
| RedisSetNX (key : RedisKey) (ttl : Z)
| RedisSet (key : RedisKey) (ttl : Z)
| RedisDel (key : RedisKey)
| RedisRPush (key : RedisKey) (m : Message)
| RedisExpire (key : RedisKey) (ttl : Z)
| ConversationUpdate (user conversation : UUID) (lastMessageTime : Time)
                     (lastMessageText : option string) (unreadCount : Z)
| UnreadCountUpdate (user conversation : UUID) (unreadCount : Z).

(** ** The world a service call runs in *)

Record World := {
  db : DB;
  now : Time;                            (* NOW() and time.Now() *)
  uuid_source : nat -> UUID;             (* successive gen_random_uuid() values *)
  uuid_drawn : nat;                      (* how many have been taken *)
  setnx_reply : RedisKey -> nat -> bool; (* answer to the i-th SETNX on a key *)
  effects : list Effect;                 (* cache writes and pushes, oldest first *)
}.

Definition with_db (d : DB) (w : World) : World :=
  {| db := d; now := now w; uuid_source := uuid_source w;
     uuid_drawn := uuid_drawn w; setnx_reply := setnx_reply w;
     effects := effects w |}.

(** ** A state-and-error monad for the service code *)

Definition M (A : Type) : Type := World -> result A * World.

Definition ret {A} (a : A) : M A := fun w => (Ok a, w).
Definition fail {A} (e : error) : M A := fun w => (Err e, w).
Definition bind {A B} (c : M A) (k : A -> M B) : M B :=
  fun w => match c w with
           | (Ok a, w') => k a w'
           | (Err e, w') => (Err e, w')
           end.

Notation "'let*' x ':=' c 'in' k" := (bind c (fun x => k))
  (at level 10, x pattern, c at level 100, k at level 200).

Definition get_db : M DB := fun w => (Ok (db w), w).
Definition put_db (d : DB) : M unit := fun w => (Ok tt, with_db d w).
Definition get_now : M Time := fun w => (Ok (now w), w).
Definition emit (e : Effect) : M unit :=
  fun w => (Ok tt, {| db := db w; now := now w; uuid_source := uuid_source w;
                      uuid_drawn := uuid_drawn w; setnx_reply := setnx_reply w;
                      effects := effects w ++ [e] |}).
Definition gen_random_uuid : M UUID :=
  fun w => (Ok (uuid_source w (uuid_drawn w)),
            {| db := db w; now := now w; uuid_source := uuid_source w;
               uuid_drawn := S (uuid_drawn w); setnx_reply := setnx_reply w;
               effects := effects w |}).

(** [db.Transaction(fn)]: when [fn] fails the store is as it was before. *)
Definition Transaction {A} (fn : M A) : M A :=
  fun w => match fn w with
           | (Ok a, w') => (Ok a, w')
           | (Err e, w') => (Err e, with_db (db w) w')
           end.

(** [defer f()]: [f] runs when the body returns, whatever it returns. *)
Definition defer {A} (f : M unit) (body : M A) : M A :=
  fun w => let '(r, w') := body w in (r, snd (f w')).

(** [wrap text c]: a failure of [c] is returned as [fmt.Errorf(text: %w)]. *)
Definition wrap {A} (text : string) (c : M A) : M A :=
  fun w => match c w with
           | (Ok a, w') => (Ok a, w')
           | (Err e, w') => (Err (ErrWrap text e), w')
           end.

Fixpoint for_each {A} (l : list A) (body : A -> M unit) : M unit :=
  match l with
  | [] => ret tt
  | x :: rest => let* _ := body x in for_each rest body
  end.

(** ** Queries and statements on the store *)

(** [First(&row)]: [ORDER BY <primary key> LIMIT 1]. *)
Fixpoint First {A} (pk : A -> UUID) (rows : list A) : option A :=
  match rows with
  | [] => None
  | r :: rest =>
    match First pk rest with
    | Some r' => if (pk r' <? pk r)%N then Some r' else Some r
    | None => Some r
    end
  end.

(** [Count(&count)] *)
Definition Count {A} (where_ : A -> bool) (rows : list A) : Z :=
  Z.of_nat (length (List.filter where_ rows)).

Definition is_null {A} (o : option A) : bool :=
  match o with None => true | Some _ => false end.

Definition set_conversations (cs : list Conversation) (d : DB) : DB :=
  {| conversations := cs; conversation_members := conversation_members d;
     messages := messages d; user_relationships := user_relationships d |}.
Definition set_conversation_members (ms : list ConversationMember) (d : DB) : DB :=
  {| conversations := conversations d; conversation_members := ms;
     messages := messages d; user_relationships := user_relationships d |}.
Definition set_messages (ms : list Message) (d : DB) : DB :=
  {| conversations := conversations d;
     conversation_members := conversation_members d;
     messages := ms; user_relationships := user_relationships d |}.

Definition conversation_exists (d : DB) (id : UUID) : bool :=
  existsb (fun c => (conv_ID c =? id)%N) (conversations d).

(** [INSERT INTO conversations]: primary key. *)
Definition insert_conversation (c : Conversation) : M unit :=
  let* d := get_db in
  if conversation_exists d (conv_ID c)
  then fail (ErrSQL "duplicate key value violates unique constraint conversations_pkey")
  else put_db (set_conversations (conversations d ++ [c]) d).

(** [INSERT INTO conversation_members]: primary key, the reference to
    [conversations(id)] and [UNIQUE(conversation_id, user_id)]. *)
Definition insert_conversation_member (m : ConversationMember) : M unit :=
  let* d := get_db in
  if existsb (fun m' => (cm_ID m' =? cm_ID m)%N) (conversation_members d)
  then fail (ErrSQL "duplicate key value violates unique constraint conversation_members_pkey")
  else if negb (conversation_exists d (cm_ConversationID m))
  then fail (ErrSQL "insert on conversation_members violates foreign key constraint")
  else if existsb (fun m' => (cm_ConversationID m' =? cm_ConversationID m)%N
                             && (cm_UserID m' =? cm_UserID m)%N)
                  (conversation_members d)
  then fail (ErrSQL "duplicate key value violates unique constraint conversation_members_conversation_id_user_id_key")
  else put_db (set_conversation_members (conversation_members d ++ [m]) d).

(** [INSERT INTO messages]: primary key and the reference to
    [conversations(id)]. *)
Definition insert_message (m : Message) : M unit :=
  let* d := get_db in
  if existsb (fun m' => (msg_ID m' =? msg_ID m)%N) (messages d)
  then fail (ErrSQL "duplicate key value violates unique constraint messages_pkey")
  else if negb (conversation_exists d (msg_ConversationID m))
  then fail (ErrSQL "insert on messages violates foreign key constraint")
  else put_db (set_messages (messages d ++ [m]) d).

(** [tx.Create(conversation)]: the id comes from [gen_random_uuid()], the two
    timestamps from autoCreateTime / autoUpdateTime. *)
Definition CreateConversation (conversationType : string)
    (groupName : option string) : M Conversation :=
  let* id := gen_random_uuid in
  let* t := get_now in
  let c := {| conv_ID := id; ConversationType := conversationType;
              GroupName := groupName; conv_CreatedAt := t; UpdatedAt := t;
              LastMessageAt := None; LastMessageID := None |} in
  let* _ := insert_conversation c in
  ret c.

(** [tx.Create(member)] for a member given by conversation, user and role;
    the other columns take their defaults. *)
Definition CreateMember (conversationID userID : UUID) (role : string) : M unit :=
  let* id := gen_random_uuid in
  let* t := get_now in
  insert_conversation_member
    {| cm_ID := id; cm_ConversationID := conversationID; cm_UserID := userID;
       Role := role; IsMuted := false; IsHidden := false; JoinedAt := t;
       LeftAt := None; UnreadCount := 0; LastReadMessageID := None;
       LastReadAt := None |}.

(** ** System settings ([service/system_settings_service.go]) *)

Definition GetBoolSetting (settingsCache : gmap string string)
    (key : string) (defaultValue : bool) : bool :=
  match settingsCache !! key with
  | None => defaultValue
  | Some value => String.eqb value "true"
  end.

Definition IsFeatureEnabled (settingsCache : gmap string string)
    (featureKey : string) : bool :=
  GetBoolSetting settingsCache featureKey false.

(** ** The message service *)

Record MessageService := {
  sysSvc : gmap string string;                 (* settingsCache of the settings service *)
  maxVideoSizeMB : Z;
  hubChecker : option (UUID -> UUID -> bool);  (* IsUserInConversation, or nil *)
  unreadNotifier : bool;                       (* false: nil *)
  convNotifier : bool;                         (* false: nil *)
}.

Record SendMessageRequest := {
  req_ConversationID : UUID;
  ReceiverID : option UUID;
  req_MessageType : string;
  req_Content : option string;
  req_Metadata : option MetadataBag;
  req_ReplyToMessageID : option UUID;
}.

(** The SETNX loop shared by both locks: up to [attempts] calls, the first
    one answered with [err == nil && ok] takes the lock and ends the loop;
    the sleep between two calls is not modelled. *)
Fixpoint acquire_lock (key : RedisKey) (ttl : Z) (attempts i : nat) : M bool :=
  match attempts with
  | O => ret false
  | S n => fun w =>
      if setnx_reply w key i
      then (let* _ := emit (RedisSetNX key ttl) in ret true) w
      else acquire_lock key ttl n (S i) w
  end.

Definition isConversationMember (d : DB) (conversationID userID : UUID) : bool :=
  Count (fun m => (cm_ConversationID m =? conversationID)%N
                  && (cm_UserID m =? userID)%N && is_null (LeftAt m))
        (conversation_members d) >? 0.

Definition isBlocked (d : DB) (senderID receiverID : UUID) : bool :=
  Count (fun r => (rel_UserID r =? receiverID)%N
                  && (TargetUserID r =? senderID)%N
                  && String.eqb (RelationshipType r) "blocked")
        (user_relationships d) >? 0.

Definition getConversationMembers (d : DB) (conversationID : UUID) : list UUID :=
  map cm_UserID
      (List.filter (fun m => (cm_ConversationID m =? conversationID)%N
                        && is_null (LeftAt m))
              (conversation_members d)).

(** The SELECT of [getOrCreatePrivateConversation]: conversations [c] joined
    with a member row of each user, of type private, with two rows whose
    [left_at] is null. *)
Definition has_member_row (d : DB) (conversationID userID : UUID) : bool :=
  existsb (fun m => (cm_ConversationID m =? conversationID)%N
                    && (cm_UserID m =? userID)%N)
          (conversation_members d).

Definition active_member_count (d : DB) (conversationID : UUID) : Z :=
  Count (fun m => (cm_ConversationID m =? conversationID)%N && is_null (LeftAt m))
        (conversation_members d).

Definition private_conversation_matches (d : DB) (user1ID user2ID : UUID)
    (c : Conversation) : bool :=
  has_member_row d (conv_ID c) user1ID
  && has_member_row d (conv_ID c) user2ID
  && String.eqb (ConversationType c) "private"
  && (active_member_count d (conv_ID c) =? 2)%Z.

Definition select_private_conversation (d : DB) (user1ID user2ID : UUID)
    : option Conversation :=
  First conv_ID (List.filter (private_conversation_matches d user1ID user2ID)
                        (conversations d)).

(** The key of the creation lock: the two ids in the order of their text
    forms, [if user1ID.String() > user2ID.String() { swap }]. *)
Definition create_conversation_lock (user1ID user2ID : UUID) : RedisKey :=
  let '(smallerID, largerID) :=
    if (user2ID <? user1ID)%N then (user2ID, user1ID) else (user1ID, user2ID) in
  LockCreateConversation smallerID largerID.

Definition createPrivateConversation (user1ID user2ID : UUID) : M (UUID * bool) :=
  let* conversationID :=
    Transaction
      (let* conversation := CreateConversation "private" None in
       let conversationID := conv_ID conversation in
       let* _ := for_each [user1ID; user2ID]
                   (fun userID => CreateMember conversationID userID "member") in
       ret conversationID) in
  ret (conversationID, true).

Definition getOrCreatePrivateConversation (user1ID user2ID : UUID) : M (UUID * bool) :=
  if (user1ID =? user2ID)%N
  then fail (ErrMsg "cannot send message to yourself")
  else
    let* d := get_db in
    match select_private_conversation d user1ID user2ID with
    | Some conversation => ret (conv_ID conversation, false)
    | None =>
      let lockKey := create_conversation_lock user1ID user2ID in
      let* lockAcquired := acquire_lock lockKey (5 * second) 30 0 in
      if negb lockAcquired
      then fail (ErrMsg "failed to acquire lock for creating conversation")
      else
        defer (emit (RedisDel lockKey))
          (let* d := get_db in
           match select_private_conversation d user1ID user2ID with
           | Some conversation => ret (conv_ID conversation, false)
           | None => createPrivateConversation user1ID user2ID
           end)
    end.

Definition find_conversation (d : DB) (conversationID : UUID) : option Conversation :=
  First conv_ID (List.filter (fun c => (conv_ID c =? conversationID)%N)
                        (conversations d)).

Definition find_message (d : DB) (messageID : UUID) : option Message :=
  First msg_ID (List.filter (fun m => (msg_ID m =? messageID)%N) (messages d)).

Definition CheckCanSend (s : MessageService) (d : DB)
    (userID conversationID : UUID) : bool :=
  if negb (IsFeatureEnabled (sysSvc s) "enable_first_message_limit") then true
  else match find_conversation d conversationID with
  | None => true
  | Some conversation =>
    if negb (String.eqb (ConversationType conversation) "private") then true
    else
      let userMessageCount :=
        Count (fun m => (msg_ConversationID m =? conversationID)%N
                        && (SenderID m =? userID)%N) (messages d) in
      if (userMessageCount =? 0)%Z then true
      else
        let otherUserMessageCount :=
          Count (fun m => (msg_ConversationID m =? conversationID)%N
                          && negb (SenderID m =? userID)%N) (messages d) in
        if otherUserMessageCount >? 0 then true
        else false
  end.

(** Step 9 of [SendMessage]: the preview pushed with the conversation
    update. *)
Definition lastMessageText (message : Message) : option string :=
  match (if String.eqb (MessageType message) "text"
         then Content message else None) with
  | Some content =>
    let rs := runes content in
    Some (if (50 <? length rs)%nat
          then string_of_runes (firstn 50 rs) +:+ "..."
          else content)
  | None =>
    if String.eqb (MessageType message) "image" then Some "[图片]"
    else if String.eqb (MessageType message) "video" then Some "[视频]"
    else if String.eqb (MessageType message) "emoji" then Some "[表情]"
    else None
  end.

(** [req.Metadata["file_size"]] *)
Fixpoint metadata_get (bag : MetadataBag) (key : string) : option JSONValue :=
  match bag with
  | [] => None
  | (k, v) :: rest => if String.eqb k key then Some v else metadata_get rest key
  end.

(** Step 4 of [SendMessage]: [fileSize / (1024 * 1024) > float64(maxVideoSizeMB)]
    for a video whose metadata carries a numeric [file_size]. *)
Definition video_too_large (s : MessageService) (req : SendMessageRequest) : bool :=
  if String.eqb (req_MessageType req) "video" then
    match req_Metadata req with
    | Some bag =>
      match metadata_get bag "file_size" with
      | Some (JNumber fileSize) =>
        negb (Qle_bool (fileSize / inject_Z (1024 * 1024))
                       (inject_Z (maxVideoSizeMB s)))
      | _ => false
      end
    | None => false
    end
  else false.

(** The largest value of a PostgreSQL [INT] column. *)
Definition int4_max : Z := 2147483647.

(** Step 8.2: [UPDATE conversations SET last_message_at, last_message_id,
    updated_at WHERE id = ?]. *)
Definition touch_conversation (t : Time) (messageID : UUID) (c : Conversation)
    : Conversation :=
  {| conv_ID := conv_ID c; ConversationType := ConversationType c;
     GroupName := GroupName c; conv_CreatedAt := conv_CreatedAt c;
     UpdatedAt := t; LastMessageAt := Some t; LastMessageID := Some messageID |}.

Definition update_conversation_last_message (conversationID messageID : UUID)
    : M unit :=
  let* d := get_db in
  let* t := get_now in
  put_db (set_conversations
            (map (fun c => if (conv_ID c =? conversationID)%N
                           then touch_conversation t messageID c else c)
                 (conversations d)) d).

(** Step 8.3: the [updates] map applied to one member row: [is_hidden] is
    always set to false, [unread_count] becomes [unread_count + 1] unless the
    member was seen viewing. *)
Definition member_after_message (wasViewing : bool) (m : ConversationMember)
    : ConversationMember :=
  {| cm_ID := cm_ID m; cm_ConversationID := cm_ConversationID m;
     cm_UserID := cm_UserID m; Role := Role m; IsMuted := IsMuted m;
     IsHidden := false; JoinedAt := JoinedAt m; LeftAt := LeftAt m;
     UnreadCount := if wasViewing then UnreadCount m else UnreadCount m + 1;
     LastReadMessageID := LastReadMessageID m; LastReadAt := LastReadAt m |}.

(** [UPDATE conversation_members SET ... WHERE conversation_id = ? AND
    user_id = ?]; the statement fails when the sum leaves the INT range. *)
Definition is_member_row (conversationID userID : UUID)
    (m : ConversationMember) : bool :=
  (cm_ConversationID m =? conversationID)%N && (cm_UserID m =? userID)%N.

Definition rewrite_member_rows (conversationID userID : UUID)
    (wasViewing : bool) (rows : list ConversationMember)
    : list ConversationMember :=
  map (fun m => if is_member_row conversationID userID m
                then member_after_message wasViewing m else m) rows.

Definition update_member_for_message (conversationID userID : UUID)
    (wasViewing : bool) : M unit :=
  let* d := get_db in
  if negb wasViewing
     && existsb (fun m => is_member_row conversationID userID m
                          && (UnreadCount m + 1 >? int4_max))
                (conversation_members d)
  then fail (ErrWrap "failed to update conversation member"
                     (ErrSQL "integer out of range"))
  else put_db (set_conversation_members
                 (rewrite_member_rows conversationID userID wasViewing
                    (conversation_members d)) d).

(** Step 7: the rows of the other members of the conversation, and for each
    whether the hub reports the user as viewing it. *)
Definition other_member_rows (d : DB) (conversationID senderID : UUID)
    : list ConversationMember :=
  List.filter (fun m => (cm_ConversationID m =? conversationID)%N
                   && negb (cm_UserID m =? senderID)%N)
         (conversation_members d).

Definition isViewing (s : MessageService) (userID conversationID : UUID) : bool :=
  match hubChecker s with
  | Some IsUserInConversation => IsUserInConversation userID conversationID
  | None => false
  end.

Definition snapshot_viewing (s : MessageService) (conversationID : UUID)
    (members : list ConversationMember) : gmap UUID bool :=
  foldl (fun status member =>
           <[cm_UserID member := isViewing s (cm_UserID member) conversationID]>
             status)
        ∅ members.

(** [memberViewingStatus[id]]: a missing key reads as false. *)
Definition viewing (status : gmap UUID bool) (userID : UUID) : bool :=
  default false (status !! userID).

(** Steps 6 and 8 of [SendMessage]: the message object and the transaction
    that stores it, touches the conversation and updates the member rows
    found in step 7. *)
Definition save_message (senderID : UUID) (req : SendMessageRequest)
    (conversationID : UUID) (members : list ConversationMember)
    (memberViewingStatus : gmap UUID bool) : M Message :=
  Transaction
    (let* id := gen_random_uuid in
     let* t := get_now in
     let message :=
       {| msg_ID := id; msg_ConversationID := conversationID;
          SenderID := senderID; MessageType := req_MessageType req;
          Content := req_Content req; Metadata := req_Metadata req;
          Status := "sent"; ReplyToMessageID := req_ReplyToMessageID req;
          IsRecalled := false; RecalledAt := None; msg_CreatedAt := t |} in
     let* _ := wrap "failed to save message" (insert_message message) in
     let* _ := update_conversation_last_message conversationID id in
     let* _ := for_each members
                 (fun member =>
                    update_member_for_message conversationID (cm_UserID member)
                      (viewing memberViewingStatus (cm_UserID member))) in
     ret message).

(** Step 10 of [SendMessage], for one member row of step 7: the offline
    queue, then the two pushes. *)
Definition push_to_member (s : MessageService) (senderID conversationID : UUID)
    (message : Message) (text : option string)
    (memberViewingStatus : gmap UUID bool) (member : ConversationMember)
    : M unit :=
  let key := OfflineMsg (cm_UserID member) in
  let* _ := emit (RedisRPush key message) in
  let* _ := emit (RedisExpire key (7 * 24 * 3600 * second)) in
  let wasViewing := viewing memberViewingStatus (cm_UserID member) in
  let unreadCount :=
    if wasViewing then UnreadCount member else UnreadCount member + 1 in
  let* _ :=
    if convNotifier s && negb (cm_UserID member =? senderID)%N
    then emit (ConversationUpdate (cm_UserID member) conversationID
                 (msg_CreatedAt message) text unreadCount)
    else ret tt in
  if unreadNotifier s
  then emit (UnreadCountUpdate (cm_UserID member) conversationID unreadCount)
  else ret tt.

(** Steps 6 to 11 of [SendMessage]: what runs once every precondition has
    passed. *)
Definition persist_and_fan_out (s : MessageService) (senderID : UUID)
    (req : SendMessageRequest) (conversationID : UUID) : M Message :=
  let* d := get_db in
  let members := other_member_rows d conversationID senderID in
  let memberViewingStatus := snapshot_viewing s conversationID members in
  let* message :=
    save_message senderID req conversationID members memberViewingStatus in
  let text := lastMessageText message in
  let* _ := for_each members
              (push_to_member s senderID conversationID message text
                 memberViewingStatus) in
  ret message.

(** Step 0 of [SendMessage]: the message is a text message and its content
    is nil or the empty string. *)
Definition content_missing (req : SendMessageRequest) : bool :=
  String.eqb (req_MessageType req) "text"
  && match req_Content req with
     | None => true
     | Some content => String.eqb content ""
     end.

Definition SendMessage (s : MessageService) (senderID : UUID)
    (req : SendMessageRequest) : M Message :=
  if content_missing req
  then fail (ErrMsg "content is required for text messages")
  else
    let* resolved :=
      match ReceiverID req with
      | Some receiverID =>
        if (req_ConversationID req =? Nil)%N
        then wrap "failed to get conversation"
                  (getOrCreatePrivateConversation senderID receiverID)
        else ret (req_ConversationID req, false)
      | None => ret (req_ConversationID req, false)
      end in
    let '(conversationID, conversationJustCreated) := resolved in
    if (conversationID =? Nil)%N
    then fail (ErrMsg "conversation_id is required")
    else
      let* d := get_db in
      if negb (isConversationMember d conversationID senderID)
      then fail (ErrMsg "user is not a member of this conversation")
      else
        let* _ :=
          match ReceiverID req with
          | Some receiverID =>
            if isBlocked d senderID receiverID
            then fail (ErrMsg "you are blocked by this user")
            else ret tt
          | None => ret tt
          end in
        if video_too_large s req
        then fail (ErrMsg "video file size exceeds limit")
        else if negb conversationJustCreated
                && IsFeatureEnabled (sysSvc s) "enable_first_message_limit"
        then
          let lockKey := LockSendMsg conversationID senderID in
          let* lockAcquired := acquire_lock lockKey (2 * second) 3 0 in
          if negb lockAcquired
          then fail (ErrMsg "failed to acquire lock, please try again")
          else
            defer (emit (RedisDel lockKey))
              (let* d := get_db in
               if negb (CheckCanSend s d senderID conversationID)
               then fail (ErrMsg "first message limit: wait for reply before sending more messages")
               else persist_and_fan_out s senderID req conversationID)
        else
          let* d := get_db in
          if negb conversationJustCreated
             && negb (CheckCanSend s d senderID conversationID)
          then fail (ErrMsg "first message limit: wait for reply before sending more messages")
          else persist_and_fan_out s senderID req conversationID.

(** [RecallMessage]: the elapsed time is [NOW() - created_at] as the database
    computes it; in microseconds here, so [elapsedSeconds > 10] reads
    [elapsed > 10 * second]. *)
Definition recall (t : Time) (m : Message) : Message :=
  {| msg_ID := msg_ID m; msg_ConversationID := msg_ConversationID m;
     SenderID := SenderID m; MessageType := MessageType m;
     Content := Content m; Metadata := Metadata m; Status := Status m;
     ReplyToMessageID := ReplyToMessageID m;
     IsRecalled := true; RecalledAt := Some t;
     msg_CreatedAt := msg_CreatedAt m |}.

Definition RecallMessage (userID messageID : UUID) : M unit :=
  let* d := get_db in
  match find_message d messageID with
  | None => fail (ErrMsg "message not found")
  | Some message =>
    if negb (SenderID message =? userID)%N
    then fail (ErrMsg "you can only recall your own messages")
    else if IsRecalled message
    then fail (ErrMsg "message already recalled")
    else
      let* t := get_now in
      let elapsed := t - msg_CreatedAt message in
      if elapsed >? 10 * second
      then fail (ErrMsg "can only recall messages within 2 minutes")
      else
        put_db (set_messages
                  (map (fun m => if (msg_ID m =? msg_ID message)%N
                                 then recall t m else m)
                       (messages d)) d)
  end.

(** [MarkAsRead]: the WHERE clause of the UPDATE, and the row it writes. *)
Definition read_mark_applies (d : DB) (conversationID userID : UUID)
    (targetCreatedAt : Time) (cm : ConversationMember) : bool :=
  (cm_ConversationID cm =? conversationID)%N
  && (cm_UserID cm =? userID)%N
  && match LastReadMessageID cm with
     | None => true
     | Some lastRead =>
       negb (existsb (fun m => (msg_ID m =? lastRead)%N
                               && (msg_CreatedAt m >? targetCreatedAt))
                     (messages d))
     end.

Definition member_after_read (messageID : UUID) (t : Time)
    (m : ConversationMember) : ConversationMember :=
  {| cm_ID := cm_ID m; cm_ConversationID := cm_ConversationID m;
     cm_UserID := cm_UserID m; Role := Role m; IsMuted := IsMuted m;
     IsHidden := IsHidden m; JoinedAt := JoinedAt m; LeftAt := LeftAt m;
     UnreadCount := 0; LastReadMessageID := Some messageID;
     LastReadAt := Some t |}.

Definition MarkAsRead (s : MessageService)
    (userID conversationID messageID : UUID) : M unit :=
  let* d := get_db in
  match find_message d messageID with
  | None => fail (ErrWrap "message not found" (ErrSQL "record not found"))
  | Some targetMessage =>
    let* t := get_now in
    let applies :=
      read_mark_applies d conversationID userID (msg_CreatedAt targetMessage) in
    let rowsAffected := Count applies (conversation_members d) in
    let* _ :=
      put_db (set_conversation_members
                (map (fun cm => if applies cm
                                then member_after_read messageID t cm else cm)
                     (conversation_members d)) d) in
    if (rowsAffected >? 0) && unreadNotifier s
    then emit (UnreadCountUpdate userID conversationID 0)
    else ret tt
  end.

(** ** The conversation service *)

(** The loop over [memberIDs] in [CreateGroupConversation]. *)
Definition add_listed_members (conversationID creatorID : UUID)
    (memberIDs : list UUID) : M unit :=
  for_each memberIDs
    (fun memberID =>
       if (memberID =? creatorID)%N then ret tt
       else CreateMember conversationID memberID "member").

Definition CreateGroupConversation (creatorID : UUID) (groupName : string)
    (memberIDs : list UUID) : M Conversation :=
  Transaction
    (let* conversation :=
       wrap "failed to create conversation"
            (CreateConversation "group" (Some groupName)) in
     let* _ := CreateMember (conv_ID conversation) creatorID "owner" in
     let* _ := add_listed_members (conv_ID conversation) creatorID memberIDs in
     ret conversation).

(** The sibling [AddMembersToGroup] counts the active rows of an id before
    it inserts it, and skips the id when there is one. *)
Definition add_member_if_absent (conversationID memberID : UUID) : M unit :=
  let* d := get_db in
  if isConversationMember d conversationID memberID then ret tt
  else wrap "failed to add member" (CreateMember conversationID memberID "member").

(** [First(&member)] on [conversation_id = ? AND user_id = ? AND left_at IS
    NULL]. *)
Definition find_active_member (d : DB) (conversationID userID : UUID)
    : option ConversationMember :=
  First cm_ID
        (List.filter (fun m => (cm_ConversationID m =? conversationID)%N
                               && (cm_UserID m =? userID)%N && is_null (LeftAt m))
                     (conversation_members d)).

(** [checkCanSendFromMessages]: the loop counts the user's messages up to
    the first message of somebody else, where it breaks. *)
Fixpoint count_until_other (userID : UUID) (msgs : list Message)
    (myMessageCount othersMessageCount : Z) : Z * Z :=
  match msgs with
  | [] => (myMessageCount, othersMessageCount)
  | msg :: rest =>
    if (SenderID msg =? userID)%N
    then count_until_other userID rest (myMessageCount + 1) othersMessageCount
    else (myMessageCount, othersMessageCount + 1)
  end.

Definition checkCanSendFromMessages (settingsCache : gmap string string)
    (userID : UUID) (msgs : list Message) : bool :=
  if negb (IsFeatureEnabled settingsCache "enable_first_message_limit") then true
  else
    let '(myMessageCount, othersMessageCount) :=
      count_until_other userID msgs 0 0 in
    (myMessageCount =? 0)%Z || (othersMessageCount >? 0).

Definition AddMembersToGroup (userID conversationID : UUID)
    (memberIDs : list UUID) : M unit :=
  let* d := get_db in
  match find_conversation d conversationID with
  | None => fail (ErrMsg "conversation not found")
  | Some conversation =>
    if negb (String.eqb (ConversationType conversation) "group")
    then fail (ErrMsg "can only add members to group conversations")
    else
      match find_active_member d conversationID userID with
      | None => fail (ErrMsg "you are not a member of this conversation")
      | Some member =>
        if negb (String.eqb (Role member) "owner")
           && negb (String.eqb (Role member) "admin")
        then fail (ErrMsg "only owner or admin can add members")
        else for_each memberIDs (add_member_if_absent conversationID)
      end
  end.

Definition with_left_at (t : option Time) (m : ConversationMember)
    : ConversationMember :=
  {| cm_ID := cm_ID m; cm_ConversationID := cm_ConversationID m;
     cm_UserID := cm_UserID m; Role := Role m; IsMuted := IsMuted m;
     IsHidden := IsHidden m; JoinedAt := JoinedAt m; LeftAt := t;
     UnreadCount := UnreadCount m; LastReadMessageID := LastReadMessageID m;
     LastReadAt := LastReadAt m |}.

(** [db.Model(&member).Update("left_at", now)]: [UPDATE conversation_members
    SET left_at = ? WHERE id = ?], the id being that of the row loaded
    before. *)
Definition update_left_at (member : ConversationMember) (t : Time) : M unit :=
  let* d := get_db in
  put_db (set_conversation_members
            (map (fun m => if (cm_ID m =? cm_ID member)%N
                           then with_left_at (Some t) m else m)
                 (conversation_members d)) d).

Definition RemoveMemberFromGroup (userID conversationID targetUserID : UUID)
    : M unit :=
  let* d := get_db in
  match find_conversation d conversationID with
  | None => fail (ErrMsg "conversation not found")
  | Some conversation =>
    if negb (String.eqb (ConversationType conversation) "group")
    then fail (ErrMsg "can only remove members from group conversations")
    else
      match find_active_member d conversationID userID with
      | None => fail (ErrMsg "you are not a member of this conversation")
      | Some operatorMember =>
        if negb (String.eqb (Role operatorMember) "owner")
           && negb (String.eqb (Role operatorMember) "admin")
        then fail (ErrMsg "only owner or admin can remove members")
        else
          match find_active_member d conversationID targetUserID with
          | None => fail (ErrMsg "target user is not a member")
          | Some targetMember =>
            if String.eqb (Role targetMember) "owner"
            then fail (ErrMsg "cannot remove owner")
            else
              let* t := get_now in
              update_left_at targetMember t
          end
      end
  end.

Definition LeaveGroup (userID conversationID : UUID) : M unit :=
  let* d := get_db in
  match find_conversation d conversationID with
  | None => fail (ErrMsg "conversation not found")
  | Some conversation =>
    if negb (String.eqb (ConversationType conversation) "group")
    then fail (ErrMsg "can only leave group conversations")
    else
      match find_active_member d conversationID userID with
      | None => fail (ErrMsg "you are not a member of this conversation")
      | Some member =>
        if String.eqb (Role member) "owner"
        then fail (ErrMsg "owner cannot leave group, please transfer ownership first")
        else
          let* t := get_now in
          update_left_at member t
      end
  end.


Definition with_is_hidden (hidden : bool) (m : ConversationMember)
    : ConversationMember :=
  {| cm_ID := cm_ID m; cm_ConversationID := cm_ConversationID m;
     cm_UserID := cm_UserID m; Role := Role m; IsMuted := IsMuted m;
     IsHidden := hidden; JoinedAt := JoinedAt m; LeftAt := LeftAt m;
     UnreadCount := UnreadCount m; LastReadMessageID := LastReadMessageID m;
     LastReadAt := LastReadAt m |}.

(** The WHERE clause [conversation_id = ? AND user_id = ? AND left_at IS
    NULL] of the three UPDATE statements below. *)
Definition is_active_member_row (conversationID userID : UUID)
    (m : ConversationMember) : bool :=
  (cm_ConversationID m =? conversationID)%N && (cm_UserID m =? userID)%N
  && is_null (LeftAt m).

(** An UPDATE of the rows the clause selects; the result is
    [RowsAffected]. *)
Definition update_active_member_rows (conversationID userID : UUID)
    (set : ConversationMember -> ConversationMember) : M Z :=
  let* d := get_db in
  let* _ :=
    put_db (set_conversation_members
              (map (fun m => if is_active_member_row conversationID userID m
                             then set m else m)
                   (conversation_members d)) d) in
  ret (Count (is_active_member_row conversationID userID)
             (conversation_members d)).


Definition HideConversation (userID conversationID : UUID) : M unit :=
  let* rowsAffected :=
    update_active_member_rows conversationID userID (with_is_hidden true) in
  if (rowsAffected =? 0)%Z
  then fail (ErrMsg "conversation not found or already left")
  else ret tt.

Definition UnhideConversation (userID conversationID : UUID) : M unit :=
  let* _ :=
    update_active_member_rows conversationID userID (with_is_hidden false) in
  ret tt.

(** ** The relationship service ([service/relationship_service.go]) *)

Definition set_user_relationships (rs : list UserRelationship) (d : DB) : DB :=
  {| conversations := conversations d;
     conversation_members := conversation_members d;
     messages := messages d; user_relationships := rs |}.

(** [INSERT INTO user_relationships]: primary key and [UNIQUE(user_id,
    target_user_id, relationship_type)]. *)
Definition insert_user_relationship (r : UserRelationship) : M unit :=
  let* d := get_db in
  if existsb (fun r' => (rel_ID r' =? rel_ID r)%N) (user_relationships d)
  then fail (ErrSQL "duplicate key value violates unique constraint user_relationships_pkey")
  else if existsb (fun r' => (rel_UserID r' =? rel_UserID r)%N
                             && (TargetUserID r' =? TargetUserID r)%N
                             && String.eqb (RelationshipType r')
                                           (RelationshipType r))
                  (user_relationships d)
  then fail (ErrSQL "duplicate key value violates unique constraint user_relationships_user_id_target_user_id_relationship_type_key")
  else put_db (set_user_relationships (user_relationships d ++ [r]) d).

(** The WHERE clause [user_id = ? AND target_user_id = ? AND
    relationship_type = 'blocked']. *)
Definition is_block_row (userID targetUserID : UUID) (r : UserRelationship)
    : bool :=
  (rel_UserID r =? userID)%N && (TargetUserID r =? targetUserID)%N
  && String.eqb (RelationshipType r) "blocked".

Definition BlockUser (userID targetUserID : UUID) : M unit :=
  let* d := get_db in
  let count := Count (is_block_row userID targetUserID) (user_relationships d) in
  if count >? 0 then fail (ErrMsg "user already blocked")
  else
    let* id := gen_random_uuid in
    let* t := get_now in
    wrap "failed to block user"
         (insert_user_relationship
            {| rel_ID := id; rel_UserID := userID; TargetUserID := targetUserID;
               RelationshipType := "blocked"; rel_CreatedAt := t |}).

Definition UnblockUser (userID targetUserID : UUID) : M unit :=
  let* d := get_db in
  let rowsAffected :=
    Count (is_block_row userID targetUserID) (user_relationships d) in
  let* _ :=
    put_db (set_user_relationships
              (List.filter (fun r => negb (is_block_row userID targetUserID r))
                           (user_relationships d)) d) in
  if (rowsAffected =? 0)%Z then fail (ErrMsg "user not blocked")
  else ret tt.

Definition IsBlocked (d : DB) (userID targetUserID : UUID) : bool :=
  Count (is_block_row userID targetUserID) (user_relationships d) >? 0.

(** ** Reading a message back

    [GetMessageByID] of the message service. *)
Definition GetMessageByID (d : DB) (messageID : UUID) : result Message :=
  match find_message d messageID with
  | Some message => Ok message
  | None => Err (ErrMsg "message not found")
  end.

(** ** The settings service and its table
    ([service/system_settings_service.go])

    The services above read the cache through [IsFeatureEnabled]; here is
    the service that owns it, with the table [system_settings] behind. *)

Record SystemSettings := {
  setting_ID : UUID;
  SettingKey : string;
  SettingValue : string;
  Description : string;
  setting_UpdatedAt : Time;
}.

Record SystemSettingsService := {
  system_settings : list SystemSettings;   (* the table *)
  settingsCache : gmap string string;
}.

(** [LoadSettings]: every row is written into the cache, which is not
    cleared first. *)
Definition LoadSettings (s : SystemSettingsService) : SystemSettingsService :=
  {| system_settings := system_settings s;
     settingsCache :=
       foldl (fun cache setting =>
                <[SettingKey setting := SettingValue setting]> cache)
             (settingsCache s) (system_settings s) |}.

Definition NewSystemSettingsService (table : list SystemSettings)
    : SystemSettingsService :=
  LoadSettings {| system_settings := table; settingsCache := ∅ |}.

(** [GetSetting]: the value and whether the key exists; the value of a
    missing key is the empty string. *)
Definition GetSetting (s : SystemSettingsService) (key : string)
    : string * bool :=
  match settingsCache s !! key with
  | Some value => (value, true)
  | None => (EmptyString, false)
  end.

Definition with_setting_value (value : string) (t : Time)
    (setting : SystemSettings) : SystemSettings :=
  {| setting_ID := setting_ID setting; SettingKey := SettingKey setting;
     SettingValue := value; Description := Description setting;
     setting_UpdatedAt := t |}.

(** [UpdateSetting]: [UPDATE system_settings SET setting_value = ?,
    updated_at = ? WHERE setting_key = ?] at time [t], then the cache, when
    a row was affected. *)
Definition UpdateSetting (s : SystemSettingsService) (t : Time)
    (key value : string) : result unit * SystemSettingsService :=
  let rowsAffected :=
    Count (fun setting => String.eqb (SettingKey setting) key)
          (system_settings s) in
  let table :=
    map (fun setting => if String.eqb (SettingKey setting) key
                        then with_setting_value value t setting else setting)
        (system_settings s) in
  if (rowsAffected =? 0)%Z
  then (Err (ErrMsg ("setting key not found: " +:+ key)),
        {| system_settings := table; settingsCache := settingsCache s |})
  else (Ok tt,
        {| system_settings := table;
           settingsCache := <[key := value]> (settingsCache s) |}).

(** [GetAllSettings] returns a copy of the cache. *)
Definition GetAllSettings (s : SystemSettingsService) : gmap string string :=
  settingsCache s.

(** ** The hub ([handler/websocket.go]) *)

Record Client := {
  client_ID : UUID;
  client_UserID : UUID;
  CurrentConversationID : option UUID;
  closed : bool;
}.

Record Hub := {
  Clients : gmap UUID (gmap UUID Client);
  MaxConnectionsPerUser : Z;
  hub_sysSvc : gmap string string;
}.

Definition NewHub (settingsCache : gmap string string) : Hub :=
  {| Clients := ∅; MaxConnectionsPerUser := 18; hub_sysSvc := settingsCache |}.

(** What is written on a connection: a text frame carrying marshalled JSON,
    or a close frame built by [websocket.FormatCloseMessage]. *)
Inductive FrameData :=
| JSONText (v : JSONValue)
| CloseData (closeCode : Z) (text : string).

Definition TextMessage : Z := 1.
Definition CloseMessage : Z := 8.
Definition CloseNormalClosure : Z := 1000.

Inductive HubEffect :=
| ConnWriteMessage (client : UUID) (messageType : Z) (data : FrameData)
| ConnClose (client : UUID)
| HubRedisSet (key : RedisKey) (value : string) (ttl : Z)
| GoNotifyOnlineStatusChange (user : UUID) (isOnline : bool).

(** [fmt.Sprintf("Maximum %d devices allowed", n)] *)
Definition max_devices_text (n : Z) : string :=
  "Maximum " +:+ pretty n +:+ " devices allowed".

Definition too_many_devices_payload (h : Hub) : JSONValue :=
  JObject [("type", JString "error");
           ("data", JObject [("code", JString "too_many_devices");
                             ("message",
                              JString (max_devices_text (MaxConnectionsPerUser h)))])].

Definition devices (clients : gmap UUID (gmap UUID Client)) (userID : UUID)
    : gmap UUID Client :=
  default ∅ (clients !! userID).

Definition with_clients (clients : gmap UUID (gmap UUID Client)) (h : Hub) : Hub :=
  {| Clients := clients; MaxConnectionsPerUser := MaxConnectionsPerUser h;
     hub_sysSvc := hub_sysSvc h |}.

Definition Register (h : Hub) (client : Client) : Hub * list HubEffect :=
  let userID := client_UserID client in
  let initialised :=
    match Clients h !! userID with
    | None => <[userID := ∅]> (Clients h)
    | Some _ => Clients h
    end in
  if Z.of_nat (size (devices initialised userID)) >=? MaxConnectionsPerUser h
  then
    (with_clients initialised h,
     [ConnWriteMessage (client_ID client) TextMessage
        (JSONText (too_many_devices_payload h));
      ConnWriteMessage (client_ID client) CloseMessage
        (CloseData CloseNormalClosure
                   (max_devices_text (MaxConnectionsPerUser h)));
      ConnClose (client_ID client)])
  else
    let registered :=
      <[userID := <[client_ID client := client]> (devices initialised userID)]>
        initialised in
    let deviceCount := size (devices registered userID) in
    let isFirstDevice := (deviceCount =? 1)%nat in
    (with_clients registered h,
     if IsFeatureEnabled (hub_sysSvc h) "enable_online_status"
     then HubRedisSet (Online userID) "1" (30 * second)
          :: (if isFirstDevice then [GoNotifyOnlineStatusChange userID true]
              else [])
     else []).

(** [IsUserInConversation]: some device of the user has the conversation as
    its current one. *)
Definition IsUserInConversation (h : Hub) (userID conversationID : UUID) : bool :=
  bool_decide (map_Exists (fun _ client =>
                             CurrentConversationID client = Some conversationID)
                          (devices (Clients h) userID)).

(** *** Leaving the hub *)

(** What [Unregister] does besides changing the registry: the effects
    [Register] has too, the deletion of a cache key, and the closing of the
    client's [Send] channel. *)
Inductive HubAction :=
| Did (e : HubEffect)
| HubRedisDel (key : RedisKey)
| CloseSend (client : UUID).

Definition with_closed (b : bool) (client : Client) : Client :=
  {| client_ID := client_ID client; client_UserID := client_UserID client;
     CurrentConversationID := CurrentConversationID client; closed := b |}.

(** [Unregister]: the registry, then the channel, which is closed once. *)
Definition Unregister (h : Hub) (client : Client)
    : Hub * Client * list HubAction :=
  let userID := client_UserID client in
  let '(h', actions) :=
    match Clients h !! userID with
    | Some userClients =>
      match userClients !! client_ID client with
      | Some _ =>
        let remaining := delete (client_ID client) userClients in
        if (size remaining =? 0)%nat
        then
          (with_clients (delete userID (Clients h)) h,
           if IsFeatureEnabled (hub_sysSvc h) "enable_online_status"
           then [HubRedisDel (Online userID);
                 Did (GoNotifyOnlineStatusChange userID false)]
           else [])
        else (with_clients (<[userID := remaining]> (Clients h)) h, [])
      | None => (h, [])
      end
    | None => (h, [])
    end in
  if closed client then (h', client, actions)
  else (h', with_closed true client, (actions ++ [CloseSend (client_ID client)])%list).

(** [IsOnline] and [IsUserOnline] have the same body. *)
Definition IsOnline (h : Hub) (userID : UUID) : bool :=
  match Clients h !! userID with
  | Some userClients => (0 <? size userClients)%nat
  | None => false
  end.

Definition IsUserOnline (h : Hub) (userID : UUID) : bool :=
  match Clients h !! userID with
  | Some userClients => (0 <? size userClients)%nat
  | None => false
  end.

(** ** Sample data for the concrete runs *)

Module Sample.

Definition alice : UUID := 1%N.
Definition bob : UUID := 2%N.
Definition carol : UUID := 3%N.

Definition empty_db : DB :=
  {| conversations := []; conversation_members := [];
     messages := []; user_relationships := [] |}.

(** A world whose clock reads [t], whose generated ids are 1000, 1001, ...
    and whose cache answers every SETNX with [lock]. *)
Definition world (d : DB) (t : Time) (lock : bool) : World :=
  {| db := d; now := t; uuid_source := fun i => N.of_nat (1000 + i);
     uuid_drawn := 0; setnx_reply := fun _ _ => lock; effects := [] |}.

Definition settings (first_message_limit : bool) : gmap string string :=
  {[ "enable_first_message_limit" :=
       if first_message_limit then "true" else "false" ]}.

(** The service as the composition root wires it: the hub is the checker
    and both notifiers; nobody is viewing. *)
Definition service (first_message_limit : bool) : MessageService :=
  {| sysSvc := settings first_message_limit; maxVideoSizeMB := 5;
     hubChecker := Some (fun _ _ => false);
     unreadNotifier := true; convNotifier := true |}.

Definition conversation (id : UUID) (type : string) : Conversation :=
  {| conv_ID := id; ConversationType := type; GroupName := None;
     conv_CreatedAt := 0; UpdatedAt := 0;
     LastMessageAt := None; LastMessageID := None |}.

Definition member (id conversationID userID : UUID) (role : string)
    (leftAt : option Time) (unread : Z) (lastRead : option UUID)
    : ConversationMember :=
  {| cm_ID := id; cm_ConversationID := conversationID; cm_UserID := userID;
     Role := role; IsMuted := false; IsHidden := true; JoinedAt := 0;
     LeftAt := leftAt; UnreadCount := unread;
     LastReadMessageID := lastRead; LastReadAt := None |}.

Definition message (id conversationID senderID : UUID) (type : string)
    (content : option string) (createdAt : Time) : Message :=
  {| msg_ID := id; msg_ConversationID := conversationID;
     SenderID := senderID; MessageType := type; Content := content;
     Metadata := None; Status := "sent"; ReplyToMessageID := None;
     IsRecalled := false; RecalledAt := None; msg_CreatedAt := createdAt |}.

Definition request (conversationID : UUID) (receiverID : option UUID)
    (type : string) (content : option string) : SendMessageRequest :=
  {| req_ConversationID := conversationID; ReceiverID := receiverID;
     req_MessageType := type; req_Content := content;
     req_Metadata := None; req_ReplyToMessageID := None |}.

Definition blocked (id owner target : UUID) : UserRelationship :=
  {| rel_ID := id; rel_UserID := owner; TargetUserID := target;
     RelationshipType := "blocked"; rel_CreatedAt := 0 |}.

(** Alice and Bob share private conversation 10; each has written once. *)
Definition private_chat : DB :=
  {| conversations := [conversation 10 "private"];
     conversation_members :=
       [member 11 10 alice "member" None 0 None;
        member 12 10 bob "member" None 0 None];
     messages :=
       [message 13 10 alice "text" (Some "Before block") 0;
        message 14 10 bob "text" (Some "Reply from B") (1 * second)];
     user_relationships := [] |}.

(** The same, after Bob has blocked Alice. *)
Definition private_chat_blocked : DB :=
  {| conversations := conversations private_chat;
     conversation_members := conversation_members private_chat;
     messages := messages private_chat;
     user_relationships := [blocked 15 bob alice] |}.

(** Group 20: Alice owns it, Bob is active, Carol left at time 5. *)
Definition group_with_leaver : DB :=
  {| conversations := [conversation 20 "group"];
     conversation_members :=
       [member 21 20 alice "owner" None 0 None;
        member 22 20 bob "member" None 0 None;
        member 23 20 carol "member" (Some 5) 4 None];
     messages := []; user_relationships := [] |}.

Definition device (userID id : UUID) : Client :=
  {| client_ID := id; client_UserID := userID;
     CurrentConversationID := None; closed := false |}.

(** A hub after [n] devices of Alice, numbered 1 to [n], have registered. *)
Definition hub_after (n : nat) : Hub :=
  fold_left (fun h i => fst (Register h (device alice (N.of_nat i))))
            (seq 1 n) (NewHub (settings true)).

(** Private conversation 10 again, with Bob's read mark on Alice's message
    13 (sent at 0) or on his own later message 14 (sent at 1 s), and three
    unread messages. *)
Definition private_chat_read (lastRead : option UUID) : DB :=
  {| conversations := conversations private_chat;
     conversation_members :=
       [member 11 10 alice "member" None 0 None;
        member 12 10 bob "member" None 3 lastRead];
     messages := messages private_chat;
     user_relationships := [] |}.

(** Private conversation 10 when only Alice has written. *)
Definition private_chat_unanswered : DB :=
  {| conversations := conversations private_chat;
     conversation_members := conversation_members private_chat;
     messages := [message 13 10 alice "text" (Some "Before block") 0];
     user_relationships := [] |}.

(** A hub on which Bob has one device, looking at conversation 20, and the
    message service wired to it. *)
Definition hub_bob_viewing : Hub :=
  {| Clients :=
       {[ bob := {[ 40%N := {| client_ID := 40; client_UserID := bob;
                               CurrentConversationID := Some 20%N;
                               closed := false |} ]} ]};
     MaxConnectionsPerUser := 18; hub_sysSvc := settings false |}.

Definition service_on (h : Hub) : MessageService :=
  {| sysSvc := hub_sysSvc h; maxVideoSizeMB := 5;
     hubChecker := Some (IsUserInConversation h);
     unreadNotifier := true; convNotifier := true |}.

(** Group 20 without Carol, created and filled by the sibling loop. *)
Definition group_of_two : DB :=
  {| conversations := [conversation 20 "group"];
     conversation_members := [member 21 20 alice "owner" None 0 None];
     messages := []; user_relationships := [] |}.

(** The message a send returns; a blank row when it fails. *)
Definition sent (s : MessageService) (senderID : UUID)
    (req : SendMessageRequest) (w : World) : Message :=
  match fst (SendMessage s senderID req w) with
  | Ok m => m
  | Err _ => message 0 0 0 EmptyString None 0
  end.

(** Two rows of [system_settings] as [sql/init.sql] inserts them. *)
Definition setting (id : UUID) (key value : string) : SystemSettings :=
  {| setting_ID := id; SettingKey := key; SettingValue := value;
     Description := EmptyString; setting_UpdatedAt := 0 |}.

Definition settings_table : list SystemSettings :=
  [setting 50 "enable_online_status" "true";
   setting 51 "enable_first_message_limit" "true"].

End Sample.

(** ** Notions used to state the properties *)

(** [UNIQUE(conversation_id, user_id)] on [conversation_members]. *)
Definition member_key (m : ConversationMember) : UUID * UUID :=
  (cm_ConversationID m, cm_UserID m).

Definition members_unique (d : DB) : Prop :=
  NoDup (map member_key (conversation_members d)).

(** A computation that leaves a part [f] of the store as it found it. *)
Definition keeps {X A} (f : DB -> X) (c : M A) : Prop :=
  forall w, f (db (snd (c w))) = f (db w).

(** The member table as a send by [senderID] into [conversationID] leaves
    it: every row of the conversation that is not the sender's is rewritten,
    whatever its [left_at]. *)
Definition members_after_send (s : MessageService)
    (conversationID senderID : UUID) (rows : list ConversationMember)
    : list ConversationMember :=
  map (fun m => if (cm_ConversationID m =? conversationID)%N
                   && negb (cm_UserID m =? senderID)%N
                then member_after_message
                       (isViewing s (cm_UserID m) conversationID) m
                else m) rows.


(** The text of the first-message-limit error. *)
Definition first_message_limit_text : string :=
  "first message limit: wait for reply before sending more messages".

(** An error produced by [fmt.Errorf] with [%w]. *)
Definition wrapped (e : error) : Prop :=
  exists text cause, e = ErrWrap text cause.

(** The users with a row of the conversation whose [left_at] is null. *)
Definition active_members (d : DB) (conversationID : UUID) : gset UUID :=
  list_to_set (getConversationMembers d conversationID).

(** Members of private conversations do not leave: [LeaveGroup] and
    [RemoveMember], the only writers of [left_at], turn down conversations
    that are not groups. *)
Definition private_members_stay (d : DB) : Prop :=
  forall c m,
    In c (conversations d) -> In m (conversation_members d) ->
    cm_ConversationID m = conv_ID c -> ConversationType c = "private" ->
    LeftAt m = None.

(** There is a private conversation whose active members are exactly [a]
    and [b]. *)
Definition private_conversation_of (d : DB) (a b : UUID) (c : Conversation)
    : Prop :=
  In c (conversations d) /\ ConversationType c = "private"
  /\ active_members d (conv_ID c) = {[a; b]}.

(** One of the first [attempts] SETNX calls on [key] is answered with yes. *)
Definition lock_granted (w : World) (key : RedisKey) (attempts : nat) : Prop :=
  exists i, (i < attempts)%nat /\ setnx_reply w key i = true.

(** The next three generated ids can serve as the id of a new conversation
    and of its two member rows. *)
Definition next_ids_fresh (w : World) : Prop :=
  let cid := uuid_source w (uuid_drawn w) in
  let id1 := uuid_source w (S (uuid_drawn w)) in
  let id2 := uuid_source w (S (S (uuid_drawn w))) in
  conversation_exists (db w) cid = false
  /\ (forall m, In m (conversation_members (db w)) ->
                cm_ConversationID m <> cid /\ cm_ID m <> id1 /\ cm_ID m <> id2)
  /\ id1 <> id2.

(** The rows [createPrivateConversation] writes. *)
Definition new_private_conversation (id : UUID) (t : Time) : Conversation :=
  {| conv_ID := id; ConversationType := "private"; GroupName := None;
     conv_CreatedAt := t; UpdatedAt := t;
     LastMessageAt := None; LastMessageID := None |}.

Definition new_member (id conversationID userID : UUID) (t : Time)
    : ConversationMember :=
  {| cm_ID := id; cm_ConversationID := conversationID; cm_UserID := userID;
     Role := "member"; IsMuted := false; IsHidden := false; JoinedAt := t;
     LeftAt := None; UnreadCount := 0; LastReadMessageID := None;
     LastReadAt := None |}.

(** The world after one generated id has been taken. *)
Definition after_draw (w : World) : World :=
  {| db := db w; now := now w; uuid_source := uuid_source w;
     uuid_drawn := S (uuid_drawn w); setnx_reply := setnx_reply w;
     effects := effects w |}.

(** Every byte of the string is below 0x80. *)
Fixpoint all_ascii (s : string) : bool :=
  match s with
  | EmptyString => true
  | String a rest => (N_of_ascii a <? 128)%N && all_ascii rest
  end.

(** The primary keys of [conversation_members] and [conversations]. *)
Definition member_ids_unique (d : DB) : Prop :=
  NoDup (map cm_ID (conversation_members d)).

Definition conversation_ids_unique (d : DB) : Prop :=
  NoDup (map conv_ID (conversations d)).

(** The member table after [UPDATE ... SET left_at = t WHERE id = ?] for
    the row [member]. *)
Definition members_after_leaving (member : ConversationMember) (t : Time)
    (rows : list ConversationMember) : list ConversationMember :=
  map (fun m => if (cm_ID m =? cm_ID member)%N
                then with_left_at (Some t) m else m) rows.

(** The member table after an UPDATE of the active rows of one user in one
    conversation. *)
Definition members_after_update (conversationID userID : UUID)
    (set : ConversationMember -> ConversationMember)
    (rows : list ConversationMember) : list ConversationMember :=
  map (fun m => if is_active_member_row conversationID userID m
                then set m else m) rows.

(** A column update that leaves the key columns and [left_at] alone. *)
Definition keeps_membership_columns
    (set : ConversationMember -> ConversationMember) : Prop :=
  forall m, cm_ID (set m) = cm_ID m
            /\ cm_ConversationID (set m) = cm_ConversationID m
            /\ cm_UserID (set m) = cm_UserID m
            /\ LeftAt (set m) = LeftAt m.

(** The row [SendMessage] writes for a request, given the generated id and
    the time of the insert. *)
Definition new_message (id conversationID senderID : UUID)
    (req : SendMessageRequest) (t : Time) : Message :=
  {| msg_ID := id; msg_ConversationID := conversationID;
     SenderID := senderID; MessageType := req_MessageType req;
     Content := req_Content req; Metadata := req_Metadata req;
     Status := "sent"; ReplyToMessageID := req_ReplyToMessageID req;
     IsRecalled := false; RecalledAt := None; msg_CreatedAt := t |}.




(** The cache holds the value of every row of the table. *)
Definition cache_coherent (s : SystemSettingsService) : Prop :=
  forall setting, In setting (system_settings s) ->
    settingsCache s !! SettingKey setting = Some (SettingValue setting).

(** * Properties *)

Example runes_ascii : runes "hi" = [104%N; 105%N].
Proof. reflexivity. Qed.

Example runes_cjk : runes "[图片]" = [91%N; 22270%N; 29255%N; 93%N].
Proof. reflexivity. Qed.

Example runes_roundtrip : string_of_runes (runes "[图片]") = "[图片]".
Proof. reflexivity. Qed.

(** ** Recall *)

Lemma RecallMessage_within_ten_seconds (w : World) (userID : UUID) (m : Message) :
  find_message (db w) (msg_ID m) = Some m ->
  SenderID m = userID ->
  IsRecalled m = false ->
  now w - msg_CreatedAt m <= 10 * second ->
  RecallMessage userID (msg_ID m) w
  = (Ok tt,
     with_db (set_messages
                (map (fun m' => if (msg_ID m' =? msg_ID m)%N
                                then recall (now w) m' else m')
                     (messages (db w))) (db w)) w).
Proof.
  intros Hfind Hsender Hlive Hwin.
  unfold RecallMessage, bind, get_db, get_now, put_db, fail; cbn.
  rewrite Hfind, Hsender, N.eqb_refl, Hlive; cbn.
  destruct (Z.gtb_spec (now w - msg_CreatedAt m) (10 * second)); [lia | reflexivity].
Qed.

(** C1: a recall by the sender of a live message is turned down with the
    window error as soon as more than ten seconds have passed since
    [created_at], so also at [created_at + 119 s], inside the two minutes
    the claim (and the comments of [RecallMessage]) promise; the store is
    left as it was. *)
Theorem RecallMessage_rejected_after_ten_seconds
    (w : World) (userID : UUID) (m : Message) :
  find_message (db w) (msg_ID m) = Some m ->
  SenderID m = userID ->
  IsRecalled m = false ->
  10 * second < now w - msg_CreatedAt m ->
  RecallMessage userID (msg_ID m) w
  = (Err (ErrMsg "can only recall messages within 2 minutes"), w).
Proof.
  intros Hfind Hsender Hlive Hlate.
  unfold RecallMessage, bind, get_db, get_now, put_db, fail; cbn.
  rewrite Hfind, Hsender, N.eqb_refl, Hlive; cbn.
  destruct (Z.gtb_spec (now w - msg_CreatedAt m) (10 * second)); [reflexivity | lia].
Qed.

Lemma RecallMessage_rejected_at_119_seconds :
  let m := Sample.message 13 10 Sample.alice "text" (Some "Before block") 0 in
  let w := Sample.world Sample.private_chat (119 * second) true in
  now w - msg_CreatedAt m = 119 * second
  /\ RecallMessage Sample.alice 13 w
     = (Err (ErrMsg "can only recall messages within 2 minutes"), w).
Proof.
  split; [reflexivity |].
  apply (RecallMessage_rejected_after_ten_seconds
           (Sample.world Sample.private_chat (119 * second) true) Sample.alice
           (Sample.message 13 10 Sample.alice "text" (Some "Before block") 0));
    [reflexivity | reflexivity | reflexivity | vm_compute; reflexivity].
Defined.

(** ** Running the monad *)

Ltac run_monad :=
  unfold bind, ret, fail, get_db, put_db, get_now, emit, gen_random_uuid,
    wrap, defer, Transaction, with_db in *; cbn [fst snd db now uuid_source
    uuid_drawn setnx_reply effects] in *.

(** A run that has reached a return: [H : (r, w) = (r', w')]. *)
Ltac leaf H := cbn in H; unfold fail, ret in H; inversion H; subst; clear H.

Lemma for_each_app {A} (l1 l2 : list A) (body : A -> M unit) (w : World) :
  for_each (l1 ++ l2) body w
  = (let* _ := for_each l1 body in for_each l2 body) w.
Proof.
  revert w; induction l1 as [|x l1 IH]; intros w; cbn; unfold bind in *.
  - reflexivity.
  - destruct (body x w) as [[[]|e] w1]; [apply IH | reflexivity].
Qed.

Lemma acquire_lock_db (key : RedisKey) (ttl : Z) (attempts i : nat) (w : World) :
  db (snd (acquire_lock key ttl attempts i w)) = db w
  /\ now (snd (acquire_lock key ttl attempts i w)) = now w
  /\ uuid_source (snd (acquire_lock key ttl attempts i w)) = uuid_source w
  /\ uuid_drawn (snd (acquire_lock key ttl attempts i w)) = uuid_drawn w
  /\ exists b, fst (acquire_lock key ttl attempts i w) = Ok b.
Proof.
  revert i; induction attempts as [|n IH]; intros i; cbn.
  - repeat split; eauto.
  - destruct (setnx_reply w key i); [|apply IH].
    run_monad. repeat split; eauto.
Qed.

(** ** Sending to oneself *)

(** C10, as the code has it: a request without conversation id whose
    receiver is the sender always fails and leaves the world (so also the
    conversation, member and message tables) as it was; the error is the
    wrapped "cannot send message to yourself", unless the request is a text
    message without content, which the content check turns down first. *)
Theorem SendMessage_to_self_fails
    (s : MessageService) (senderID : UUID) (req : SendMessageRequest) (w : World) :
  req_ConversationID req = Nil ->
  ReceiverID req = Some senderID ->
  SendMessage s senderID req w
  = (Err (if content_missing req
          then ErrMsg "content is required for text messages"
          else ErrWrap "failed to get conversation"
                       (ErrMsg "cannot send message to yourself")), w).
Proof.
  intros Hconv Hrecv. unfold SendMessage.
  destruct (content_missing req); [reflexivity |].
  rewrite Hrecv, Hconv. unfold getOrCreatePrivateConversation.
  rewrite !N.eqb_refl. reflexivity.
Qed.

Lemma SendMessage_to_self_with_content :
  let req := Sample.request Nil (Some Sample.alice) "text" (Some "x") in
  let w := Sample.world Sample.empty_db 0 true in
  req_ConversationID req = Nil /\ ReceiverID req = Some Sample.alice
  /\ SendMessage (Sample.service true) Sample.alice req w
     = (Err (ErrWrap "failed to get conversation"
                     (ErrMsg "cannot send message to yourself")), w).
Proof.
  split; [reflexivity | split; [reflexivity |]].
  apply (SendMessage_to_self_fails (Sample.service true) Sample.alice
           (Sample.request Nil (Some Sample.alice) "text" (Some "x"))
           (Sample.world Sample.empty_db 0 true)); reflexivity.
Defined.

(** C10 as stated fails: with no content in a text message the error is
    not the self-message one. *)
Lemma SendMessage_to_self_without_content :
  let req := Sample.request Nil (Some Sample.alice) "text" None in
  let w := Sample.world Sample.empty_db 0 true in
  exists e, fst (SendMessage (Sample.service true) Sample.alice req w) = Err e
            /\ Error e = "content is required for text messages"
            /\ Error e <> "cannot send message to yourself"
            /\ Error e <> "failed to get conversation: cannot send message to yourself".
Proof.
  eexists; split; [vm_compute; reflexivity |].
  split; [reflexivity | split; discriminate].
Qed.

(** ** The preview of the last message *)

(** C8, as the code has it: the preview of a text message is its content,
    cut to the first 50 runes and followed by three dots when it has more;
    the previews of image, video and emoji messages are the Chinese labels
    the code writes. *)
Theorem lastMessageText_spec (message : Message) :
  (forall content,
      MessageType message = "text" -> Content message = Some content ->
      lastMessageText message
      = Some (if (50 <? length (runes content))%nat
              then string_of_runes (firstn 50 (runes content)) +:+ "..."
              else content))
  /\ (MessageType message = "image" -> lastMessageText message = Some "[图片]")
  /\ (MessageType message = "video" -> lastMessageText message = Some "[视频]")
  /\ (MessageType message = "emoji" -> lastMessageText message = Some "[表情]").
Proof.
  unfold lastMessageText.
  repeat split; intros; repeat match goal with H : _ = _ |- _ => rewrite H end;
    reflexivity.
Qed.

Lemma runes_cons_ascii (a : ascii) (rest : string) :
  (N_of_ascii a <? 128)%N = true ->
  runes (String a rest) = N_of_ascii a :: runes rest.
Proof. intros Ha. cbn [runes]. rewrite Ha. reflexivity. Qed.

Lemma string_of_runes_cons_ascii (a : ascii) (rs : list N) :
  (N_of_ascii a <? 128)%N = true ->
  string_of_runes (N_of_ascii a :: rs) = String a (string_of_runes rs).
Proof.
  intros Ha. unfold string_of_runes, encode_rune at 1. cbn [map concat].
  rewrite Ha. cbn. rewrite ascii_N_embedding. reflexivity.
Qed.

Lemma runes_length_ascii (s : string) :
  all_ascii s = true -> length (runes s) = String.length s.
Proof.
  induction s as [|a rest IH]; [reflexivity |].
  cbn [all_ascii]. intros H. apply andb_true_iff in H. destruct H as [Ha Hrest].
  rewrite (runes_cons_ascii a rest Ha). cbn. rewrite (IH Hrest). reflexivity.
Qed.

Lemma runes_prefix_ascii (s : string) (n : nat) :
  all_ascii s = true ->
  string_of_runes (firstn n (runes s)) = substring 0 n s.
Proof.
  revert n; induction s as [|a rest IH]; intros n.
  - destruct n; reflexivity.
  - cbn [all_ascii]. intros H. apply andb_true_iff in H. destruct H as [Ha Hrest].
    rewrite (runes_cons_ascii a rest Ha). destruct n as [|n]; [reflexivity |].
    cbn [firstn substring]. rewrite (string_of_runes_cons_ascii a _ Ha).
    rewrite (IH n Hrest). reflexivity.
Qed.

(** For plain ASCII content runes are bytes: the preview is the first 50
    bytes and three dots, or the content. *)
Lemma lastMessageText_ascii (message : Message) (content : string) :
  MessageType message = "text" -> Content message = Some content ->
  all_ascii content = true ->
  lastMessageText message
  = Some (if (50 <? String.length content)%nat
          then substring 0 50 content +:+ "..." else content).
Proof.
  intros Htype Hcontent Hascii. unfold lastMessageText.
  rewrite Htype, Hcontent, String.eqb_refl.
  rewrite (runes_length_ascii content Hascii),
    (runes_prefix_ascii content 50 Hascii).
  reflexivity.
Qed.

(** C8 as stated fails: the preview of an image message is not "[image]". *)
Lemma lastMessageText_image_is_not_english :
  let message := Sample.message 13 10 Sample.alice "image" None 0 in
  lastMessageText message = Some "[图片]"
  /\ lastMessageText message <> Some "[image]".
Proof. split; [reflexivity | discriminate]. Qed.

Lemma lastMessageText_long_text_witness :
  let content := "0123456789012345678901234567890123456789012345678901234" in
  let message := Sample.message 13 10 Sample.alice "text" (Some content) 0 in
  MessageType message = "text" /\ Content message = Some content
  /\ lastMessageText message
     = Some "01234567890123456789012345678901234567890123456789...".
Proof.
  split; [reflexivity | split; [reflexivity |]].
  exact (proj1 (lastMessageText_spec
                  (Sample.message 13 10 Sample.alice "text"
                     (Some "0123456789012345678901234567890123456789012345678901234") 0))
               "0123456789012345678901234567890123456789012345678901234"
               eq_refl eq_refl).
Defined.

Example lastMessageText_counts_runes_not_bytes :
  lastMessageText
    (Sample.message 13 10 Sample.alice "text"
       (Some "图片图片图片图片图片图片图片图片图片图片") 0)
  = Some "图片图片图片图片图片图片图片图片图片图片".
Proof. reflexivity. Qed.

(** ** Creating a group *)


(** A member row that is there makes [tx.Create] of the same conversation
    and user fail. *)
Lemma CreateMember_existing (conversationID userID : UUID) (role : string)
    (w : World) :
  has_member_row (db w) conversationID userID = true ->
  exists e, fst (CreateMember conversationID userID role w) = Err e.
Proof.
  intros Hrow. unfold CreateMember, insert_conversation_member. run_monad.
  unfold has_member_row in Hrow.
  repeat match goal with
         | |- context [if ?b then _ else _] => destruct b eqn:?; cbn
         end; eauto; congruence.
Qed.

(** A successful [tx.Create] of a member leaves its row, and keeps the rows
    that were there. *)
Lemma CreateMember_ok (conversationID userID : UUID) (role : string)
    (w w' : World) :
  CreateMember conversationID userID role w = (Ok tt, w') ->
  has_member_row (db w') conversationID userID = true
  /\ forall c u, has_member_row (db w) c u = true ->
                 has_member_row (db w') c u = true.
Proof.
  unfold CreateMember, insert_conversation_member. run_monad.
  repeat match goal with
         | |- context [if ?b then _ else _] => destruct b eqn:?; cbn
         end; intros Heq; inversion Heq; subst; clear Heq; cbn.
  split.
  - rewrite existsb_app; cbn. rewrite !N.eqb_refl. cbn.
    apply orb_true_r.
  - intros c u Hcu. unfold has_member_row in Hcu.
    rewrite existsb_app, Hcu. reflexivity.
Qed.

Lemma add_listed_members_keeps_rows (conversationID creatorID : UUID)
    (memberIDs : list UUID) (w w' : World) :
  add_listed_members conversationID creatorID memberIDs w = (Ok tt, w') ->
  forall c u, has_member_row (db w) c u = true ->
              has_member_row (db w') c u = true.
Proof.
  unfold add_listed_members.
  revert w; induction memberIDs as [|x ids IH]; intros w; cbn.
  - intros Heq; inversion Heq; subst; auto.
  - unfold bind.
    destruct (x =? creatorID)%N.
    + cbn. intros Hrest c u Hcu. exact (IH _ Hrest c u Hcu).
    + destruct (CreateMember conversationID x "member" w) as [[[]|e] w1] eqn:Hx;
        [|discriminate].
      intros Hrest c u Hcu. apply (IH _ Hrest).
      exact (proj2 (CreateMember_ok _ _ _ _ _ Hx) c u Hcu).
Qed.

Lemma add_listed_members_existing (conversationID creatorID u : UUID)
    (memberIDs : list UUID) (w : World) :
  In u memberIDs -> u <> creatorID ->
  has_member_row (db w) conversationID u = true ->
  exists e, fst (add_listed_members conversationID creatorID memberIDs w) = Err e.
Proof.
  unfold add_listed_members.
  revert w; induction memberIDs as [|x ids IH]; intros w Hin Hne Hrow; cbn.
  - destruct Hin.
  - unfold bind. destruct (N.eqb_spec x creatorID) as [->|Hx].
    + cbn. destruct Hin as [->|Hin]; [congruence |]. apply IH; assumption.
    + destruct (CreateMember conversationID x "member" w) as [[[]|e] w1] eqn:Hcx;
        [|cbn; eauto].
      destruct Hin as [->|Hin].
      * destruct (CreateMember_existing conversationID u "member" w Hrow) as [e He].
        rewrite Hcx in He. discriminate.
      * apply IH; [assumption | assumption |].
        exact (proj2 (CreateMember_ok _ _ _ _ _ Hcx) _ _ Hrow).
Qed.

Lemma add_listed_members_duplicate (conversationID creatorID u : UUID)
    (before between after : list UUID) (w : World) :
  u <> creatorID ->
  exists e, fst (add_listed_members conversationID creatorID
                   (before ++ u :: between ++ u :: after) w) = Err e.
Proof.
  intros Hne. unfold add_listed_members. rewrite for_each_app.
  fold (add_listed_members conversationID creatorID before).
  unfold bind.
  destruct (add_listed_members conversationID creatorID before w)
    as [[[]|e] w1]; [|cbn; eauto].
  cbn. unfold bind. destruct (N.eqb_spec u creatorID) as [|_]; [congruence |].
  destruct (CreateMember conversationID u "member" w1) as [[[]|e] w2] eqn:Hu;
    [|cbn; eauto].
  apply (add_listed_members_existing conversationID creatorID u).
  - apply in_or_app. right. left. reflexivity.
  - assumption.
  - exact (proj1 (CreateMember_ok _ _ _ _ _ Hu)).
Qed.

(** C9: [CreateGroupConversation] does not deduplicate.  When an id other
    than the creator's occurs twice in [memberIDs], the second insert hits
    [UNIQUE(conversation_id, user_id)] (or an earlier statement has already
    failed), the call returns an error and the transaction leaves the store
    as it was: no conversation, no owner row, no member row. *)
Theorem CreateGroupConversation_duplicate_id_fails
    (creatorID u : UUID) (groupName : string)
    (before between after : list UUID) (w : World) :
  u <> creatorID ->
  exists e,
    fst (CreateGroupConversation creatorID groupName
           (before ++ u :: between ++ u :: after) w) = Err e
    /\ db (snd (CreateGroupConversation creatorID groupName
                  (before ++ u :: between ++ u :: after) w)) = db w.
Proof.
  intros Hne. unfold CreateGroupConversation, Transaction, bind.
  destruct (wrap "failed to create conversation"
              (CreateConversation "group" (Some groupName)) w)
    as [[conversation|e] w1]; [|cbn; eauto].
  destruct (CreateMember (conv_ID conversation) creatorID "owner" w1)
    as [[[]|e] w2]; [|cbn; eauto].
  destruct (add_listed_members_duplicate (conv_ID conversation) creatorID u
              before between after w2 Hne) as [e He].
  destruct (add_listed_members (conv_ID conversation) creatorID
              (before ++ u :: between ++ u :: after) w2) as [[[]|e'] w3];
    [discriminate | cbn; eauto].
Qed.

Lemma CreateGroupConversation_bob_twice :
  Sample.bob <> Sample.alice
  /\ exists e,
      fst (CreateGroupConversation Sample.alice "team" [Sample.bob; Sample.bob]
             (Sample.world Sample.empty_db 0 true)) = Err e
      /\ db (snd (CreateGroupConversation Sample.alice "team"
                    [Sample.bob; Sample.bob]
                    (Sample.world Sample.empty_db 0 true)))
         = db (Sample.world Sample.empty_db 0 true).
Proof.
  split; [discriminate |].
  apply (CreateGroupConversation_duplicate_id_fails Sample.alice Sample.bob
           "team" [] [] [] (Sample.world Sample.empty_db 0 true)).
  discriminate.
Defined.

Example CreateGroupConversation_bob_twice_error :
  fst (CreateGroupConversation Sample.alice "team" [Sample.bob; Sample.bob]
         (Sample.world Sample.empty_db 0 true))
  = Err (ErrSQL "duplicate key value violates unique constraint conversation_members_conversation_id_user_id_key").
Proof. vm_compute. reflexivity. Qed.

(** Without duplicates the group is created; the creator's own id in the
    list is passed over. *)
Example CreateGroupConversation_creator_listed :
  map (fun m => (cm_UserID m, Role m))
      (conversation_members
         (db (snd (CreateGroupConversation Sample.alice "team"
                     [Sample.bob; Sample.alice; Sample.carol]
                     (Sample.world Sample.empty_db 0 true)))))
  = [(Sample.alice, "owner"); (Sample.bob, "member"); (Sample.carol, "member")].
Proof. vm_compute. reflexivity. Qed.

(** [AddMembersToGroup], the sibling, looks before it inserts: the same id
    twice gives one row and no error. *)
Example add_member_if_absent_twice :
  let run := for_each [Sample.bob; Sample.bob] (add_member_if_absent 20)
               (Sample.world Sample.group_of_two 0 true) in
  fst run = Ok tt
  /\ map (fun m => (cm_UserID m, Role m)) (conversation_members (db (snd run)))
     = [(Sample.alice, "owner"); (Sample.bob, "member")].
Proof. vm_compute. split; reflexivity. Qed.

(** ** What a computation leaves alone *)

Section Frame.

Context {X : Type} (f : DB -> X).

Lemma keeps_ret {A} (a : A) : keeps f (ret a).
Proof. intros w; reflexivity. Qed.

Lemma keeps_fail {A} (e : error) : keeps f (@fail A e).
Proof. intros w; reflexivity. Qed.

Lemma keeps_get_db : keeps f get_db.
Proof. intros w; reflexivity. Qed.

Lemma keeps_get_now : keeps f get_now.
Proof. intros w; reflexivity. Qed.

Lemma keeps_emit (e : Effect) : keeps f (emit e).
Proof. intros w; reflexivity. Qed.

Lemma keeps_gen_random_uuid : keeps f gen_random_uuid.
Proof. intros w; reflexivity. Qed.

Lemma keeps_bind {A B} (c : M A) (k : A -> M B) :
  keeps f c -> (forall a, keeps f (k a)) -> keeps f (bind c k).
Proof.
  intros Hc Hk w. unfold bind. specialize (Hc w).
  destruct (c w) as [[a|e] w1]; cbn in *; [|assumption].
  rewrite (Hk a w1). assumption.
Qed.

Lemma keeps_wrap {A} (text : string) (c : M A) : keeps f c -> keeps f (wrap text c).
Proof.
  intros Hc w. unfold wrap. specialize (Hc w).
  destruct (c w) as [[a|e] w1]; assumption.
Qed.

Lemma keeps_defer {A} (g : M unit) (c : M A) :
  keeps f g -> keeps f c -> keeps f (defer g c).
Proof.
  intros Hg Hc w. unfold defer. specialize (Hc w).
  destruct (c w) as [r w1]; cbn in *. rewrite (Hg w1). assumption.
Qed.

Lemma keeps_Transaction {A} (c : M A) : keeps f c -> keeps f (Transaction c).
Proof.
  intros Hc w. unfold Transaction. specialize (Hc w).
  destruct (c w) as [[a|e] w1]; cbn in *; [assumption | reflexivity].
Qed.

Lemma keeps_for_each {A} (l : list A) (body : A -> M unit) :
  (forall x, keeps f (body x)) -> keeps f (for_each l body).
Proof.
  intros Hbody. induction l as [|x l IH]; cbn.
  - apply keeps_ret.
  - apply keeps_bind; [apply Hbody | intros _; exact IH].
Qed.

Lemma keeps_acquire_lock (key : RedisKey) (ttl : Z) (attempts i : nat) :
  keeps f (acquire_lock key ttl attempts i).
Proof.
  intros w. f_equal. apply acquire_lock_db.
Qed.

End Frame.

Create HintDb frame.

Ltac frame_step :=
  match goal with
  | |- forall _, _ => intro
  | |- keeps _ (ret _) => apply keeps_ret
  | |- keeps _ (fail _) => apply keeps_fail
  | |- keeps _ get_db => apply keeps_get_db
  | |- keeps _ get_now => apply keeps_get_now
  | |- keeps _ (emit _) => apply keeps_emit
  | |- keeps _ gen_random_uuid => apply keeps_gen_random_uuid
  | |- keeps _ (acquire_lock _ _ _ _) => apply keeps_acquire_lock
  | |- keeps _ (bind _ _) => apply keeps_bind
  | |- keeps _ (wrap _ _) => apply keeps_wrap
  | |- keeps _ (defer _ _) => apply keeps_defer
  | |- keeps _ (Transaction _) => apply keeps_Transaction
  | |- keeps _ (for_each _ _) => apply keeps_for_each
  | |- keeps _ (if ?b then _ else _) => destruct b
  | |- keeps _ (match ?x with _ => _ end) => destruct x
  | |- keeps _ _ => solve [auto with frame]
  end.

Ltac frame := repeat frame_step.

Ltac leaf_keeps :=
  intros w; run_monad;
  repeat match goal with
         | |- context [if ?b then _ else _] => destruct b; cbn
         end; reflexivity.

Lemma insert_conversation_keeps_messages (c : Conversation) :
  keeps messages (insert_conversation c).
Proof. unfold insert_conversation. leaf_keeps. Qed.

Lemma insert_conversation_keeps_relationships (c : Conversation) :
  keeps user_relationships (insert_conversation c).
Proof. unfold insert_conversation. leaf_keeps. Qed.

Lemma insert_conversation_member_keeps_messages (m : ConversationMember) :
  keeps messages (insert_conversation_member m).
Proof. unfold insert_conversation_member. leaf_keeps. Qed.

Lemma insert_conversation_member_keeps_relationships (m : ConversationMember) :
  keeps user_relationships (insert_conversation_member m).
Proof. unfold insert_conversation_member. leaf_keeps. Qed.

#[local] Hint Resolve insert_conversation_keeps_messages
  insert_conversation_keeps_relationships
  insert_conversation_member_keeps_messages
  insert_conversation_member_keeps_relationships : frame.

Lemma CreateConversation_keeps_messages (type : string) (name : option string) :
  keeps messages (CreateConversation type name).
Proof. unfold CreateConversation. frame. Qed.

Lemma CreateConversation_keeps_relationships (type : string) (name : option string) :
  keeps user_relationships (CreateConversation type name).
Proof. unfold CreateConversation. frame. Qed.

Lemma CreateMember_keeps_messages (c u : UUID) (role : string) :
  keeps messages (CreateMember c u role).
Proof. unfold CreateMember. frame. Qed.

Lemma CreateMember_keeps_relationships (c u : UUID) (role : string) :
  keeps user_relationships (CreateMember c u role).
Proof. unfold CreateMember. frame. Qed.

#[local] Hint Resolve CreateConversation_keeps_messages
  CreateConversation_keeps_relationships CreateMember_keeps_messages
  CreateMember_keeps_relationships : frame.

Lemma getOrCreatePrivateConversation_keeps_messages (user1ID user2ID : UUID) :
  keeps messages (getOrCreatePrivateConversation user1ID user2ID).
Proof. unfold getOrCreatePrivateConversation, createPrivateConversation. frame. Qed.

Lemma getOrCreatePrivateConversation_keeps_relationships (user1ID user2ID : UUID) :
  keeps user_relationships (getOrCreatePrivateConversation user1ID user2ID).
Proof. unfold getOrCreatePrivateConversation, createPrivateConversation. frame. Qed.

(** ** The block check *)

(** [isBlocked] reads the relationship table only, and of it only the rows
    owned by the receiver that target the sender. *)
Lemma isBlocked_relationships (d d' : DB) (senderID receiverID : UUID) :
  user_relationships d' = user_relationships d ->
  isBlocked d' senderID receiverID = isBlocked d senderID receiverID.
Proof. unfold isBlocked. intros ->. reflexivity. Qed.

Lemma isBlocked_ignores_own_block (d : DB) (senderID receiverID id : UUID) (t : Time) :
  senderID <> receiverID ->
  isBlocked
    {| conversations := conversations d;
       conversation_members := conversation_members d;
       messages := messages d;
       user_relationships :=
         {| rel_ID := id; rel_UserID := senderID; TargetUserID := receiverID;
            RelationshipType := "blocked"; rel_CreatedAt := t |}
         :: user_relationships d |}
    senderID receiverID
  = isBlocked d senderID receiverID.
Proof.
  intros Hne. unfold isBlocked, Count; cbn.
  destruct (N.eqb_spec senderID receiverID); [contradiction | reflexivity].
Qed.

(** The part of C6 the code does: when the request names the receiver and
    the receiver has blocked the sender, the send fails and no message row
    is written. *)
Lemma SendMessage_refused_when_receiver_named
    (s : MessageService) (senderID receiverID : UUID)
    (req : SendMessageRequest) (w : World) :
  ReceiverID req = Some receiverID ->
  isBlocked (db w) senderID receiverID = true ->
  exists e,
    fst (SendMessage s senderID req w) = Err e
    /\ messages (db (snd (SendMessage s senderID req w))) = messages (db w).
Proof.
  intros Hrecv Hblocked.
  destruct (SendMessage s senderID req w) as [r w'] eqn:Hrun; cbn [fst snd].
  unfold SendMessage in Hrun.
  destruct (content_missing req); [leaf Hrun; eauto |].
  rewrite Hrecv in Hrun. unfold bind at 1 in Hrun.
  destruct (req_ConversationID req =? Nil)%N.
  - pose proof (getOrCreatePrivateConversation_keeps_messages
                  senderID receiverID w) as Hmsg.
    pose proof (getOrCreatePrivateConversation_keeps_relationships
                  senderID receiverID w) as Hrel.
    unfold wrap in Hrun.
    destruct (getOrCreatePrivateConversation senderID receiverID w)
      as [[[c created]|e] w1]; cbn in Hmsg, Hrel; [|leaf Hrun; eauto].
    destruct (c =? Nil)%N; [leaf Hrun; eauto |].
    unfold bind at 1 in Hrun. unfold get_db at 1 in Hrun.
    destruct (isConversationMember (db w1) c senderID); cbn in Hrun;
      [|leaf Hrun; eauto].
    unfold bind at 1 in Hrun.
    rewrite (isBlocked_relationships (db w) (db w1) _ _ Hrel), Hblocked in Hrun.
    leaf Hrun; eauto.
  - cbn in Hrun. destruct (req_ConversationID req =? Nil)%N; [leaf Hrun; eauto |].
    unfold bind at 1 in Hrun. unfold get_db at 1 in Hrun.
    destruct (isConversationMember (db w) (req_ConversationID req) senderID);
      cbn in Hrun; [|leaf Hrun; eauto].
    unfold bind at 1 in Hrun. rewrite Hblocked in Hrun.
    leaf Hrun; eauto.
Qed.

(** C6: a send that names the conversation instead of the receiver is not
    checked against the block list.  Bob has blocked Alice; Alice writes
    into their private conversation by its id (as in the repository's test
    of an existing conversation after a block); the send succeeds and the
    message row is written. *)
Theorem SendMessage_by_conversation_id_ignores_block :
  let w := Sample.world Sample.private_chat_blocked (5 * second) true in
  let req := Sample.request 10 None "text" (Some "After block") in
  isBlocked (db w) Sample.alice Sample.bob = true
  /\ getConversationMembers (db w) 10 = [Sample.alice; Sample.bob]
  /\ is_ok (fst (SendMessage (Sample.service true) Sample.alice req w)) = true
  /\ map (fun m => (SenderID m, Content m))
         (messages (db (snd (SendMessage (Sample.service true) Sample.alice req w))))
     = [(Sample.alice, Some "Before block"); (Sample.bob, Some "Reply from B");
        (Sample.alice, Some "After block")].
Proof. vm_compute. repeat split. Qed.

Example SendMessage_with_receiver_id_is_refused :
  fst (SendMessage (Sample.service true) Sample.alice
         (Sample.request 10 (Some Sample.bob) "text" (Some "After block"))
         (Sample.world Sample.private_chat_blocked (5 * second) true))
  = Err (ErrMsg "you are blocked by this user").
Proof. vm_compute. reflexivity. Qed.

(** ** Unread accounting on send *)

Lemma snapshot_viewing_lookup (s : MessageService) (conversationID : UUID)
    (members : list ConversationMember) (acc : gmap UUID bool) (u : UUID) :
  foldl (fun status member =>
           <[cm_UserID member := isViewing s (cm_UserID member) conversationID]>
             status) acc members !! u
  = if existsb (N.eqb u) (map cm_UserID members)
    then Some (isViewing s u conversationID) else acc !! u.
Proof.
  revert acc; induction members as [|m ms IH]; intros acc; cbn.
  - reflexivity.
  - rewrite IH. destruct (existsb (N.eqb u) (map cm_UserID ms)).
    + rewrite orb_true_r. reflexivity.
    + rewrite orb_false_r. destruct (N.eqb_spec u (cm_UserID m)) as [->|Hne].
      * rewrite lookup_insert_eq. reflexivity.
      * rewrite lookup_insert_ne by congruence. reflexivity.
Qed.

Lemma viewing_snapshot (s : MessageService) (conversationID : UUID)
    (members : list ConversationMember) (u : UUID) :
  existsb (N.eqb u) (map cm_UserID members) = true ->
  viewing (snapshot_viewing s conversationID members) u
  = isViewing s u conversationID.
Proof.
  intros Hin. unfold viewing, snapshot_viewing.
  rewrite snapshot_viewing_lookup, Hin. reflexivity.
Qed.

Lemma member_after_message_key (b : bool) (m : ConversationMember) :
  cm_ConversationID (member_after_message b m) = cm_ConversationID m
  /\ cm_UserID (member_after_message b m) = cm_UserID m.
Proof. split; reflexivity. Qed.

(** The updates of the loop of step 8.3, one user after the other, amount to
    one pass over the table when no user occurs twice. *)
Lemma fold_rewrite_member_rows (conversationID : UUID) (v : UUID -> bool)
    (ms rows : list ConversationMember) :
  NoDup (map cm_UserID ms) ->
  fold_left (fun rows m =>
               rewrite_member_rows conversationID (cm_UserID m)
                 (v (cm_UserID m)) rows) ms rows
  = map (fun r => if (cm_ConversationID r =? conversationID)%N
                     && existsb (N.eqb (cm_UserID r)) (map cm_UserID ms)
                  then member_after_message (v (cm_UserID r)) r else r) rows.
Proof.
  revert rows; induction ms as [|m ms IH]; intros rows Hnodup; cbn.
  - rewrite <- (map_id rows) at 1. apply map_ext. intros r.
    rewrite andb_false_r. reflexivity.
  - inversion Hnodup as [|? ? Hnotin Hnodup']; subst.
    rewrite (IH _ Hnodup'). unfold rewrite_member_rows. rewrite map_map.
    apply map_ext. intros r. unfold is_member_row.
    destruct (N.eqb_spec (cm_ConversationID r) conversationID) as [Hc|Hc]; cbn.
    + destruct (N.eqb_spec (cm_UserID r) (cm_UserID m)) as [Hu|Hu]; cbn.
      * rewrite Hc, N.eqb_refl, Hu; cbn.
        destruct (existsb (N.eqb (cm_UserID m)) (map cm_UserID ms)) eqn:Hex;
          [|reflexivity].
        exfalso. apply Hnotin. apply existsb_exists in Hex.
        destruct Hex as [x [Hx Heq]]. apply N.eqb_eq in Heq. subst x.
        apply list_elem_of_In. exact Hx.
      * destruct (N.eqb_spec (cm_ConversationID r) conversationID);
          [reflexivity | contradiction].
    + destruct (N.eqb_spec (cm_ConversationID r) conversationID);
        [contradiction | reflexivity].
Qed.

Lemma other_member_rows_users (d : DB) (conversationID senderID : UUID)
    (r : ConversationMember) :
  In r (conversation_members d) ->
  cm_ConversationID r = conversationID ->
  existsb (N.eqb (cm_UserID r))
          (map cm_UserID (other_member_rows d conversationID senderID))
  = negb (cm_UserID r =? senderID)%N.
Proof.
  intros Hin Hc. unfold other_member_rows.
  destruct (N.eqb_spec (cm_UserID r) senderID) as [Hu|Hu]; cbn.
  - apply not_true_is_false. intros Hex. apply existsb_exists in Hex.
    destruct Hex as [u [Hu' Heq]]. apply N.eqb_eq in Heq. subst u.
    apply in_map_iff in Hu'. destruct Hu' as [r' [Hr' Hin']].
    apply filter_In in Hin'. destruct Hin' as [_ Hp].
    apply andb_true_iff in Hp. destruct Hp as [_ Hp].
    rewrite Hr', Hu, N.eqb_refl in Hp. discriminate.
  - apply existsb_exists. exists (cm_UserID r). split; [|apply N.eqb_refl].
    apply in_map. apply filter_In. split; [assumption |].
    rewrite Hc, N.eqb_refl. cbn.
    destruct (N.eqb_spec (cm_UserID r) senderID); [contradiction | reflexivity].
Qed.

Lemma users_of_conversation_NoDup (d : DB) (conversationID : UUID)
    (q : ConversationMember -> bool) :
  members_unique d ->
  NoDup (map cm_UserID
           (List.filter (fun m => (cm_ConversationID m =? conversationID)%N && q m)
                        (conversation_members d))).
Proof.
  unfold members_unique.
  induction (conversation_members d) as [|r rows IH]; cbn; intros Hnodup.
  - constructor.
  - inversion Hnodup as [|? ? Hnotin Hnodup']; subst.
    destruct (N.eqb_spec (cm_ConversationID r) conversationID) as [Hc|Hc]; cbn;
      [|apply IH; assumption].
    destruct (q r); [|apply IH; assumption].
    cbn. constructor; [|apply IH; assumption].
    intros Hin. apply Hnotin. apply list_elem_of_In in Hin.
    apply in_map_iff in Hin. destruct Hin as [r' [Hu Hin']].
    apply filter_In in Hin'. destruct Hin' as [Hin' Hp].
    apply andb_true_iff in Hp. destruct Hp as [Hp _]. apply N.eqb_eq in Hp.
    apply list_elem_of_In. apply in_map_iff. exists r'. split; [|assumption].
    unfold member_key. congruence.
Qed.

Lemma other_member_rows_NoDup (d : DB) (conversationID senderID : UUID) :
  members_unique d ->
  NoDup (map cm_UserID (other_member_rows d conversationID senderID)).
Proof.
  intros Huniq. unfold other_member_rows.
  apply (users_of_conversation_NoDup d conversationID
           (fun m => negb (cm_UserID m =? senderID)%N) Huniq).
Qed.

Lemma update_member_for_message_ok (conversationID userID : UUID) (b : bool)
    (w w' : World) :
  update_member_for_message conversationID userID b w = (Ok tt, w') ->
  w' = with_db (set_conversation_members
                  (rewrite_member_rows conversationID userID b
                     (conversation_members (db w))) (db w)) w.
Proof.
  unfold update_member_for_message. run_monad.
  destruct (negb b && _); intros H; leaf H. reflexivity.
Qed.

Lemma update_members_ok (conversationID : UUID) (v : UUID -> bool)
    (ms : list ConversationMember) (w w' : World) :
  for_each ms (fun member =>
                 update_member_for_message conversationID (cm_UserID member)
                   (v (cm_UserID member))) w = (Ok tt, w') ->
  conversation_members (db w')
  = fold_left (fun rows m =>
                 rewrite_member_rows conversationID (cm_UserID m)
                   (v (cm_UserID m)) rows) ms (conversation_members (db w))
  /\ conversations (db w') = conversations (db w)
  /\ messages (db w') = messages (db w)
  /\ user_relationships (db w') = user_relationships (db w).
Proof.
  revert w; induction ms as [|m ms IH]; intros w Hrun; cbn in *.
  - leaf Hrun. auto.
  - unfold bind in Hrun.
    destruct (update_member_for_message conversationID (cm_UserID m)
                (v (cm_UserID m)) w) as [[[]|e] w1] eqn:Hm; [|discriminate].
    apply update_member_for_message_ok in Hm. subst w1.
    apply IH in Hrun. cbn in Hrun. exact Hrun.
Qed.

Lemma save_message_ok (senderID : UUID) (req : SendMessageRequest)
    (conversationID : UUID) (members : list ConversationMember)
    (status : gmap UUID bool) (w w' : World) (message : Message) :
  save_message senderID req conversationID members status w = (Ok message, w') ->
  conversation_members (db w')
  = fold_left (fun rows m =>
                 rewrite_member_rows conversationID (cm_UserID m)
                   (viewing status (cm_UserID m)) rows)
              members (conversation_members (db w))
  /\ messages (db w') = (messages (db w) ++ [message])%list
  /\ user_relationships (db w') = user_relationships (db w)
  /\ msg_ConversationID message = conversationID
  /\ SenderID message = senderID
  /\ MessageType message = req_MessageType req
  /\ Content message = req_Content req.
Proof.
  unfold save_message, Transaction, insert_message,
    update_conversation_last_message.
  unfold bind at 1 2 3 4 5 6 7. unfold gen_random_uuid, get_now, wrap, get_db.
  cbn [db now uuid_source uuid_drawn setnx_reply effects].
  repeat match goal with
         | |- context [if ?b then _ else _] => destruct b; cbn
         end; try discriminate.
  unfold bind.
  match goal with
  | |- context [for_each ?ms ?body ?w0] =>
      destruct (for_each ms body w0) as [[[]|e] w2] eqn:Hloop; [|discriminate]
  end.
  apply (update_members_ok conversationID (viewing status)) in Hloop.
  cbn in Hloop. destruct Hloop as (Hm & _ & Hmsg & Hrel).
  intros H; leaf H. cbn. auto 10.
Qed.

Lemma push_to_member_ok (s : MessageService) (senderID conversationID : UUID)
    (message : Message) (text : option string) (status : gmap UUID bool)
    (member : ConversationMember) (w : World) :
  fst (push_to_member s senderID conversationID message text status member w)
  = Ok tt
  /\ db (snd (push_to_member s senderID conversationID message text status
                member w)) = db w.
Proof.
  unfold push_to_member. run_monad.
  destruct (convNotifier s && _), (unreadNotifier s); cbn; auto.
Qed.

Lemma for_each_never_fails {A} (l : list A) (body : A -> M unit) (w : World) :
  (forall x w0, fst (body x w0) = Ok tt /\ db (snd (body x w0)) = db w0) ->
  fst (for_each l body w) = Ok tt /\ db (snd (for_each l body w)) = db w.
Proof.
  intros Hbody. revert w; induction l as [|x l IH]; intros w; cbn.
  - auto.
  - unfold bind. destruct (Hbody x w) as [Hr Hdb].
    destruct (body x w) as [[[]|e] w1]; cbn in *; [|discriminate].
    rewrite <- Hdb. apply IH.
Qed.

(** Steps 6 to 11: a send that gets through rewrites the member table as
    [members_after_send] says and appends the message. *)
Lemma persist_and_fan_out_ok (s : MessageService) (senderID : UUID)
    (req : SendMessageRequest) (conversationID : UUID)
    (w w' : World) (message : Message) :
  members_unique (db w) ->
  persist_and_fan_out s senderID req conversationID w = (Ok message, w') ->
  conversation_members (db w')
  = members_after_send s conversationID senderID (conversation_members (db w))
  /\ messages (db w') = (messages (db w) ++ [message])%list
  /\ user_relationships (db w') = user_relationships (db w)
  /\ msg_ConversationID message = conversationID
  /\ SenderID message = senderID.
Proof.
  intros Huniq. unfold persist_and_fan_out.
  unfold bind at 1. unfold get_db. unfold bind at 1.
  destruct (save_message senderID req conversationID
              (other_member_rows (db w) conversationID senderID)
              (snapshot_viewing s conversationID
                 (other_member_rows (db w) conversationID senderID)) w)
    as [[m|e] w1] eqn:Hsave; [|discriminate].
  apply save_message_ok in Hsave.
  destruct Hsave as (Hrows & Hmsg & Hrel & Hconv & Hsender & _ & _).
  unfold bind.
  match goal with
  | |- context [for_each ?ms ?body w1] =>
      destruct (for_each_never_fails ms body w1) as [Hr Hdb];
        [intros; apply push_to_member_ok |];
        destruct (for_each ms body w1) as [[[]|e] w2]; [|discriminate]
  end.
  cbn in Hdb. intros H. injection H as Hm Hw. subst message w'. rewrite Hdb.
  repeat split; try assumption.
  rewrite Hrows.
  rewrite fold_rewrite_member_rows by (apply other_member_rows_NoDup; assumption).
  unfold members_after_send. apply map_ext_in. intros r Hin.
  destruct (N.eqb_spec (cm_ConversationID r) conversationID) as [Hc|Hc]; cbn;
    [|reflexivity].
  pose proof (other_member_rows_users (db w) conversationID senderID r Hin Hc)
    as Husers.
  rewrite Husers.
  destruct (negb (cm_UserID r =? senderID)%N) eqn:Hother; [|reflexivity].
  rewrite viewing_snapshot by (rewrite Husers; reflexivity).
  reflexivity.
Qed.

(** A send that names its conversation and succeeds has gone through steps
    6 to 11 on a store that is still the one it started from. *)
Lemma SendMessage_ok_named_conversation (s : MessageService) (senderID : UUID)
    (req : SendMessageRequest) (w w' : World) (message : Message) :
  req_ConversationID req <> Nil ->
  SendMessage s senderID req w = (Ok message, w') ->
  exists w1 w2,
    db w1 = db w
    /\ persist_and_fan_out s senderID req (req_ConversationID req) w1
       = (Ok message, w2)
    /\ db w' = db w2.
Proof.
  intros Hnil Hrun. unfold SendMessage in Hrun.
  destruct (content_missing req); [discriminate |].
  destruct (N.eqb_spec (req_ConversationID req) Nil) as [|_]; [contradiction |].
  assert (Hres : match ReceiverID req with
                 | Some _ => ret (req_ConversationID req, false)
                 | None => ret (req_ConversationID req, false)
                 end = (ret (req_ConversationID req, false) : M (UUID * bool)))
    by (destruct (ReceiverID req); reflexivity).
  rewrite Hres in Hrun. clear Hres.
  unfold bind at 1 in Hrun. unfold ret at 1 in Hrun. cbv beta iota in Hrun.
  destruct (N.eqb_spec (req_ConversationID req) Nil) as [|_]; [contradiction |].
  unfold bind at 1 in Hrun. unfold get_db at 1 in Hrun. cbv beta iota in Hrun.
  destruct (isConversationMember (db w) (req_ConversationID req) senderID);
    [|discriminate]. cbv beta iota in Hrun. cbn [negb] in Hrun. cbv beta iota in Hrun.
  unfold bind at 1 in Hrun.
  match type of Hrun with
  | (let (_, _) := ?c w in _) = _ =>
      assert (Hblock : c w = (Ok tt, w) \/ exists e, c w = (Err e, w))
        by (destruct (ReceiverID req) as [r|];
            [destruct (isBlocked (db w) senderID r)|]; cbn; eauto);
      destruct Hblock as [Hblock|[e Hblock]]; rewrite Hblock in Hrun;
        [|discriminate]
  end.
  cbv beta iota in Hrun.
  destruct (video_too_large s req); [discriminate |].
  cbn [andb] in Hrun.
  destruct (IsFeatureEnabled (sysSvc s) "enable_first_message_limit").
  - unfold bind at 1 in Hrun.
    pose proof (acquire_lock_db (LockSendMsg (req_ConversationID req) senderID)
                  (2 * second) 3 0 w) as (Hdb & _ & _ & _ & [b Hb]).
    destruct (acquire_lock (LockSendMsg (req_ConversationID req) senderID)
                (2 * second) 3 0 w) as [r w1]; cbn in Hdb, Hb. subst r.
    destruct b; [|discriminate]. cbn [negb] in Hrun. unfold defer in Hrun.
    unfold bind at 1 in Hrun. unfold get_db at 1 in Hrun.
    destruct (CheckCanSend s (db w1) senderID (req_ConversationID req));
      [|discriminate]. cbn [negb] in Hrun.
    destruct (persist_and_fan_out s senderID req (req_ConversationID req) w1)
      as [r w2] eqn:Hp.
    injection Hrun as Hr Hw. subst r w'. exists w1, w2. auto.
  - unfold bind at 1 in Hrun. unfold get_db at 1 in Hrun.
    destruct (CheckCanSend s (db w) senderID (req_ConversationID req));
      [|discriminate]. cbn [negb] in Hrun.
    exists w, w'. auto.
Qed.

(** The member table after a successful send that names its conversation. *)
Lemma SendMessage_member_table
    (s : MessageService) (senderID : UUID) (req : SendMessageRequest)
    (w : World) (message : Message) :
  req_ConversationID req <> Nil ->
  members_unique (db w) ->
  fst (SendMessage s senderID req w) = Ok message ->
  conversation_members (db (snd (SendMessage s senderID req w)))
  = members_after_send s (req_ConversationID req) senderID
      (conversation_members (db w)).
Proof.
  intros Hnil Huniq Hok.
  destruct (SendMessage s senderID req w) as [r w'] eqn:Hrun.
  cbn in Hok. subst r. cbn [snd].
  destruct (SendMessage_ok_named_conversation _ _ _ _ _ _ Hnil Hrun)
    as (w1 & w2 & Hdb & Hp & Hdb').
  rewrite Hdb', <- Hdb.
  apply (persist_and_fan_out_ok s senderID req _ w1 w2 message);
    [rewrite Hdb; assumption | assumption].
Qed.

(** C2: what the code does to the member table on a successful send.  The
    rows rewritten are all the rows of the conversation other than the
    sender's: step 7 selects on [conversation_id] and [user_id] alone, so a
    row whose [left_at] is set is rewritten like an active one ([is_hidden]
    cleared, [unread_count] plus one unless the user was seen viewing),
    where the claim has it unchanged. *)
Theorem SendMessage_rewrites_rows_of_members_who_left
    (s : MessageService) (senderID : UUID) (req : SendMessageRequest)
    (w : World) (message : Message) :
  req_ConversationID req <> Nil ->
  members_unique (db w) ->
  fst (SendMessage s senderID req w) = Ok message ->
  conversation_members (db (snd (SendMessage s senderID req w)))
  = members_after_send s (req_ConversationID req) senderID
      (conversation_members (db w))
  /\ forall row leftAt,
      In row (conversation_members (db w)) ->
      cm_ConversationID row = req_ConversationID req ->
      cm_UserID row <> senderID ->
      LeftAt row = Some leftAt ->
      isViewing s (cm_UserID row) (req_ConversationID req) = false ->
      exists row',
        In row' (conversation_members (db (snd (SendMessage s senderID req w))))
        /\ cm_ID row' = cm_ID row /\ LeftAt row' = Some leftAt
        /\ IsHidden row' = false
        /\ UnreadCount row' = UnreadCount row + 1.
Proof.
  intros Hnil Huniq Hok.
  pose proof (SendMessage_member_table s senderID req w message Hnil Huniq Hok)
    as Htable.
  split; [exact Htable |].
  intros row leftAt Hin Hconv Hother Hleft Hview.
  exists (member_after_message false row). rewrite Htable.
  split.
  - unfold members_after_send. apply in_map_iff. exists row.
    split; [|assumption].
    rewrite Hconv, N.eqb_refl, Hview.
    destruct (N.eqb_spec (cm_UserID row) senderID); [contradiction | reflexivity].
  - cbn. auto.
Qed.

Lemma SendMessage_group_with_leaver :
  let w := Sample.world Sample.group_with_leaver (5 * second) true in
  let req := Sample.request 20 None "text" (Some "hi") in
  let s := Sample.service false in
  let carol_row := Sample.member 23 20 Sample.carol "member" (Some 5) 4 None in
  req_ConversationID req <> Nil
  /\ members_unique (db w)
  /\ is_ok (fst (SendMessage s Sample.alice req w)) = true
  /\ exists row',
      In row' (conversation_members (db (snd (SendMessage s Sample.alice req w))))
      /\ cm_ID row' = cm_ID carol_row /\ LeftAt row' = Some 5
      /\ IsHidden row' = false /\ UnreadCount row' = 4 + 1.
Proof.
  assert (Hnil : req_ConversationID (Sample.request 20 None "text" (Some "hi"))
                 <> Nil) by discriminate.
  assert (Huniq : members_unique
                    (db (Sample.world Sample.group_with_leaver (5 * second) true)))
    by (apply (bool_decide_unpack _); vm_compute; exact I).
  split; [exact Hnil |]. split; [exact Huniq |].
  split; [vm_compute; reflexivity |].
  eapply (proj2 (SendMessage_rewrites_rows_of_members_who_left
                   (Sample.service false) Sample.alice
                   (Sample.request 20 None "text" (Some "hi"))
                   (Sample.world Sample.group_with_leaver (5 * second) true)
                   _ Hnil Huniq ltac:(vm_compute; reflexivity))
                (Sample.member 23 20 Sample.carol "member" (Some 5) 4 None) 5).
  - right. right. left. reflexivity.
  - reflexivity.
  - discriminate.
  - reflexivity.
  - reflexivity.
Defined.

(** Carol left group 20 at time 5 with four unread messages and the
    conversation hidden; Alice's message makes it five and unhides it, and
    the message is queued for her. *)
Example SendMessage_counts_for_carol_who_left :
  let w := Sample.world Sample.group_with_leaver (5 * second) true in
  let w' := snd (SendMessage (Sample.service false) Sample.alice
                   (Sample.request 20 None "text" (Some "hi")) w) in
  map (fun m => (cm_UserID m, LeftAt m, IsHidden m, UnreadCount m))
      (conversation_members (db w))
  = [(Sample.alice, None, true, 0); (Sample.bob, None, true, 0);
     (Sample.carol, Some 5, true, 4)]
  /\ map (fun m => (cm_UserID m, LeftAt m, IsHidden m, UnreadCount m))
         (conversation_members (db w'))
     = [(Sample.alice, None, true, 0); (Sample.bob, None, false, 1);
        (Sample.carol, Some 5, false, 5)]
  /\ In (UnreadCountUpdate Sample.carol 20 5) (effects w').
Proof. vm_compute. repeat split. do 7 right. left. reflexivity. Qed.

(** A member the hub reports as viewing keeps the unread count, and the
    conversation is unhidden all the same. *)
Example SendMessage_spares_bob_who_is_viewing :
  let s := Sample.service_on Sample.hub_bob_viewing in
  let w := Sample.world Sample.group_with_leaver (5 * second) true in
  let w' := snd (SendMessage s Sample.alice
                   (Sample.request 20 None "text" (Some "hi")) w) in
  isViewing s Sample.bob 20 = true
  /\ map (fun m => (cm_UserID m, IsHidden m, UnreadCount m))
         (conversation_members (db w'))
     = [(Sample.alice, true, 0); (Sample.bob, false, 0);
        (Sample.carol, false, 5)].
Proof. vm_compute. split; reflexivity. Qed.

(** ** The device cap of the hub *)

Lemma devices_initialised (clients : gmap UUID (gmap UUID Client)) (userID u : UUID) :
  devices (match clients !! userID with
           | None => <[userID := ∅]> clients
           | Some _ => clients
           end) u
  = devices clients u.
Proof.
  unfold devices. destruct (clients !! userID) eqn:Hl; [reflexivity |].
  destruct (decide (userID = u)) as [->|Hne].
  - rewrite lookup_insert_eq, Hl. reflexivity.
  - rewrite lookup_insert_ne by assumption. reflexivity.
Qed.

(** C7: a register at or over the cap writes the error frame with code
    [too_many_devices], then the close frame with the reason text, closes
    the socket, and leaves every user's devices as they were (so a session
    that was not registered is still not); a register under the cap puts the
    session among the user's devices and touches no other user. *)
Theorem Register_device_cap (h : Hub) (client : Client) :
  let userID := client_UserID client in
  let id := client_ID client in
  let reason := max_devices_text (MaxConnectionsPerUser h) in
  (MaxConnectionsPerUser h <= Z.of_nat (size (devices (Clients h) userID)) ->
   snd (Register h client)
   = [ConnWriteMessage id TextMessage
        (JSONText
           (JObject [("type", JString "error");
                     ("data", JObject [("code", JString "too_many_devices");
                                       ("message", JString reason)])]));
      ConnWriteMessage id CloseMessage (CloseData CloseNormalClosure reason);
      ConnClose id]
   /\ (forall u, devices (Clients (fst (Register h client))) u
                 = devices (Clients h) u)
   /\ (devices (Clients h) userID !! id = None ->
       devices (Clients (fst (Register h client))) userID !! id = None))
  /\ (Z.of_nat (size (devices (Clients h) userID)) < MaxConnectionsPerUser h ->
      devices (Clients (fst (Register h client))) userID
      = <[id := client]> (devices (Clients h) userID)
      /\ forall u, u <> userID ->
                   devices (Clients (fst (Register h client))) u
                   = devices (Clients h) u).
Proof.
  intros userID id reason. unfold Register. fold userID id.
  rewrite devices_initialised.
  destruct (Z.geb_spec (Z.of_nat (size (devices (Clients h) userID)))
              (MaxConnectionsPerUser h)) as [Hge|Hlt].
  - split; [|lia]. intros _. cbn.
    split; [reflexivity |].
    split; [intros u; apply devices_initialised |].
    intros Hnew. rewrite devices_initialised. exact Hnew.
  - split; [lia |]. intros _. cbn. split.
    + unfold devices at 1. rewrite lookup_insert_eq. reflexivity.
    + intros u Hne. unfold devices at 1.
      rewrite lookup_insert_ne by congruence.
      apply devices_initialised.
Qed.

Lemma Register_nineteenth_device :
  let h := Sample.hub_after 18 in
  let client := Sample.device Sample.alice 19 in
  let h17 := Sample.hub_after 17 in
  let client18 := Sample.device Sample.alice 18 in
  (MaxConnectionsPerUser h = 18
   /\ size (devices (Clients h) Sample.alice) = 18%nat
   /\ devices (Clients h) Sample.alice !! 19%N = None
   /\ snd (Register h client)
      = [ConnWriteMessage 19 TextMessage
           (JSONText
              (JObject [("type", JString "error");
                        ("data", JObject [("code", JString "too_many_devices");
                                          ("message",
                                           JString "Maximum 18 devices allowed")])]));
         ConnWriteMessage 19 CloseMessage
           (CloseData CloseNormalClosure "Maximum 18 devices allowed");
         ConnClose 19]
   /\ devices (Clients (fst (Register h client))) Sample.alice !! 19%N = None)
  /\ (size (devices (Clients h17) Sample.alice) = 17%nat
      /\ devices (Clients (fst (Register h17 client18))) Sample.alice
         = <[18%N := client18]> (devices (Clients h17) Sample.alice)).
Proof.
  split.
  - split; [reflexivity |]. split; [vm_compute; reflexivity |].
    split; [vm_compute; reflexivity |].
    destruct (Register_device_cap (Sample.hub_after 18)
                (Sample.device Sample.alice 19)) as [Hfull _].
    destruct Hfull as (Hframes & _ & Hnew); [vm_compute; discriminate |].
    split; [exact Hframes |].
    apply Hnew. vm_compute. reflexivity.
  - split; [vm_compute; reflexivity |].
    destruct (Register_device_cap (Sample.hub_after 17)
                (Sample.device Sample.alice 18)) as [_ Hroom].
    apply Hroom. vm_compute. reflexivity.
Defined.

(** ** Marking as read *)

Lemma First_In {A} (pk : A -> UUID) (rows : list A) (r : A) :
  First pk rows = Some r -> In r rows.
Proof.
  revert r; induction rows as [|x rows IH]; intros r; cbn; [discriminate |].
  destruct (First pk rows) as [r'|].
  - destruct (pk r' <? pk x)%N; intros H; inversion H; subst; auto.
  - intros H; inversion H; subst; auto.
Qed.

Lemma First_None {A} (pk : A -> UUID) (rows : list A) :
  First pk rows = None -> rows = [].
Proof.
  destruct rows as [|x rows]; cbn; [reflexivity |].
  destruct (First pk rows) as [r'|]; [destruct (pk r' <? pk x)%N |]; discriminate.
Qed.

Lemma member_key_unique (d : DB) (r1 r2 : ConversationMember) :
  members_unique d ->
  In r1 (conversation_members d) -> In r2 (conversation_members d) ->
  member_key r1 = member_key r2 -> r1 = r2.
Proof.
  unfold members_unique.
  induction (conversation_members d) as [|x rows IH]; cbn; intros Hnodup H1 H2 Hk;
    [contradiction |].
  inversion Hnodup as [|? ? Hnotin Hnodup']; subst.
  destruct H1 as [->|H1], H2 as [->|H2]; auto.
  - exfalso. apply Hnotin. rewrite Hk. apply list_elem_of_In, in_map. assumption.
  - exfalso. apply Hnotin. rewrite <- Hk. apply list_elem_of_In, in_map. assumption.
Qed.



Lemma Count_positive {A} (p : A -> bool) (rows : list A) (r : A) :
  In r rows -> p r = true -> (Count p rows >? 0) = true.
Proof.
  intros Hin Hp. unfold Count.
  assert (Hf : In r (List.filter p rows)) by (apply filter_In; auto).
  destruct (List.filter p rows); [destruct Hf | reflexivity].
Qed.

Lemma Count_zero {A} (p : A -> bool) (rows : list A) :
  (forall r, In r rows -> p r = false) -> Count p rows = 0.
Proof.
  intros Hall. unfold Count.
  induction rows as [|x rows IH]; cbn; [reflexivity |].
  rewrite (Hall x) by (left; reflexivity).
  apply IH. intros r Hr. apply Hall. right. assumption.
Qed.




(** A target that does not exist: nothing is written. *)
Example MarkAsRead_unknown_message :
  let w := Sample.world (Sample.private_chat_read None) (9 * second) true in
  MarkAsRead (Sample.service true) Sample.bob 10 99 w
  = (Err (ErrWrap "message not found" (ErrSQL "record not found")), w).
Proof. reflexivity. Qed.

(** ** The first-message limit *)

Lemma Count_zero_iff {A} (p : A -> bool) (rows : list A) :
  (Count p rows =? 0)%Z = true <-> forall r, In r rows -> p r = false.
Proof.
  rewrite Z.eqb_eq. split; [|apply Count_zero].
  unfold Count. intros Hz r Hin.
  destruct (p r) eqn:Hp; [|reflexivity].
  assert (Hf : In r (List.filter p rows)) by (apply filter_In; auto).
  destruct (List.filter p rows); [destruct Hf | discriminate].
Qed.

Lemma Count_positive_iff {A} (p : A -> bool) (rows : list A) :
  (Count p rows >? 0) = true <-> exists r, In r rows /\ p r = true.
Proof.
  split.
  - unfold Count. destruct (List.filter p rows) as [|r l] eqn:Hf; [discriminate |].
    intros _. exists r. apply filter_In. rewrite Hf. left. reflexivity.
  - intros [r [Hin Hp]]. exact (Count_positive p rows r Hin Hp).
Qed.

Lemma CheckCanSend_disabled (s : MessageService) (d : DB)
    (userID conversationID : UUID) :
  IsFeatureEnabled (sysSvc s) "enable_first_message_limit" = false ->
  CheckCanSend s d userID conversationID = true.
Proof. intros Hoff. unfold CheckCanSend. rewrite Hoff. reflexivity. Qed.

Lemma for_each_error {A} (P : error -> Prop) (l : list A) (body : A -> M unit)
    (w : World) (e : error) :
  (forall x w0 e0, fst (body x w0) = Err e0 -> P e0) ->
  fst (for_each l body w) = Err e -> P e.
Proof.
  intros Hbody. revert w; induction l as [|x l IH]; intros w; cbn.
  - discriminate.
  - unfold bind. specialize (Hbody x w).
    destruct (body x w) as [[[]|e0] w1]; cbn in *.
    + apply IH.
    + intros H; inversion H; subst. apply Hbody. reflexivity.
Qed.

Lemma update_member_for_message_error (conversationID userID : UUID) (b : bool)
    (w : World) (e : error) :
  fst (update_member_for_message conversationID userID b w) = Err e -> wrapped e.
Proof.
  unfold update_member_for_message. run_monad.
  destruct (negb b && _); cbn; intros H; inversion H. unfold wrapped. eauto.
Qed.

(** Steps 6 to 11 fail only with the wrapped errors of the transaction. *)
Lemma persist_and_fan_out_error (s : MessageService) (senderID : UUID)
    (req : SendMessageRequest) (conversationID : UUID) (w : World) (e : error) :
  fst (persist_and_fan_out s senderID req conversationID w) = Err e -> wrapped e.
Proof.
  unfold persist_and_fan_out. unfold bind at 1. unfold get_db. unfold bind at 1.
  destruct (save_message senderID req conversationID
              (other_member_rows (db w) conversationID senderID)
              (snapshot_viewing s conversationID
                 (other_member_rows (db w) conversationID senderID)) w)
    as [[m|e0] w1] eqn:Hsave.
  - unfold bind.
    match goal with
    | |- context [for_each ?ms ?body w1] =>
        destruct (for_each_never_fails ms body w1) as [Hr _];
          [intros; apply push_to_member_ok |];
          destruct (for_each ms body w1) as [[[]|e1] w2]; discriminate
    end.
  - cbn. intros H; inversion H; subst e0. clear H. revert Hsave.
    unfold save_message, Transaction, insert_message,
      update_conversation_last_message.
    unfold bind at 1 2 3 4 5 6 7. unfold gen_random_uuid, get_now, wrap, get_db.
    cbn [db now uuid_source uuid_drawn setnx_reply effects].
    repeat match goal with
           | |- context [if ?b then _ else _] => destruct b; cbn
           end;
      try (intros H; inversion H; unfold wrapped; eauto; fail).
    unfold bind.
    match goal with
    | |- context [for_each ?ms ?body ?w0] =>
        pose proof (for_each_error wrapped ms body w0) as Hloop;
          destruct (for_each ms body w0) as [[[]|e1] w2]; [discriminate |]
    end.
    intros H; inversion H; subst. apply Hloop; [|reflexivity].
    intros x w0 e0. apply update_member_for_message_error.
Qed.

(** With the limit switched off no send is turned down for it. *)
Lemma SendMessage_limit_off (s : MessageService) (senderID : UUID)
    (req : SendMessageRequest) (w : World) :
  IsFeatureEnabled (sysSvc s) "enable_first_message_limit" = false ->
  fst (SendMessage s senderID req w) <> Err (ErrMsg first_message_limit_text).
Proof.
  intros Hoff.
  destruct (SendMessage s senderID req w) as [r w'] eqn:Hrun; cbn [fst].
  unfold SendMessage in Hrun.
  destruct (content_missing req); [leaf Hrun; discriminate |].
  unfold bind at 1 in Hrun.
  match type of Hrun with
  | (let (_, _) := ?c w in _) = _ =>
      assert (Hres : (exists e, fst (c w) = Err e /\ wrapped e)
                     \/ exists p, fst (c w) = Ok p)
  end.
  { destruct (ReceiverID req) as [receiverID|]; [|right; cbn; eauto].
    destruct (req_ConversationID req =? Nil)%N; [|right; cbn; eauto].
    unfold wrap.
    destruct (getOrCreatePrivateConversation senderID receiverID w)
      as [[p|e] w1]; cbn; [right; eauto | left].
    eexists; split; [reflexivity | unfold wrapped; eauto]. }
  match type of Hrun with
  | (let (_, _) := ?c w in _) = _ => destruct (c w) as [[[c0 created]|e] w1]
  end.
  2:{ destruct Hres as [[e0 [He [t [cause Hw]]]]|[p Hp]]; [|discriminate].
      cbn in He. inversion He; subst. leaf Hrun. discriminate. }
  clear Hres.
  destruct (c0 =? Nil)%N; [leaf Hrun; discriminate |].
  unfold bind at 1 in Hrun. unfold get_db at 1 in Hrun.
  destruct (isConversationMember (db w1) c0 senderID); [|leaf Hrun; discriminate].
  cbn [negb] in Hrun. unfold bind at 1 in Hrun.
  match type of Hrun with
  | (let (_, _) := ?c w1 in _) = _ =>
      assert (Hblock : c w1 = (Ok tt, w1)
                       \/ c w1 = (Err (ErrMsg "you are blocked by this user"), w1))
        by (destruct (ReceiverID req) as [r0|];
            [destruct (isBlocked (db w1) senderID r0)|]; cbn; eauto);
      destruct Hblock as [Hblock|Hblock]; rewrite Hblock in Hrun;
        [|leaf Hrun; discriminate]
  end.
  cbv beta iota in Hrun.
  destruct (video_too_large s req); [leaf Hrun; discriminate |].
  rewrite Hoff, andb_false_r in Hrun.
  unfold bind at 1 in Hrun. unfold get_db at 1 in Hrun.
  rewrite (CheckCanSend_disabled s (db w1) senderID c0 Hoff) in Hrun.
  cbn [negb] in Hrun. rewrite andb_false_r in Hrun.
  intros ->.
  assert (Hw : wrapped (ErrMsg first_message_limit_text)).
  { apply (persist_and_fan_out_error s senderID req c0 w1).
    rewrite Hrun. reflexivity. }
  destruct Hw as [t [cause Hw]]. discriminate.
Qed.

(** C5: [CheckCanSend] answers true for a group conversation; with the limit
    on, it answers true for a private conversation exactly when the sender
    has no message in it or somebody else has one; with the limit off it
    answers true whatever the conversation, and [SendMessage] never returns
    the first-message-limit error. *)
Theorem CheckCanSend_spec (s : MessageService) :
  (forall d userID conversationID c,
      find_conversation d conversationID = Some c ->
      ConversationType c = "group" ->
      CheckCanSend s d userID conversationID = true)
  /\ (forall d userID conversationID c,
         IsFeatureEnabled (sysSvc s) "enable_first_message_limit" = true ->
         find_conversation d conversationID = Some c ->
         ConversationType c = "private" ->
         CheckCanSend s d userID conversationID = true
         <-> ((forall m, In m (messages d) ->
                         msg_ConversationID m = conversationID ->
                         SenderID m <> userID)
              \/ (exists m, In m (messages d)
                            /\ msg_ConversationID m = conversationID
                            /\ SenderID m <> userID)))
  /\ (IsFeatureEnabled (sysSvc s) "enable_first_message_limit" = false ->
      (forall d userID conversationID,
          CheckCanSend s d userID conversationID = true)
      /\ (forall senderID req w,
             fst (SendMessage s senderID req w)
             <> Err (ErrMsg first_message_limit_text))).
Proof.
  split; [|split].
  - intros d userID conversationID c Hfind Hgroup. unfold CheckCanSend.
    rewrite Hfind, Hgroup. destruct (negb _); reflexivity.
  - intros d userID conversationID c Hon Hfind Hprivate. unfold CheckCanSend.
    rewrite Hon, Hfind, Hprivate, String.eqb_refl. cbn [negb].
    match goal with
    | |- context [if ?b then true else _] => destruct b eqn:Hmine
    end.
    + split; [intros _ | reflexivity]. left.
      intros m Hin Hconv Hsender.
      pose proof (proj1 (Count_zero_iff _ _) Hmine m Hin) as Hp. cbn in Hp.
      rewrite Hconv, Hsender, !N.eqb_refl in Hp. discriminate.
    + match goal with
      | |- context [if ?b then true else false] => destruct b eqn:Hothers
      end.
      * split; [intros _ | reflexivity]. right.
        apply Count_positive_iff in Hothers.
        destruct Hothers as [m [Hin Hp]].
        apply andb_true_iff in Hp. destruct Hp as [Hc Hs].
        apply N.eqb_eq in Hc. apply negb_true_iff, N.eqb_neq in Hs.
        exists m. auto.
      * split; [discriminate |]. intros [Hnone|[m (Hin & Hc & Hs)]]; exfalso.
        -- apply not_true_iff_false in Hmine. apply Hmine.
           apply Count_zero_iff. intros m Hin.
           destruct (N.eqb_spec (msg_ConversationID m) conversationID) as [Hc|];
             [|reflexivity].
           destruct (N.eqb_spec (SenderID m) userID) as [Hs|]; [|reflexivity].
           exfalso. exact (Hnone m Hin Hc Hs).
        -- apply not_true_iff_false in Hothers. apply Hothers.
           apply Count_positive_iff. exists m. split; [assumption |].
           rewrite Hc, N.eqb_refl. cbn.
           apply negb_true_iff, N.eqb_neq. assumption.
  - intros Hoff. split.
    + intros. apply CheckCanSend_disabled. assumption.
    + intros. apply SendMessage_limit_off. assumption.
Qed.

Lemma CheckCanSend_examples :
  CheckCanSend (Sample.service true) Sample.group_with_leaver Sample.alice 20 = true
  /\ CheckCanSend (Sample.service true) Sample.private_chat Sample.alice 10 = true
  /\ CheckCanSend (Sample.service false) Sample.private_chat_unanswered
       Sample.alice 10 = true
  /\ fst (SendMessage (Sample.service false) Sample.alice
            (Sample.request 10 None "text" (Some "again"))
            (Sample.world Sample.private_chat_unanswered (5 * second) true))
     <> Err (ErrMsg first_message_limit_text).
Proof.
  destruct (CheckCanSend_spec (Sample.service true)) as (Hgroup & Hprivate & _).
  destruct (CheckCanSend_spec (Sample.service false)) as (_ & _ & Hoff).
  split; [|split; [|split]].
  - apply (Hgroup Sample.group_with_leaver Sample.alice 20%N
             (Sample.conversation 20 "group")); reflexivity.
  - apply (Hprivate Sample.private_chat Sample.alice 10%N
             (Sample.conversation 10 "private"));
      [vm_compute; reflexivity | reflexivity | reflexivity |].
    right. exists (Sample.message 14 10 Sample.bob "text" (Some "Reply from B")
                     (1 * second)).
    split; [right; left; reflexivity |]. split; [reflexivity | discriminate].
  - apply Hoff. vm_compute. reflexivity.
  - apply Hoff. vm_compute. reflexivity.
Defined.

(** With the limit on, a second message before any reply is turned down. *)
Example SendMessage_second_message_unanswered :
  CheckCanSend (Sample.service true) Sample.private_chat_unanswered
    Sample.alice 10 = false
  /\ fst (SendMessage (Sample.service true) Sample.alice
            (Sample.request 10 None "text" (Some "again"))
            (Sample.world Sample.private_chat_unanswered (5 * second) true))
     = Err (ErrMsg first_message_limit_text).
Proof. vm_compute. split; reflexivity. Qed.

(** ** Resolving or creating a private conversation *)

Lemma in_active_members (d : DB) (conversationID u : UUID) :
  u ∈ active_members d conversationID
  <-> exists m, In m (conversation_members d)
                /\ cm_ConversationID m = conversationID
                /\ cm_UserID m = u /\ LeftAt m = None.
Proof.
  unfold active_members, getConversationMembers.
  rewrite elem_of_list_to_set, list_elem_of_In, in_map_iff.
  split.
  - intros [m [Hu Hin]]. apply filter_In in Hin. destruct Hin as [Hin Hp].
    apply andb_true_iff in Hp. destruct Hp as [Hc Hl]. apply N.eqb_eq in Hc.
    exists m. repeat split; try assumption.
    destruct (LeftAt m); [discriminate | reflexivity].
  - intros [m (Hin & Hc & Hu & Hl)]. exists m. split; [assumption |].
    apply filter_In. split; [assumption |].
    rewrite Hc, N.eqb_refl, Hl. reflexivity.
Qed.

Lemma has_member_row_spec (d : DB) (conversationID u : UUID) :
  has_member_row d conversationID u = true
  <-> exists m, In m (conversation_members d)
                /\ cm_ConversationID m = conversationID /\ cm_UserID m = u.
Proof.
  unfold has_member_row. rewrite existsb_exists. split.
  - intros [m [Hin Hp]]. apply andb_true_iff in Hp. destruct Hp as [Hc Hu].
    apply N.eqb_eq in Hc, Hu. eauto.
  - intros [m (Hin & Hc & Hu)]. exists m. split; [assumption |].
    rewrite Hc, Hu, !N.eqb_refl. reflexivity.
Qed.

Lemma active_member_count_size (d : DB) (conversationID : UUID) :
  members_unique d ->
  active_member_count d conversationID
  = Z.of_nat (size (active_members d conversationID)).
Proof.
  intros Huniq. unfold active_member_count, Count, active_members,
    getConversationMembers.
  rewrite size_list_to_set
    by (apply (users_of_conversation_NoDup d conversationID
                 (fun m => is_null (LeftAt m)) Huniq)).
  rewrite length_map. reflexivity.
Qed.

Lemma size_pair (a b : UUID) : a <> b -> size ({[a; b]} : gset UUID) = 2%nat.
Proof.
  intros Hne. rewrite size_union by set_solver.
  rewrite !size_singleton. reflexivity.
Qed.

(** On a store that keeps the two invariants, the SELECT picks exactly the
    private conversations whose active members are the two users. *)
Lemma private_conversation_matches_spec (d : DB) (a b : UUID) (c : Conversation) :
  a <> b -> members_unique d -> private_members_stay d ->
  In c (conversations d) ->
  private_conversation_matches d a b c = true
  <-> ConversationType c = "private"
      /\ active_members d (conv_ID c) = {[a; b]}.
Proof.
  intros Hne Huniq Hstay Hin. unfold private_conversation_matches.
  rewrite !andb_true_iff, String.eqb_eq, Z.eqb_eq, !has_member_row_spec.
  rewrite (active_member_count_size d _ Huniq).
  split.
  - intros [[[Ha Hb] Htype] Hcount]. split; [assumption |].
    assert (Hactive : forall u, (exists m, In m (conversation_members d)
                                  /\ cm_ConversationID m = conv_ID c
                                  /\ cm_UserID m = u) ->
                                u ∈ active_members d (conv_ID c)).
    { intros u [m (Hm & Hc & Hu)]. apply in_active_members.
      exists m. repeat split; try assumption.
      apply (Hstay c m); assumption. }
    symmetry. apply set_subseteq_size_eq.
    + intros u Hu. apply elem_of_union in Hu.
      destruct Hu as [Hu|Hu]; apply elem_of_singleton in Hu; subst u;
        apply Hactive; assumption.
    + rewrite (size_pair a b Hne). lia.
  - intros [Htype Hset]. rewrite Hset, (size_pair a b Hne).
    assert (Hrow : forall u, u ∈ ({[a; b]} : gset UUID) ->
                             exists m, In m (conversation_members d)
                               /\ cm_ConversationID m = conv_ID c
                               /\ cm_UserID m = u).
    { intros u Hu. rewrite <- Hset in Hu. apply in_active_members in Hu.
      destruct Hu as [m (Hm & Hc & Hu & _)]. eauto. }
    repeat split; try assumption; try reflexivity; apply Hrow;
      apply elem_of_union; [left | right]; apply elem_of_singleton; reflexivity.
Qed.

Lemma First_filter_None {A} (pk : A -> UUID) (p : A -> bool) (rows : list A) :
  (forall r, In r rows -> p r = false) -> First pk (List.filter p rows) = None.
Proof.
  intros Hall. induction rows as [|x rows IH]; cbn; [reflexivity |].
  rewrite (Hall x) by (left; reflexivity).
  apply IH. intros r Hr. apply Hall. right. assumption.
Qed.

Lemma First_filter_Some {A} (pk : A -> UUID) (p : A -> bool) (rows : list A) (r : A) :
  In r rows -> p r = true ->
  exists r', First pk (List.filter p rows) = Some r' /\ In r' rows /\ p r' = true.
Proof.
  intros Hin Hp.
  destruct (First pk (List.filter p rows)) as [r'|] eqn:HF.
  - exists r'. split; [reflexivity |]. apply First_In in HF.
    apply filter_In in HF. assumption.
  - apply First_None in HF.
    assert (Hf : In r (List.filter p rows)) by (apply filter_In; auto).
    rewrite HF in Hf. destruct Hf.
Qed.

Lemma select_private_conversation_spec (d : DB) (a b : UUID) :
  a <> b -> members_unique d -> private_members_stay d ->
  ((exists c, private_conversation_of d a b c) ->
   exists c, select_private_conversation d a b = Some c
             /\ private_conversation_of d a b c)
  /\ (~ (exists c, private_conversation_of d a b c) ->
      select_private_conversation d a b = None).
Proof.
  intros Hne Huniq Hstay. unfold select_private_conversation, private_conversation_of.
  split.
  - intros [c (Hin & Htype & Hset)].
    destruct (First_filter_Some conv_ID (private_conversation_matches d a b)
                (conversations d) c Hin) as [c' (HF & Hin' & Hm)].
    + apply private_conversation_matches_spec; auto.
    + exists c'. split; [assumption |]. split; [assumption |].
      apply private_conversation_matches_spec in Hm; assumption.
  - intros Hnone. apply First_filter_None. intros c Hin.
    apply not_true_iff_false. intros Hm. apply Hnone. exists c.
    split; [assumption |].
    apply private_conversation_matches_spec in Hm; assumption.
Qed.

Lemma existsb_false {A} (p : A -> bool) (l : list A) :
  (forall x, In x l -> p x = false) -> existsb p l = false.
Proof.
  intros Hall. apply not_true_iff_false. intros Hex.
  apply existsb_exists in Hex. destruct Hex as [x [Hin Hp]].
  rewrite (Hall x Hin) in Hp. discriminate.
Qed.

Lemma CreateConversation_fresh (type : string) (name : option string) (w : World) :
  conversation_exists (db w) (uuid_source w (uuid_drawn w)) = false ->
  let c := {| conv_ID := uuid_source w (uuid_drawn w);
              ConversationType := type; GroupName := name;
              conv_CreatedAt := now w; UpdatedAt := now w;
              LastMessageAt := None; LastMessageID := None |} in
  CreateConversation type name w
  = (Ok c, with_db (set_conversations (conversations (db w) ++ [c]) (db w))
                   (after_draw w)).
Proof.
  intros Hfresh c. unfold CreateConversation, insert_conversation. run_monad.
  cbn [conv_ID]. rewrite Hfresh. reflexivity.
Qed.

Lemma CreateMember_fresh (conversationID userID : UUID) (role : string) (w : World) :
  existsb (fun m => (cm_ID m =? uuid_source w (uuid_drawn w))%N)
          (conversation_members (db w)) = false ->
  conversation_exists (db w) conversationID = true ->
  has_member_row (db w) conversationID userID = false ->
  CreateMember conversationID userID role w
  = (Ok tt,
     with_db (set_conversation_members
                (conversation_members (db w)
                 ++ [{| cm_ID := uuid_source w (uuid_drawn w);
                        cm_ConversationID := conversationID;
                        cm_UserID := userID; Role := role; IsMuted := false;
                        IsHidden := false; JoinedAt := now w; LeftAt := None;
                        UnreadCount := 0; LastReadMessageID := None;
                        LastReadAt := None |}]) (db w))
             (after_draw w)).
Proof.
  intros Hpk Hfk Huniq. unfold CreateMember, insert_conversation_member.
  run_monad. cbn [cm_ID cm_ConversationID cm_UserID].
  unfold has_member_row in Huniq. rewrite Hpk, Hfk, Huniq. reflexivity.
Qed.

Lemma createPrivateConversation_fresh (a b : UUID) (w : World) :
  a <> b -> next_ids_fresh w ->
  let cid := uuid_source w (uuid_drawn w) in
  let id1 := uuid_source w (S (uuid_drawn w)) in
  let id2 := uuid_source w (S (S (uuid_drawn w))) in
  exists w',
    createPrivateConversation a b w = (Ok (cid, true), w')
    /\ db w'
       = {| conversations :=
              conversations (db w) ++ [new_private_conversation cid (now w)];
            conversation_members :=
              conversation_members (db w)
              ++ [new_member id1 cid a (now w); new_member id2 cid b (now w)];
            messages := messages (db w);
            user_relationships := user_relationships (db w) |}.
Proof.
  intros Hne (Hconv & Hrows & Hids) cid id1 id2.
  unfold createPrivateConversation, Transaction. cbn [for_each].
  unfold bind at 1 2.
  rewrite (CreateConversation_fresh "private" None w Hconv).
  unfold bind at 1 2.
  rewrite CreateMember_fresh; cycle 1.
  { cbn. apply existsb_false. intros m Hin. apply N.eqb_neq.
    apply (Hrows m Hin). }
  { unfold conversation_exists. cbn. rewrite existsb_app. cbn.
    rewrite N.eqb_refl. apply orb_true_r. }
  { unfold has_member_row. cbn. apply existsb_false. intros m Hin.
    destruct (N.eqb_spec (cm_ConversationID m) (uuid_source w (uuid_drawn w)))
      as [Hc|]; [|reflexivity].
    exfalso. exact (proj1 (Hrows m Hin) Hc). }
  unfold bind at 1.
  rewrite CreateMember_fresh; cycle 1.
  { cbn. rewrite existsb_app. cbn. rewrite orb_false_r.
    apply orb_false_iff. split.
    - apply existsb_false. intros m Hin. apply N.eqb_neq. apply (Hrows m Hin).
    - apply N.eqb_neq. exact Hids. }
  { unfold conversation_exists. cbn. rewrite existsb_app. cbn.
    rewrite N.eqb_refl. apply orb_true_r. }
  { unfold has_member_row. cbn. rewrite existsb_app. cbn. rewrite orb_false_r.
    apply orb_false_iff. split.
    - apply existsb_false. intros m Hin.
      destruct (N.eqb_spec (cm_ConversationID m) (uuid_source w (uuid_drawn w)))
        as [Hc|]; [|reflexivity].
      exfalso. exact (proj1 (Hrows m Hin) Hc).
    - rewrite N.eqb_refl. cbn. apply N.eqb_neq. exact Hne. }
  cbn. eexists. split; [reflexivity |]. cbn. rewrite <- app_assoc. reflexivity.
Qed.

Lemma acquire_lock_granted (key : RedisKey) (ttl : Z) (attempts i : nat) (w : World) :
  (exists j, (i <= j < i + attempts)%nat /\ setnx_reply w key j = true) ->
  fst (acquire_lock key ttl attempts i w) = Ok true.
Proof.
  revert i; induction attempts as [|n IH]; intros i [j [Hj Hyes]]; cbn.
  - lia.
  - destruct (setnx_reply w key i) eqn:Hi; [reflexivity |].
    apply IH. exists j. split; [|assumption].
    destruct (Nat.eq_dec i j) as [->|]; [congruence | lia].
Qed.

Lemma acquire_lock_refused (key : RedisKey) (ttl : Z) (attempts i : nat) (w : World) :
  (forall j, (i <= j < i + attempts)%nat -> setnx_reply w key j = false) ->
  acquire_lock key ttl attempts i w = (Ok false, w).
Proof.
  revert i; induction attempts as [|n IH]; intros i Hno; cbn.
  - reflexivity.
  - rewrite (Hno i) by lia. apply IH. intros j Hj. apply Hno. lia.
Qed.

(** C3, as the code has it.  For distinct users, on a store in which member
    rows are unique per conversation and user and members of private
    conversations have not left: when a private conversation with exactly
    these two active members exists, one such conversation is returned with
    created = false and nothing is written; otherwise, when the creation
    lock is granted within its 30 attempts (and the generated ids are
    unused), one private conversation and two rows with role member, one
    per user, are inserted and the new id is returned with created = true;
    and when the lock is not granted the call fails and nothing is
    inserted. *)
Theorem getOrCreatePrivateConversation_spec (a b : UUID) (w : World) :
  a <> b -> members_unique (db w) -> private_members_stay (db w) ->
  ((exists c, private_conversation_of (db w) a b c) ->
   exists c, getOrCreatePrivateConversation a b w = (Ok (conv_ID c, false), w)
             /\ private_conversation_of (db w) a b c)
  /\ (~ (exists c, private_conversation_of (db w) a b c) ->
      (lock_granted w (create_conversation_lock a b) 30 ->
       next_ids_fresh w ->
       let cid := uuid_source w (uuid_drawn w) in
       let id1 := uuid_source w (S (uuid_drawn w)) in
       let id2 := uuid_source w (S (S (uuid_drawn w))) in
       fst (getOrCreatePrivateConversation a b w) = Ok (cid, true)
       /\ db (snd (getOrCreatePrivateConversation a b w))
          = {| conversations :=
                 conversations (db w) ++ [new_private_conversation cid (now w)];
               conversation_members :=
                 conversation_members (db w)
                 ++ [new_member id1 cid a (now w); new_member id2 cid b (now w)];
               messages := messages (db w);
               user_relationships := user_relationships (db w) |})
      /\ (~ lock_granted w (create_conversation_lock a b) 30 ->
          getOrCreatePrivateConversation a b w
          = (Err (ErrMsg "failed to acquire lock for creating conversation"), w))).
Proof.
  intros Hne Huniq Hstay.
  destruct (select_private_conversation_spec (db w) a b Hne Huniq Hstay)
    as [Hsome Hnone].
  assert (Hab : (a =? b)%N = false) by (apply N.eqb_neq; assumption).
  split.
  - intros Hex. destruct (Hsome Hex) as [c [Hsel Hc]]. exists c.
    split; [|assumption].
    unfold getOrCreatePrivateConversation. rewrite Hab. run_monad.
    rewrite Hsel. reflexivity.
  - intros Hex. specialize (Hnone Hex). split.
    + intros [j [Hj Hyes]] Hfresh cid id1 id2.
      destruct (getOrCreatePrivateConversation a b w) as [r w'] eqn:Hrun.
      unfold getOrCreatePrivateConversation in Hrun. rewrite Hab in Hrun.
      unfold bind at 1 in Hrun. unfold get_db at 1 in Hrun.
      rewrite Hnone in Hrun. unfold bind at 1 in Hrun.
      pose proof (acquire_lock_granted (create_conversation_lock a b)
                    (5 * second) 30 0 w) as Hlock.
      pose proof (acquire_lock_db (create_conversation_lock a b)
                    (5 * second) 30 0 w) as (Hdb & Hnow & Hsrc & Hdrawn & _).
      destruct (acquire_lock (create_conversation_lock a b) (5 * second) 30 0 w)
        as [r1 w1]. cbn [fst snd] in *.
      rewrite Hlock in Hrun by (exists j; split; [lia | assumption]).
      cbn [negb] in Hrun. unfold defer in Hrun.
      unfold bind at 1 in Hrun. unfold get_db at 1 in Hrun.
      rewrite Hdb, Hnone in Hrun.
      destruct (createPrivateConversation_fresh a b w1 Hne) as [w2 [Hcreate Hdb2]].
      { unfold next_ids_fresh. rewrite Hdb, Hsrc, Hdrawn. exact Hfresh. }
      rewrite Hcreate in Hrun. injection Hrun as Hr Hw. subst r w'.
      cbn [fst snd emit db]. rewrite Hdb2, Hdb, Hnow, Hsrc, Hdrawn.
      split; reflexivity.
    + intros Hnolock.
      unfold getOrCreatePrivateConversation. rewrite Hab.
      unfold bind at 1. unfold get_db at 1. rewrite Hnone. unfold bind at 1.
      rewrite acquire_lock_refused; [reflexivity |].
      intros j Hj. apply not_true_iff_false. intros Hyes. apply Hnolock.
      exists j. split; [lia | assumption].
Qed.

(** C3 as stated fails: there is no private conversation of Alice and Bob,
    yet nothing is inserted and no conversation is returned, because the
    cache grants the creation lock on none of the 30 attempts. *)
Lemma getOrCreatePrivateConversation_lock_refused :
  let w := Sample.world Sample.empty_db 0 false in
  ~ (exists c, private_conversation_of (db w) Sample.alice Sample.bob c)
  /\ fst (getOrCreatePrivateConversation Sample.alice Sample.bob w)
     = Err (ErrMsg "failed to acquire lock for creating conversation")
  /\ conversations (db (snd (getOrCreatePrivateConversation Sample.alice
                               Sample.bob w))) = []
  /\ conversation_members
       (db (snd (getOrCreatePrivateConversation Sample.alice Sample.bob w))) = [].
Proof.
  split; [intros [c [[] _]] |].
  vm_compute. repeat split.
Qed.

Lemma getOrCreatePrivateConversation_found_and_created :
  let found := Sample.world Sample.private_chat 0 true in
  let empty := Sample.world Sample.empty_db 0 true in
  getOrCreatePrivateConversation Sample.alice Sample.bob found
  = (Ok (10%N, false), found)
  /\ fst (getOrCreatePrivateConversation Sample.alice Sample.bob empty)
     = Ok (1000%N, true)
  /\ db (snd (getOrCreatePrivateConversation Sample.alice Sample.bob empty))
     = {| conversations := [new_private_conversation 1000 0];
          conversation_members :=
            [new_member 1001 1000 Sample.alice 0;
             new_member 1002 1000 Sample.bob 0];
          messages := []; user_relationships := [] |}.
Proof.
  assert (Hne : Sample.alice <> Sample.bob) by discriminate.
  split.
  - destruct (getOrCreatePrivateConversation_spec Sample.alice Sample.bob
                (Sample.world Sample.private_chat 0 true) Hne)
      as [Hfound _].
    + apply (bool_decide_unpack _). vm_compute. exact I.
    + intros c m Hc Hm _ _. cbn in Hm.
      destruct Hm as [<-|[<-|[]]]; reflexivity.
    + destruct Hfound as [c [Hrun (Hin & _ & _)]].
      * exists (Sample.conversation 10 "private").
        split; [left; reflexivity |]. split; [reflexivity |].
        vm_compute. reflexivity.
      * cbn in Hin. destruct Hin as [<-|[]]. exact Hrun.
  - destruct (getOrCreatePrivateConversation_spec Sample.alice Sample.bob
                (Sample.world Sample.empty_db 0 true) Hne)
      as [_ Hcreate].
    + apply (bool_decide_unpack _). vm_compute. exact I.
    + intros c m [].
    + destruct Hcreate as [Hcreate _]; [intros [c [[] _]] |].
      apply Hcreate.
      * exists 0%nat. split; [lia | reflexivity].
      * split; [reflexivity |]. split; [intros m [] | discriminate].
Defined.

(** Why the second invariant is assumed: the SELECT joins on member rows
    without looking at their [left_at].  In this (unreachable) store Alice
    has left conversation 30 and Carol is in it; it is returned for Alice
    and Bob all the same. *)
Example select_private_conversation_ignores_left_at :
  let d := {| conversations := [Sample.conversation 30 "private"];
              conversation_members :=
                [Sample.member 31 30 Sample.alice "member" (Some 5) 0 None;
                 Sample.member 32 30 Sample.bob "member" None 0 None;
                 Sample.member 33 30 Sample.carol "member" None 0 None];
              messages := []; user_relationships := [] |} in
  getConversationMembers d 30 = [Sample.bob; Sample.carol]
  /\ fst (getOrCreatePrivateConversation Sample.alice Sample.bob
            (Sample.world d 0 true)) = Ok (30%N, false).
Proof. vm_compute. split; reflexivity. Qed.

(** ** Blocking and unblocking *)

Lemma isBlocked_IsBlocked (d : DB) (senderID receiverID : UUID) :
  isBlocked d senderID receiverID = IsBlocked d receiverID senderID.
Proof. reflexivity. Qed.

Lemma filter_all {A} (p : A -> bool) (l : list A) :
  (forall x, In x l -> p x = true) -> List.filter p l = l.
Proof.
  induction l as [|x l IH]; intros H; cbn; [reflexivity |].
  rewrite (H x) by (left; reflexivity). f_equal. apply IH.
  intros y Hy. apply H. right. exact Hy.
Qed.

Lemma filter_app_one {A} (p : A -> bool) (l : list A) (x : A) :
  List.filter p (l ++ [x]) = (List.filter p l ++ if p x then [x] else [])%list.
Proof. rewrite List.filter_app. cbn. destruct (p x); reflexivity. Qed.

Lemma Count_app_one {A} (p : A -> bool) (l : list A) (x : A) :
  Count p (l ++ [x]) = Count p l + (if p x then 1 else 0).
Proof.
  unfold Count. rewrite filter_app_one, length_app.
  destruct (p x); cbn; lia.
Qed.

Lemma is_block_row_pair (a b userID targetUserID : UUID) (r : UserRelationship) :
  (a, b) <> (userID, targetUserID) ->
  rel_UserID r = userID -> TargetUserID r = targetUserID ->
  is_block_row a b r = false.
Proof.
  intros Hne Hu Ht. unfold is_block_row. subst.
  destruct (N.eqb_spec (rel_UserID r) a); [|reflexivity].
  destruct (N.eqb_spec (TargetUserID r) b); [|reflexivity].
  subst. contradiction Hne. reflexivity.
Qed.

Lemma BlockUser_ok (userID targetUserID : UUID) (w : World) :
  IsBlocked (db w) userID targetUserID = false ->
  (forall r, In r (user_relationships (db w)) ->
             rel_ID r <> uuid_source w (uuid_drawn w)) ->
  BlockUser userID targetUserID w
  = (Ok tt,
     with_db (set_user_relationships
                (user_relationships (db w)
                 ++ [{| rel_ID := uuid_source w (uuid_drawn w);
                        rel_UserID := userID; TargetUserID := targetUserID;
                        RelationshipType := "blocked";
                        rel_CreatedAt := now w |}]) (db w))
             (after_draw w)).
Proof.
  intros Hfree Hfresh. unfold IsBlocked in Hfree.
  unfold BlockUser, insert_user_relationship. run_monad.
  rewrite Hfree.
  assert (Hpk : existsb (fun r' => (rel_ID r' =? uuid_source w (uuid_drawn w))%N)
                        (user_relationships (db w)) = false).
  { apply existsb_false. intros r Hr. apply N.eqb_neq. apply Hfresh. exact Hr. }
  assert (Huq : existsb (fun r' => (rel_UserID r' =? userID)%N
                                   && (TargetUserID r' =? targetUserID)%N
                                   && String.eqb (RelationshipType r') "blocked")
                        (user_relationships (db w)) = false).
  { apply existsb_false. intros r Hr.
    destruct (is_block_row userID targetUserID r) eqn:Hrow; [|exact Hrow].
    pose proof (Count_positive _ _ r Hr Hrow) as Hpos.
    destruct (Z.gtb_spec (Count (is_block_row userID targetUserID)
                                (user_relationships (db w))) 0); [discriminate | lia]. }
  cbn. rewrite Hpk, Huq. reflexivity.
Qed.
(** X1: blocking takes effect at once and for that pair only.  When
    [userID] has not blocked [targetUserID] yet (and the generated id is not
    taken), [BlockUser] succeeds; afterwards [IsBlocked] answers yes for the
    pair, the message service sees the target as blocked by the user, and
    the answer for every other ordered pair is what it was. *)
Theorem BlockUser_blocks_that_pair_only (userID targetUserID : UUID) (w : World) :
  IsBlocked (db w) userID targetUserID = false ->
  (forall r, In r (user_relationships (db w)) ->
             rel_ID r <> uuid_source w (uuid_drawn w)) ->
  exists w',
    BlockUser userID targetUserID w = (Ok tt, w')
    /\ IsBlocked (db w') userID targetUserID = true
    /\ isBlocked (db w') targetUserID userID = true
    /\ (forall a b, (a, b) <> (userID, targetUserID) ->
                    IsBlocked (db w') a b = IsBlocked (db w) a b)
    /\ conversations (db w') = conversations (db w)
    /\ conversation_members (db w') = conversation_members (db w)
    /\ messages (db w') = messages (db w).
Proof.
  intros Hfree Hfresh. eexists. split; [apply BlockUser_ok; assumption |].
  cbn. unfold IsBlocked in *. rewrite isBlocked_IsBlocked. unfold IsBlocked. cbn.
  assert (Hself : is_block_row userID targetUserID
                    {| rel_ID := uuid_source w (uuid_drawn w);
                       rel_UserID := userID; TargetUserID := targetUserID;
                       RelationshipType := "blocked"; rel_CreatedAt := now w |}
                  = true).
  { unfold is_block_row. cbn. rewrite !N.eqb_refl. reflexivity. }
  repeat split.
  - rewrite Count_app_one, Hself.
    destruct (Z.gtb_spec (Count (is_block_row userID targetUserID)
                                (user_relationships (db w)) + 1) 0);
      [reflexivity |].
    unfold Count in *. lia.
  - rewrite Count_app_one, Hself.
    destruct (Z.gtb_spec (Count (is_block_row userID targetUserID)
                                (user_relationships (db w)) + 1) 0);
      [reflexivity |].
    unfold Count in *. lia.
  - intros a b Hne. rewrite Count_app_one.
    rewrite (is_block_row_pair a b userID targetUserID) by (assumption || reflexivity).
    rewrite Z.add_0_r. reflexivity.
Qed.

Lemma BlockUser_blocks_that_pair_only_witness :
  exists w',
    BlockUser Sample.bob Sample.alice (Sample.world Sample.private_chat 0 true)
    = (Ok tt, w')
    /\ IsBlocked (db w') Sample.bob Sample.alice = true
    /\ isBlocked (db w') Sample.alice Sample.bob = true
    /\ (forall a b, (a, b) <> (Sample.bob, Sample.alice) ->
                    IsBlocked (db w') a b
                    = IsBlocked Sample.private_chat a b)
    /\ conversations (db w') = conversations Sample.private_chat
    /\ conversation_members (db w') = conversation_members Sample.private_chat
    /\ messages (db w') = messages Sample.private_chat.
Proof.
  apply (BlockUser_blocks_that_pair_only Sample.bob Sample.alice
           (Sample.world Sample.private_chat 0 true)).
  - reflexivity.
  - cbn. intros r [].
Defined.

(** X2: a block is recorded once.  When the pair is already blocked,
    [BlockUser] answers "user already blocked" and the world is as it
    was; so a second [BlockUser] after a successful one always fails. *)
Theorem BlockUser_twice_fails (userID targetUserID : UUID) (w w1 w2 : World) :
  BlockUser userID targetUserID w = (Ok tt, w1) ->
  db w2 = db w1 ->
  BlockUser userID targetUserID w2 = (Err (ErrMsg "user already blocked"), w2).
Proof.
  intros Hfirst Hdb.
  assert (Hnow : IsBlocked (db w1) userID targetUserID = true).
  { revert Hfirst. unfold BlockUser, insert_user_relationship. run_monad.
    destruct (Count (is_block_row userID targetUserID)
                    (user_relationships (db w)) >? 0); [discriminate |].
    cbn. repeat match goal with
                | |- context [if ?b then _ else _] => destruct b; cbn
                end; try discriminate.
    intros H. injection H as <-. cbn. unfold IsBlocked. cbn.
    rewrite Count_app_one. unfold is_block_row at 2. cbn.
    rewrite !N.eqb_refl. cbn.
    destruct (Z.gtb_spec (Count (is_block_row userID targetUserID)
                                (user_relationships (db w)) + 1) 0);
      [reflexivity |].
    unfold Count in *. lia. }
  unfold BlockUser. run_monad. unfold IsBlocked in Hnow.
  rewrite Hdb, Hnow. reflexivity.
Qed.

Lemma BlockUser_twice_fails_witness :
  BlockUser Sample.bob Sample.alice
    (snd (BlockUser Sample.bob Sample.alice
            (Sample.world Sample.private_chat 0 true)))
  = (Err (ErrMsg "user already blocked"),
     snd (BlockUser Sample.bob Sample.alice
            (Sample.world Sample.private_chat 0 true))).
Proof.
  apply (BlockUser_twice_fails Sample.bob Sample.alice
           (Sample.world Sample.private_chat 0 true)
           (snd (BlockUser Sample.bob Sample.alice
                   (Sample.world Sample.private_chat 0 true)))).
  - vm_compute. reflexivity.
  - reflexivity.
Defined.
Lemma BlockUser_inv (userID targetUserID : UUID) (w w1 : World) :
  BlockUser userID targetUserID w = (Ok tt, w1) ->
  Count (is_block_row userID targetUserID) (user_relationships (db w)) = 0
  /\ exists r,
       is_block_row userID targetUserID r = true
       /\ db w1 = set_user_relationships (user_relationships (db w) ++ [r]) (db w).
Proof.
  unfold BlockUser, insert_user_relationship. run_monad.
  destruct (Z.gtb_spec (Count (is_block_row userID targetUserID)
                              (user_relationships (db w))) 0) as [|Hle];
    [discriminate |].
  cbn. repeat match goal with
              | |- context [if ?b then _ else _] => destruct b; cbn
              end; try discriminate.
  intros H. injection H as <-. cbn. split; [unfold Count in *; lia |].
  eexists. split; [|reflexivity].
  unfold is_block_row. cbn. rewrite !N.eqb_refl. reflexivity.
Qed.

Lemma filter_not_block_rows (userID targetUserID : UUID)
    (rows : list UserRelationship) :
  Count (is_block_row userID targetUserID) rows = 0 ->
  List.filter (fun r => negb (is_block_row userID targetUserID r)) rows = rows.
Proof.
  intros Hzero. apply filter_all. intros r Hr.
  destruct (is_block_row userID targetUserID r) eqn:Hrow; [|reflexivity].
  pose proof (Count_positive _ _ r Hr Hrow). lia.
Qed.

(** X3: unblocking undoes blocking.  After a successful [BlockUser],
    [UnblockUser] for the same pair succeeds and leaves the relationship
    table exactly as it was before the block. *)
Theorem UnblockUser_undoes_BlockUser (userID targetUserID : UUID)
    (w w1 w2 : World) :
  BlockUser userID targetUserID w = (Ok tt, w1) ->
  db w2 = db w1 ->
  exists w3,
    UnblockUser userID targetUserID w2 = (Ok tt, w3)
    /\ user_relationships (db w3) = user_relationships (db w)
    /\ IsBlocked (db w3) userID targetUserID = false.
Proof.
  intros Hblock Hdb.
  destruct (BlockUser_inv _ _ _ _ Hblock) as (Hzero & r & Hrow & Hw1).
  unfold UnblockUser. run_monad. rewrite Hdb, Hw1.
  unfold set_user_relationships at 1 2. cbn [user_relationships].
  rewrite Count_app_one, Hrow, Hzero. cbn [Z.add Z.eqb].
  eexists. split; [reflexivity |].
  unfold IsBlocked. cbn [db user_relationships set_user_relationships].
  rewrite filter_app_one, Hrow. cbn [negb]. rewrite app_nil_r.
  rewrite filter_not_block_rows by assumption.
  split; [reflexivity |]. rewrite Hzero. reflexivity.
Qed.

Lemma UnblockUser_undoes_BlockUser_witness :
  exists w3,
    UnblockUser Sample.bob Sample.alice
      (snd (BlockUser Sample.bob Sample.alice
              (Sample.world Sample.private_chat 0 true)))
    = (Ok tt, w3)
    /\ user_relationships (db w3) = []
    /\ IsBlocked (db w3) Sample.bob Sample.alice = false.
Proof.
  apply (UnblockUser_undoes_BlockUser Sample.bob Sample.alice
           (Sample.world Sample.private_chat 0 true)
           (snd (BlockUser Sample.bob Sample.alice
                   (Sample.world Sample.private_chat 0 true)))).
  - vm_compute. reflexivity.
  - reflexivity.
Defined.

(** X4: unblocking somebody who is not blocked is an error, "user not
    blocked", and changes nothing; blocks in the other direction and
    relationships of other types do not count. *)
Theorem UnblockUser_without_block_fails (userID targetUserID : UUID) (w : World) :
  IsBlocked (db w) userID targetUserID = false ->
  UnblockUser userID targetUserID w = (Err (ErrMsg "user not blocked"), w).
Proof.
  unfold IsBlocked. intros Hfree.
  assert (Hzero : Count (is_block_row userID targetUserID)
                        (user_relationships (db w)) = 0).
  { destruct (Z.gtb_spec (Count (is_block_row userID targetUserID)
                                (user_relationships (db w))) 0);
      [discriminate | unfold Count in *; lia]. }
  unfold UnblockUser. run_monad. rewrite Hzero. cbn.
  rewrite filter_not_block_rows by assumption.
  clear. destruct w as [[] ? ? ? ? ?]. reflexivity.
Qed.

Lemma UnblockUser_without_block_fails_witness :
  UnblockUser Sample.alice Sample.bob
    (Sample.world Sample.private_chat_blocked 0 true)
  = (Err (ErrMsg "user not blocked"),
     Sample.world Sample.private_chat_blocked 0 true).
Proof.
  apply (UnblockUser_without_block_fails Sample.alice Sample.bob
           (Sample.world Sample.private_chat_blocked 0 true)).
  reflexivity.
Defined.

(** X5: a block stops direct messages.  Once [blocker] has blocked
    [senderID], a [SendMessage] of [senderID] that names [blocker] as the
    receiver fails, and the message table stays as it was before the
    block. *)
Theorem BlockUser_stops_direct_messages (s : MessageService)
    (blocker senderID : UUID) (req : SendMessageRequest) (w w1 w2 : World) :
  BlockUser blocker senderID w = (Ok tt, w1) ->
  db w2 = db w1 ->
  ReceiverID req = Some blocker ->
  exists e,
    fst (SendMessage s senderID req w2) = Err e
    /\ messages (db (snd (SendMessage s senderID req w2))) = messages (db w).
Proof.
  intros Hblock Hdb Hrecv.
  destruct (BlockUser_inv _ _ _ _ Hblock) as (Hzero & r & Hrow & Hw1).
  assert (Hblocked : isBlocked (db w2) senderID blocker = true).
  { rewrite isBlocked_IsBlocked. unfold IsBlocked. rewrite Hdb, Hw1. cbn.
    rewrite Count_app_one, Hrow, Hzero. reflexivity. }
  destruct (SendMessage_refused_when_receiver_named s senderID blocker req w2
              Hrecv Hblocked) as (e & He & Hmsg).
  exists e. split; [exact He |]. rewrite Hmsg, Hdb, Hw1. reflexivity.
Qed.

Lemma BlockUser_stops_direct_messages_witness :
  exists e,
    fst (SendMessage (Sample.service false) Sample.alice
           (Sample.request 10 (Some Sample.bob) "text" (Some "hello"))
           (snd (BlockUser Sample.bob Sample.alice
                   (Sample.world Sample.private_chat 0 true)))) = Err e
    /\ messages
         (db (snd (SendMessage (Sample.service false) Sample.alice
                     (Sample.request 10 (Some Sample.bob) "text" (Some "hello"))
                     (snd (BlockUser Sample.bob Sample.alice
                             (Sample.world Sample.private_chat 0 true))))))
       = messages Sample.private_chat.
Proof.
  apply (BlockUser_stops_direct_messages (Sample.service false)
           Sample.bob Sample.alice
           (Sample.request 10 (Some Sample.bob) "text" (Some "hello"))
           (Sample.world Sample.private_chat 0 true)
           (snd (BlockUser Sample.bob Sample.alice
                   (Sample.world Sample.private_chat 0 true)))).
  - vm_compute. reflexivity.
  - reflexivity.
  - reflexivity.
Defined.

(** ** The can_send flag of a message list *)

Lemma count_until_other_spec (userID : UUID) (msgs : list Message) (my : Z) :
  0 <= my ->
  (let '(myMessageCount, othersMessageCount) :=
     count_until_other userID msgs my 0 in
   (myMessageCount =? 0)%Z || (othersMessageCount >? 0))
  = existsb (fun m => negb (SenderID m =? userID)%N) msgs
    || ((my =? 0)%Z && (length msgs =? 0)%nat).
Proof.
  revert my; induction msgs as [|m msgs IH]; intros my Hmy; cbn.
  - rewrite andb_true_r, orb_false_r. reflexivity.
  - rewrite andb_false_r, orb_false_r.
    destruct (SenderID m =? userID)%N; cbn.
    + rewrite IH by lia.
      destruct (Z.eqb_spec (my + 1) 0); [lia |].
      rewrite andb_false_l, orb_false_r. reflexivity.
    + apply orb_true_r.
Qed.

Lemma Count_filter {A} (p q : A -> bool) (rows : list A) :
  Count (fun r => p r && q r) rows = Count q (List.filter p rows).
Proof.
  unfold Count. f_equal. induction rows as [|r rows IH]; cbn; [reflexivity |].
  destruct (p r); cbn; [destruct (q r); cbn; congruence | exact IH].
Qed.

Lemma existsb_false_In {A} (p : A -> bool) (l : list A) (x : A) :
  existsb p l = false -> In x l -> p x = false.
Proof.
  intros Hnone Hin. destruct (p x) eqn:Hp; [|reflexivity].
  rewrite <- Hnone. symmetry. apply existsb_exists. eauto.
Qed.

Lemma Count_all {A} (p : A -> bool) (rows : list A) :
  (forall r, In r rows -> p r = true) -> Count p rows = Z.of_nat (length rows).
Proof. intros H. unfold Count. rewrite filter_all by assumption. reflexivity. Qed.

(** X6: what the loop of [checkCanSendFromMessages] computes.  With the
    first-message limit on, the flag is true exactly when the list is empty
    or holds a message of somebody else; with the limit off it is always
    true. *)
Theorem checkCanSendFromMessages_spec (settingsCache : gmap string string)
    (userID : UUID) (msgs : list Message) :
  checkCanSendFromMessages settingsCache userID msgs = true
  <-> IsFeatureEnabled settingsCache "enable_first_message_limit" = false
      \/ msgs = []
      \/ exists m, In m msgs /\ SenderID m <> userID.
Proof.
  unfold checkCanSendFromMessages.
  destruct (IsFeatureEnabled settingsCache "enable_first_message_limit"); cbn;
    [|tauto].
  rewrite (count_until_other_spec userID msgs 0) by lia. cbn.
  rewrite orb_true_iff, existsb_exists. split.
  - intros [(m & Hin & Hm)|Hlen].
    + right; right. exists m. split; [exact Hin |].
      intros Heq. rewrite Heq, N.eqb_refl in Hm. discriminate.
    + right; left. destruct msgs; [reflexivity | discriminate].
  - intros [Hoff|[->|(m & Hin & Hm)]]; [discriminate | right; reflexivity |].
    left. exists m. split; [exact Hin |].
    apply negb_true_iff, N.eqb_neq. exact Hm.
Qed.

(** X7: on the whole history of a private conversation the flag that
    [GetMessages] computes from the list is the answer of [CheckCanSend],
    in whatever order the history is listed. *)
Theorem checkCanSendFromMessages_agrees_with_CheckCanSend
    (s : MessageService) (d : DB) (userID conversationID : UUID)
    (c : Conversation) (history : list Message) :
  find_conversation d conversationID = Some c ->
  ConversationType c = "private" ->
  Permutation history
    (List.filter (fun m => (msg_ConversationID m =? conversationID)%N)
                 (messages d)) ->
  checkCanSendFromMessages (sysSvc s) userID history
  = CheckCanSend s d userID conversationID.
Proof.
  intros Hfind Hprivate Hperm.
  unfold checkCanSendFromMessages, CheckCanSend.
  destruct (IsFeatureEnabled (sysSvc s) "enable_first_message_limit"); cbn;
    [|reflexivity].
  rewrite Hfind, Hprivate. cbn.
  rewrite (count_until_other_spec userID history 0) by lia. cbn.
  rewrite !Count_filter.
  set (rows := List.filter (fun m => (msg_ConversationID m =? conversationID)%N)
                           (messages d)) in *.
  destruct (existsb (fun m => negb (SenderID m =? userID)%N) history) eqn:Hother.
  - apply existsb_exists in Hother. destruct Hother as (m & Hin & Hm).
    assert (Hin' : In m rows).
    { apply list_elem_of_In. rewrite <- Hperm. apply list_elem_of_In. exact Hin. }
    rewrite (Count_positive (fun m0 => negb (SenderID m0 =? userID)%N) rows m
               Hin' Hm).
    destruct (Count (fun m0 => (SenderID m0 =? userID)%N) rows =? 0)%Z;
      reflexivity.
  - cbn.
    assert (Hmine : forall m, In m rows -> (SenderID m =? userID)%N = true).
    { intros m Hin.
      assert (Hin' : In m history).
      { apply list_elem_of_In. rewrite Hperm. apply list_elem_of_In. exact Hin. }
      apply negb_false_iff. exact (existsb_false_In _ _ m Hother Hin'). }
    rewrite (Count_all _ rows Hmine).
    assert (Hnone : Count (fun m0 => negb (SenderID m0 =? userID)%N) rows = 0).
    { apply Count_zero. intros m Hin. rewrite (Hmine m Hin). reflexivity. }
    rewrite Hnone. cbn.
    rewrite (Permutation_length Hperm).
    destruct rows; cbn; [reflexivity |].
    destruct (Z.eqb_spec (Z.pos (Pos.of_succ_nat (length rows))) 0);
      [lia | reflexivity].
Qed.

Lemma checkCanSendFromMessages_agrees_witness :
  checkCanSendFromMessages (sysSvc (Sample.service true)) Sample.alice
    (messages Sample.private_chat_unanswered)
  = CheckCanSend (Sample.service true) Sample.private_chat_unanswered
      Sample.alice 10.
Proof.
  apply (checkCanSendFromMessages_agrees_with_CheckCanSend
           (Sample.service true) Sample.private_chat_unanswered Sample.alice 10
           (Sample.conversation 10 "private")).
  - reflexivity.
  - reflexivity.
  - reflexivity.
Defined.

(** ** Membership of groups *)

Lemma NoDup_map_inj {A B} (f : A -> B) (l : list A) (x y : A) :
  NoDup (map f l) -> In x l -> In y l -> f x = f y -> x = y.
Proof.
  induction l as [|a l IH]; cbn; intros Hnodup Hx Hy Hf; [contradiction |].
  inversion Hnodup as [|? ? Hnotin Hnodup']; subst.
  destruct Hx as [->|Hx], Hy as [->|Hy]; auto.
  - exfalso. apply Hnotin. rewrite Hf. apply list_elem_of_In, in_map. assumption.
  - exfalso. apply Hnotin. rewrite <- Hf. apply list_elem_of_In, in_map. assumption.
Qed.

Lemma is_active_member_row_spec (conversationID userID : UUID)
    (m : ConversationMember) :
  is_active_member_row conversationID userID m = true
  <-> cm_ConversationID m = conversationID /\ cm_UserID m = userID
      /\ LeftAt m = None.
Proof.
  unfold is_active_member_row. rewrite !andb_true_iff, !N.eqb_eq.
  destruct (LeftAt m); cbn; intuition congruence.
Qed.

Lemma isConversationMember_spec (d : DB) (conversationID userID : UUID) :
  isConversationMember d conversationID userID = true
  <-> exists m, In m (conversation_members d)
                /\ is_active_member_row conversationID userID m = true.
Proof. apply Count_positive_iff. Qed.

Lemma find_active_member_Some (d : DB) (conversationID userID : UUID)
    (m : ConversationMember) :
  find_active_member d conversationID userID = Some m ->
  In m (conversation_members d)
  /\ is_active_member_row conversationID userID m = true.
Proof.
  intros Hfind. apply First_In in Hfind. apply filter_In in Hfind. exact Hfind.
Qed.

Lemma find_active_member_None (d : DB) (conversationID userID : UUID) :
  find_active_member d conversationID userID = None ->
  isConversationMember d conversationID userID = false.
Proof.
  intros Hfind. apply First_None in Hfind.
  unfold isConversationMember, Count.
  change (List.filter (is_active_member_row conversationID userID)
                      (conversation_members d) = []) in Hfind.
  change ((Z.of_nat (length (List.filter
                               (is_active_member_row conversationID userID)
                               (conversation_members d))) >? 0) = false).
  rewrite Hfind. reflexivity.
Qed.

Lemma find_active_member_unique (d : DB) (conversationID userID : UUID)
    (m : ConversationMember) :
  members_unique d ->
  In m (conversation_members d) ->
  is_active_member_row conversationID userID m = true ->
  find_active_member d conversationID userID = Some m.
Proof.
  intros Huniq Hin Hrow.
  destruct (First_filter_Some cm_ID (is_active_member_row conversationID userID)
              (conversation_members d) m Hin Hrow) as (r & Hfirst & Hr & Hp).
  unfold find_active_member.
  change (First cm_ID (List.filter (is_active_member_row conversationID userID)
                                   (conversation_members d)) = Some m).
  rewrite Hfirst. f_equal. apply (member_key_unique d); try assumption.
  apply is_active_member_row_spec in Hrow, Hp. unfold member_key.
  destruct Hrow as (-> & -> & _), Hp as (-> & -> & _). reflexivity.
Qed.

(** Membership after one row has been marked as left. *)
Lemma isConversationMember_after_leaving (d : DB) (member : ConversationMember)
    (t : Time) (conversationID userID : UUID) :
  members_unique d -> member_ids_unique d ->
  In member (conversation_members d) ->
  isConversationMember
    (set_conversation_members
       (members_after_leaving member t (conversation_members d)) d)
    conversationID userID
  = isConversationMember d conversationID userID
    && negb ((cm_ConversationID member =? conversationID)%N
             && (cm_UserID member =? userID)%N).
Proof.
  intros Huniq Hids Hin.
  apply eq_true_iff_eq. rewrite andb_true_iff, negb_true_iff.
  rewrite !isConversationMember_spec. cbn [conversation_members set_conversation_members].
  unfold members_after_leaving. split.
  - intros (m' & Hm' & Hrow). apply in_map_iff in Hm'.
    destruct Hm' as (m & Hf & Hm).
    destruct (N.eqb_spec (cm_ID m) (cm_ID member)) as [Hid|Hid].
    + subst m'. apply is_active_member_row_spec in Hrow.
      destruct Hrow as (_ & _ & Hleft). discriminate.
    + subst m'. split; [eauto |].
      apply not_true_iff_false. intros Hkey.
      apply andb_true_iff in Hkey. destruct Hkey as [Hc Hu].
      apply N.eqb_eq in Hc, Hu.
      apply is_active_member_row_spec in Hrow. destruct Hrow as (Hc' & Hu' & _).
      apply Hid. f_equal. apply (member_key_unique d); try assumption.
      unfold member_key. congruence.
  - intros [(m & Hm & Hrow) Hkey]. exists m. split; [|exact Hrow].
    apply in_map_iff. exists m. split; [|exact Hm].
    destruct (N.eqb_spec (cm_ID m) (cm_ID member)) as [Hid|Hid]; [|reflexivity].
    exfalso. assert (m = member)
      by (apply (NoDup_map_inj cm_ID (conversation_members d)); assumption).
    subst m. apply is_active_member_row_spec in Hrow.
    destruct Hrow as (Hc & Hu & _).
    rewrite Hc, Hu, !N.eqb_refl in Hkey. discriminate.
Qed.

Lemma has_member_row_after_leaving (d : DB) (member : ConversationMember)
    (t : Time) (conversationID userID : UUID) :
  has_member_row
    (set_conversation_members
       (members_after_leaving member t (conversation_members d)) d)
    conversationID userID
  = has_member_row d conversationID userID.
Proof.
  unfold has_member_row, members_after_leaving.
  cbn [conversation_members set_conversation_members].
  induction (conversation_members d) as [|m rows IH]; cbn; [reflexivity |].
  rewrite IH. destruct (cm_ID m =? cm_ID member)%N; reflexivity.
Qed.

(** The ways [LeaveGroup] ends: with an error and the world as it was, or
    with the caller's row marked as left. *)
Lemma LeaveGroup_cases (userID conversationID : UUID) (w : World) :
  (exists e, LeaveGroup userID conversationID w = (Err e, w))
  \/ exists conversation member,
       find_conversation (db w) conversationID = Some conversation
       /\ ConversationType conversation = "group"
       /\ find_active_member (db w) conversationID userID = Some member
       /\ Role member <> "owner"
       /\ LeaveGroup userID conversationID w
          = (Ok tt,
             with_db (set_conversation_members
                        (members_after_leaving member (now w)
                           (conversation_members (db w))) (db w)) w).
Proof.
  unfold LeaveGroup, update_left_at. run_monad.
  destruct (find_conversation (db w) conversationID) as [conversation|];
    [|left; eauto].
  destruct (String.eqb_spec (ConversationType conversation) "group") as [Hg|Hg];
    cbn; [|left; eauto].
  destruct (find_active_member (db w) conversationID userID) as [member|];
    [|left; eauto].
  destruct (String.eqb_spec (Role member) "owner") as [Ho|Ho]; [left; eauto |].
  right. exists conversation, member. auto.
Qed.

Lemma RemoveMemberFromGroup_cases (userID conversationID targetUserID : UUID)
    (w : World) :
  (exists e, RemoveMemberFromGroup userID conversationID targetUserID w
             = (Err e, w))
  \/ exists conversation operatorMember targetMember,
       find_conversation (db w) conversationID = Some conversation
       /\ ConversationType conversation = "group"
       /\ find_active_member (db w) conversationID userID = Some operatorMember
       /\ (Role operatorMember = "owner" \/ Role operatorMember = "admin")
       /\ find_active_member (db w) conversationID targetUserID
          = Some targetMember
       /\ Role targetMember <> "owner"
       /\ RemoveMemberFromGroup userID conversationID targetUserID w
          = (Ok tt,
             with_db (set_conversation_members
                        (members_after_leaving targetMember (now w)
                           (conversation_members (db w))) (db w)) w).
Proof.
  unfold RemoveMemberFromGroup, update_left_at. run_monad.
  destruct (find_conversation (db w) conversationID) as [conversation|];
    [|left; eauto].
  destruct (String.eqb_spec (ConversationType conversation) "group") as [Hg|Hg];
    cbn; [|left; eauto].
  destruct (find_active_member (db w) conversationID userID) as [operatorMember|];
    [|left; eauto].
  assert (Hrole : (Role operatorMember = "owner" \/ Role operatorMember = "admin")
                  \/ negb (String.eqb (Role operatorMember) "owner")
                     && negb (String.eqb (Role operatorMember) "admin") = true).
  { destruct (String.eqb_spec (Role operatorMember) "owner"); [auto |].
    destruct (String.eqb_spec (Role operatorMember) "admin"); auto. }
  destruct Hrole as [Hrole|Hrole].
  2:{ rewrite Hrole. left; eauto. }
  assert (Hpass : negb (String.eqb (Role operatorMember) "owner")
                  && negb (String.eqb (Role operatorMember) "admin") = false).
  { destruct Hrole as [-> | ->]; reflexivity. }
  rewrite Hpass.
  destruct (find_active_member (db w) conversationID targetUserID)
    as [targetMember|]; [|left; eauto].
  destruct (String.eqb_spec (Role targetMember) "owner") as [Ho|Ho];
    [left; eauto |].
  right. exists conversation, operatorMember, targetMember. auto 10.
Qed.
Lemma SendMessage_not_member (s : MessageService) (senderID : UUID)
    (req : SendMessageRequest) (w : World) :
  req_ConversationID req <> Nil ->
  isConversationMember (db w) (req_ConversationID req) senderID = false ->
  exists e, SendMessage s senderID req w = (Err e, w).
Proof.
  intros Hnil Hout. unfold SendMessage.
  destruct (content_missing req); [unfold fail; eauto |].
  assert (Hres : match ReceiverID req with
                 | Some receiverID =>
                   if (req_ConversationID req =? Nil)%N
                   then wrap "failed to get conversation"
                          (getOrCreatePrivateConversation senderID receiverID)
                   else ret (req_ConversationID req, false)
                 | None => ret (req_ConversationID req, false)
                 end = (ret (req_ConversationID req, false) : M (UUID * bool))).
  { destruct (N.eqb_spec (req_ConversationID req) Nil); [contradiction |].
    destruct (ReceiverID req); reflexivity. }
  rewrite Hres. unfold bind at 1. unfold ret at 1. cbv beta iota.
  destruct (N.eqb_spec (req_ConversationID req) Nil); [contradiction |].
  unfold bind at 1. unfold get_db at 1. cbv beta iota.
  rewrite Hout. cbn. unfold fail. eauto.
Qed.

(** X8: only members send.  A [SendMessage] that names its conversation
    succeeds only when the sender has a row in it whose [left_at] is null;
    for anybody else it returns an error and the world (store, cache,
    pushes) is untouched. *)
Theorem SendMessage_requires_membership (s : MessageService) (senderID : UUID)
    (req : SendMessageRequest) (w : World) :
  req_ConversationID req <> Nil ->
  (forall message,
      fst (SendMessage s senderID req w) = Ok message ->
      isConversationMember (db w) (req_ConversationID req) senderID = true)
  /\ (isConversationMember (db w) (req_ConversationID req) senderID = false ->
      exists e, SendMessage s senderID req w = (Err e, w)).
Proof.
  intros Hnil. split.
  - intros message Hok.
    destruct (isConversationMember (db w) (req_ConversationID req) senderID)
      eqn:Hmember; [reflexivity |].
    destruct (SendMessage_not_member s senderID req w Hnil Hmember) as [e He].
    rewrite He in Hok. discriminate.
  - apply SendMessage_not_member. exact Hnil.
Qed.

Lemma SendMessage_requires_membership_witness :
  (forall message,
      fst (SendMessage (Sample.service false) Sample.carol
             (Sample.request 20 None "text" (Some "hello"))
             (Sample.world Sample.group_with_leaver 10 true)) = Ok message ->
      isConversationMember Sample.group_with_leaver 20 Sample.carol = true)
  /\ (isConversationMember Sample.group_with_leaver 20 Sample.carol = false ->
      exists e,
        SendMessage (Sample.service false) Sample.carol
          (Sample.request 20 None "text" (Some "hello"))
          (Sample.world Sample.group_with_leaver 10 true)
        = (Err e, Sample.world Sample.group_with_leaver 10 true)).
Proof.
  apply (SendMessage_requires_membership (Sample.service false) Sample.carol
           (Sample.request 20 None "text" (Some "hello"))
           (Sample.world Sample.group_with_leaver 10 true)).
  discriminate.
Defined.

(** X9: leaving a group ends the membership and nothing else.  After a
    successful [LeaveGroup] the caller, who was an active member and not
    the owner of a group, is no longer a member, although the row stays in
    the table; the membership of every other user, and of the caller in
    other conversations, is what it was, and the other tables are
    untouched. *)
Theorem LeaveGroup_ends_membership (userID conversationID : UUID) (w w' : World) :
  members_unique (db w) -> member_ids_unique (db w) ->
  LeaveGroup userID conversationID w = (Ok tt, w') ->
  isConversationMember (db w) conversationID userID = true
  /\ isConversationMember (db w') conversationID userID = false
  /\ has_member_row (db w') conversationID userID = true
  /\ (forall c u, (c, u) <> (conversationID, userID) ->
                  isConversationMember (db w') c u
                  = isConversationMember (db w) c u)
  /\ conversations (db w') = conversations (db w)
  /\ messages (db w') = messages (db w)
  /\ user_relationships (db w') = user_relationships (db w).
Proof.
  intros Huniq Hids Hrun.
  destruct (LeaveGroup_cases userID conversationID w)
    as [[e He]|(conversation & member & _ & _ & Hfind & _ & Hok)];
    [rewrite He in Hrun; discriminate |].
  rewrite Hok in Hrun. injection Hrun as <-.
  apply find_active_member_Some in Hfind. destruct Hfind as [Hin Hrow].
  pose proof Hrow as Hkey. apply is_active_member_row_spec in Hkey.
  destruct Hkey as (Hc & Hu & _).
  assert (Hwas : isConversationMember (db w) conversationID userID = true)
    by (apply isConversationMember_spec; eauto).
  cbn [db with_db]. repeat split; try reflexivity.
  - exact Hwas.
  - rewrite isConversationMember_after_leaving by assumption.
    rewrite Hc, Hu, !N.eqb_refl. apply andb_false_r.
  - rewrite has_member_row_after_leaving. apply has_member_row_spec. eauto.
  - intros c u Hne. rewrite isConversationMember_after_leaving by assumption.
    rewrite Hc, Hu.
    destruct (N.eqb_spec conversationID c) as [->|]; [|apply andb_true_r].
    destruct (N.eqb_spec userID u) as [->|]; [|apply andb_true_r].
    contradiction Hne. reflexivity.
Qed.

Lemma LeaveGroup_ends_membership_witness :
  isConversationMember Sample.group_with_leaver 20 Sample.bob = true
  /\ isConversationMember
       (db (snd (LeaveGroup Sample.bob 20
                   (Sample.world Sample.group_with_leaver 10 true))))
       20 Sample.bob = false
  /\ has_member_row
       (db (snd (LeaveGroup Sample.bob 20
                   (Sample.world Sample.group_with_leaver 10 true))))
       20 Sample.bob = true
  /\ (forall c u, (c, u) <> (20%N, Sample.bob) ->
                  isConversationMember
                    (db (snd (LeaveGroup Sample.bob 20
                                (Sample.world Sample.group_with_leaver 10 true))))
                    c u
                  = isConversationMember Sample.group_with_leaver c u)
  /\ conversations
       (db (snd (LeaveGroup Sample.bob 20
                   (Sample.world Sample.group_with_leaver 10 true))))
     = conversations Sample.group_with_leaver
  /\ messages
       (db (snd (LeaveGroup Sample.bob 20
                   (Sample.world Sample.group_with_leaver 10 true))))
     = messages Sample.group_with_leaver
  /\ user_relationships
       (db (snd (LeaveGroup Sample.bob 20
                   (Sample.world Sample.group_with_leaver 10 true))))
     = user_relationships Sample.group_with_leaver.
Proof.
  apply (LeaveGroup_ends_membership Sample.bob 20
           (Sample.world Sample.group_with_leaver 10 true)).
  - apply (bool_decide_unpack _). vm_compute. exact I.
  - apply (bool_decide_unpack _). vm_compute. exact I.
  - vm_compute. reflexivity.
Defined.

(** X10: who has left cannot write.  After a successful [LeaveGroup],
    every [SendMessage] of the same user that names the group fails and
    leaves the world untouched. *)
Theorem LeaveGroup_then_SendMessage_fails (s : MessageService)
    (userID conversationID : UUID) (req : SendMessageRequest)
    (w w1 w2 : World) :
  members_unique (db w) -> member_ids_unique (db w) ->
  LeaveGroup userID conversationID w = (Ok tt, w1) ->
  db w2 = db w1 ->
  req_ConversationID req = conversationID -> conversationID <> Nil ->
  exists e, SendMessage s userID req w2 = (Err e, w2).
Proof.
  intros Huniq Hids Hrun Hdb Hreq Hnil.
  destruct (LeaveGroup_cases userID conversationID w)
    as [[e He]|(conversation & member & _ & _ & Hfind & _ & Hok)];
    [rewrite He in Hrun; discriminate |].
  rewrite Hok in Hrun. injection Hrun as <-.
  apply find_active_member_Some in Hfind. destruct Hfind as [Hin Hrow].
  apply is_active_member_row_spec in Hrow. destruct Hrow as (Hc & Hu & _).
  apply SendMessage_not_member; [rewrite Hreq; exact Hnil |].
  rewrite Hreq, Hdb. cbn [db with_db].
  rewrite isConversationMember_after_leaving by assumption.
  rewrite Hc, Hu, !N.eqb_refl. apply andb_false_r.
Qed.

Lemma LeaveGroup_then_SendMessage_fails_witness :
  exists e,
    SendMessage (Sample.service false) Sample.bob
      (Sample.request 20 None "text" (Some "hello"))
      (snd (LeaveGroup Sample.bob 20
              (Sample.world Sample.group_with_leaver 10 true)))
    = (Err e,
       snd (LeaveGroup Sample.bob 20
              (Sample.world Sample.group_with_leaver 10 true))).
Proof.
  apply (LeaveGroup_then_SendMessage_fails (Sample.service false) Sample.bob 20
           (Sample.request 20 None "text" (Some "hello"))
           (Sample.world Sample.group_with_leaver 10 true)
           (snd (LeaveGroup Sample.bob 20
                   (Sample.world Sample.group_with_leaver 10 true)))).
  - apply (bool_decide_unpack _). vm_compute. exact I.
  - apply (bool_decide_unpack _). vm_compute. exact I.
  - vm_compute. reflexivity.
  - reflexivity.
  - reflexivity.
  - discriminate.
Defined.
Lemma members_unique_after_leaving (d : DB) (member : ConversationMember)
    (t : Time) :
  members_unique d ->
  members_unique
    (set_conversation_members
       (members_after_leaving member t (conversation_members d)) d).
Proof.
  unfold members_unique, members_after_leaving.
  cbn [conversation_members set_conversation_members].
  rewrite map_map. intros Huniq.
  erewrite map_ext; [exact Huniq |].
  intros m. cbn. destruct (cm_ID m =? cm_ID member)%N; reflexivity.
Qed.

Lemma find_active_member_after_leaving (d : DB)
    (member other : ConversationMember) (t : Time)
    (conversationID userID : UUID) :
  members_unique d -> member_ids_unique d ->
  In member (conversation_members d) ->
  find_active_member d conversationID userID = Some other ->
  other <> member ->
  find_active_member
    (set_conversation_members
       (members_after_leaving member t (conversation_members d)) d)
    conversationID userID = Some other.
Proof.
  intros Huniq Hids Hin Hfind Hne.
  apply find_active_member_Some in Hfind. destruct Hfind as [Hother Hrow].
  apply find_active_member_unique;
    [apply members_unique_after_leaving; assumption | | exact Hrow].
  cbn [conversation_members set_conversation_members].
  unfold members_after_leaving. apply in_map_iff. exists other.
  split; [|exact Hother].
  destruct (N.eqb_spec (cm_ID other) (cm_ID member)) as [Hid|]; [|reflexivity].
  contradiction Hne.
  apply (NoDup_map_inj cm_ID (conversation_members d)); assumption.
Qed.

(** X11: a group keeps its owner.  Whoever calls [LeaveGroup] or
    [RemoveMemberFromGroup], on whatever conversation and target, the
    active row of a member whose role is owner is afterwards the row it
    was. *)
Theorem group_owner_stays (conversationID ownerID : UUID)
    (owner : ConversationMember) (w : World) :
  members_unique (db w) -> member_ids_unique (db w) ->
  find_active_member (db w) conversationID ownerID = Some owner ->
  Role owner = "owner" ->
  (forall userID c,
      find_active_member (db (snd (LeaveGroup userID c w)))
        conversationID ownerID = Some owner)
  /\ (forall userID c targetUserID,
         find_active_member
           (db (snd (RemoveMemberFromGroup userID c targetUserID w)))
           conversationID ownerID = Some owner).
Proof.
  intros Huniq Hids Hfind Howner. split.
  - intros userID c.
    destruct (LeaveGroup_cases userID c w)
      as [[e He]|(conversation & member & _ & _ & Hm & Hrole & Hok)].
    + rewrite He. exact Hfind.
    + rewrite Hok. cbn [snd db with_db].
      apply find_active_member_Some in Hm. destruct Hm as [Hin _].
      apply find_active_member_after_leaving; try assumption.
      intros ->. contradiction.
  - intros userID c targetUserID.
    destruct (RemoveMemberFromGroup_cases userID c targetUserID w)
      as [[e He]|(conversation & op & member & _ & _ & _ & _ & Hm & Hrole & Hok)].
    + rewrite He. exact Hfind.
    + rewrite Hok. cbn [snd db with_db].
      apply find_active_member_Some in Hm. destruct Hm as [Hin _].
      apply find_active_member_after_leaving; try assumption.
      intros ->. contradiction.
Qed.

Lemma group_owner_stays_witness :
  (forall userID c,
      find_active_member
        (db (snd (LeaveGroup userID c
                    (Sample.world Sample.group_with_leaver 10 true))))
        20 Sample.alice
      = Some (Sample.member 21 20 Sample.alice "owner" None 0 None))
  /\ (forall userID c targetUserID,
         find_active_member
           (db (snd (RemoveMemberFromGroup userID c targetUserID
                       (Sample.world Sample.group_with_leaver 10 true))))
           20 Sample.alice
         = Some (Sample.member 21 20 Sample.alice "owner" None 0 None)).
Proof.
  apply (group_owner_stays 20 Sample.alice
           (Sample.member 21 20 Sample.alice "owner" None 0 None)
           (Sample.world Sample.group_with_leaver 10 true)).
  - apply (bool_decide_unpack _). vm_compute. exact I.
  - apply (bool_decide_unpack _). vm_compute. exact I.
  - reflexivity.
  - reflexivity.
Defined.

(** X12: removing a member.  A successful [RemoveMemberFromGroup] was
    called by an active owner or admin of the conversation; afterwards the
    target is not a member of it, and every other membership is what it
    was. *)
Theorem RemoveMemberFromGroup_removes_target
    (userID conversationID targetUserID : UUID) (w w' : World) :
  members_unique (db w) -> member_ids_unique (db w) ->
  RemoveMemberFromGroup userID conversationID targetUserID w = (Ok tt, w') ->
  (exists operatorMember,
      find_active_member (db w) conversationID userID = Some operatorMember
      /\ (Role operatorMember = "owner" \/ Role operatorMember = "admin"))
  /\ isConversationMember (db w) conversationID targetUserID = true
  /\ isConversationMember (db w') conversationID targetUserID = false
  /\ (forall c u, (c, u) <> (conversationID, targetUserID) ->
                  isConversationMember (db w') c u
                  = isConversationMember (db w) c u).
Proof.
  intros Huniq Hids Hrun.
  destruct (RemoveMemberFromGroup_cases userID conversationID targetUserID w)
    as [[e He]|(conversation & op & member & _ & _ & Hop & Hrole & Hfind & _ & Hok)];
    [rewrite He in Hrun; discriminate |].
  rewrite Hok in Hrun. injection Hrun as <-.
  apply find_active_member_Some in Hfind. destruct Hfind as [Hin Hrow].
  pose proof Hrow as Hkey. apply is_active_member_row_spec in Hkey.
  destruct Hkey as (Hc & Hu & _).
  cbn [db with_db]. repeat split.
  - eauto.
  - apply isConversationMember_spec; eauto.
  - rewrite isConversationMember_after_leaving by assumption.
    rewrite Hc, Hu, !N.eqb_refl. apply andb_false_r.
  - intros c u Hne. rewrite isConversationMember_after_leaving by assumption.
    rewrite Hc, Hu.
    destruct (N.eqb_spec conversationID c) as [->|]; [|apply andb_true_r].
    destruct (N.eqb_spec targetUserID u) as [->|]; [|apply andb_true_r].
    contradiction Hne. reflexivity.
Qed.

Lemma RemoveMemberFromGroup_removes_target_witness :
  (exists operatorMember,
      find_active_member Sample.group_with_leaver 20 Sample.alice
      = Some operatorMember
      /\ (Role operatorMember = "owner" \/ Role operatorMember = "admin"))
  /\ isConversationMember Sample.group_with_leaver 20 Sample.bob = true
  /\ isConversationMember
       (db (snd (RemoveMemberFromGroup Sample.alice 20 Sample.bob
                   (Sample.world Sample.group_with_leaver 10 true))))
       20 Sample.bob = false
  /\ (forall c u, (c, u) <> (20%N, Sample.bob) ->
                  isConversationMember
                    (db (snd (RemoveMemberFromGroup Sample.alice 20 Sample.bob
                                (Sample.world Sample.group_with_leaver 10 true))))
                    c u
                  = isConversationMember Sample.group_with_leaver c u).
Proof.
  apply (RemoveMemberFromGroup_removes_target Sample.alice 20 Sample.bob
           (Sample.world Sample.group_with_leaver 10 true)).
  - apply (bool_decide_unpack _). vm_compute. exact I.
  - apply (bool_decide_unpack _). vm_compute. exact I.
  - vm_compute. reflexivity.
Defined.

Lemma find_conversation_Some (d : DB) (conversationID : UUID) (c : Conversation) :
  find_conversation d conversationID = Some c ->
  In c (conversations d) /\ conv_ID c = conversationID.
Proof.
  intros Hfind. apply First_In in Hfind. apply filter_In in Hfind.
  destruct Hfind as [Hin Hid]. apply N.eqb_eq in Hid. auto.
Qed.

Lemma private_members_stay_after_leaving (d : DB) (conversation : Conversation)
    (member : ConversationMember) (t : Time) :
  conversation_ids_unique d -> member_ids_unique d ->
  private_members_stay d ->
  In conversation (conversations d) ->
  ConversationType conversation = "group" ->
  In member (conversation_members d) ->
  cm_ConversationID member = conv_ID conversation ->
  private_members_stay
    (set_conversation_members
       (members_after_leaving member t (conversation_members d)) d).
Proof.
  intros Hconvs Hids Hstay Hconv Hgroup Hin Hof c m' Hc Hm' Hmc Hprivate.
  cbn [conversations conversation_members set_conversation_members] in Hc, Hm'.
  unfold members_after_leaving in Hm'. apply in_map_iff in Hm'.
  destruct Hm' as (m & Hf & Hm).
  destruct (N.eqb_spec (cm_ID m) (cm_ID member)) as [Hid|Hid].
  - exfalso. assert (m = member)
      by (apply (NoDup_map_inj cm_ID (conversation_members d)); assumption).
    subst m m'. cbn in Hmc.
    assert (c = conversation)
      by (apply (NoDup_map_inj conv_ID (conversations d));
          [exact Hconvs | assumption | assumption | congruence]).
    subst c. rewrite Hgroup in Hprivate. discriminate.
  - subst m'. apply (Hstay c m); assumption.
Qed.

(** X13: [left_at] is written for groups only.  On a store in which no
    member row of a private conversation has [left_at] set, neither
    [LeaveGroup] nor [RemoveMemberFromGroup] sets one, whoever calls them
    with whatever arguments. *)
Theorem private_members_stay_preserved (w : World) :
  conversation_ids_unique (db w) -> member_ids_unique (db w) ->
  private_members_stay (db w) ->
  (forall userID c,
      private_members_stay (db (snd (LeaveGroup userID c w))))
  /\ (forall userID c targetUserID,
         private_members_stay
           (db (snd (RemoveMemberFromGroup userID c targetUserID w)))).
Proof.
  intros Hconvs Hids Hstay. split.
  - intros userID c.
    destruct (LeaveGroup_cases userID c w)
      as [[e He]|(conversation & member & Hconv & Hgroup & Hm & _ & Hok)].
    + rewrite He. exact Hstay.
    + rewrite Hok. cbn [snd db with_db].
      apply find_conversation_Some in Hconv. destruct Hconv as [Hconv Hid].
      apply find_active_member_Some in Hm. destruct Hm as [Hin Hrow].
      apply is_active_member_row_spec in Hrow. destruct Hrow as (Hc & _ & _).
      apply (private_members_stay_after_leaving (db w) conversation);
        try assumption. congruence.
  - intros userID c targetUserID.
    destruct (RemoveMemberFromGroup_cases userID c targetUserID w)
      as [[e He]|(conversation & op & member & Hconv & Hgroup & _ & _ & Hm & _ & Hok)].
    + rewrite He. exact Hstay.
    + rewrite Hok. cbn [snd db with_db].
      apply find_conversation_Some in Hconv. destruct Hconv as [Hconv Hid].
      apply find_active_member_Some in Hm. destruct Hm as [Hin Hrow].
      apply is_active_member_row_spec in Hrow. destruct Hrow as (Hc & _ & _).
      apply (private_members_stay_after_leaving (db w) conversation);
        try assumption. congruence.
Qed.

Lemma private_members_stay_preserved_witness :
  (forall userID c,
      private_members_stay
        (db (snd (LeaveGroup userID c
                    (Sample.world Sample.private_chat 10 true)))))
  /\ (forall userID c targetUserID,
         private_members_stay
           (db (snd (RemoveMemberFromGroup userID c targetUserID
                       (Sample.world Sample.private_chat 10 true))))).
Proof.
  apply (private_members_stay_preserved
           (Sample.world Sample.private_chat 10 true)).
  - apply (bool_decide_unpack _). vm_compute. exact I.
  - apply (bool_decide_unpack _). vm_compute. exact I.
  - intros c m Hc Hm _ _. cbn in Hm.
    destruct Hm as [<-|[<-|[]]]; reflexivity.
Defined.

(** ** Adding members to a group *)

Lemma add_member_if_absent_ok (conversationID memberID : UUID) (w w' : World) :
  add_member_if_absent conversationID memberID w = (Ok tt, w') ->
  (isConversationMember (db w) conversationID memberID = true /\ w' = w)
  \/ (isConversationMember (db w) conversationID memberID = false
      /\ exists m,
           conversation_members (db w') = (conversation_members (db w) ++ [m])%list
           /\ conversations (db w') = conversations (db w)
           /\ messages (db w') = messages (db w)
           /\ user_relationships (db w') = user_relationships (db w)
           /\ cm_ConversationID m = conversationID /\ cm_UserID m = memberID
           /\ Role m = "member" /\ LeftAt m = None).
Proof.
  unfold add_member_if_absent, CreateMember, insert_conversation_member.
  run_monad.
  destruct (isConversationMember (db w) conversationID memberID).
  - intros H. injection H as <-. left. auto.
  - cbn. repeat match goal with
                | |- context [if ?b then _ else _] => destruct b; cbn
                end; try discriminate.
    intros H. injection H as <-. right. split; [reflexivity |].
    eexists. cbn. repeat split.
Qed.

Lemma add_member_if_absent_error_db (conversationID memberID : UUID)
    (w w' : World) (e : error) :
  add_member_if_absent conversationID memberID w = (Err e, w') ->
  db w' = db w /\ exists cause, e = ErrWrap "failed to add member" cause.
Proof.
  unfold add_member_if_absent, CreateMember, insert_conversation_member.
  run_monad.
  destruct (isConversationMember (db w) conversationID memberID);
    [discriminate |].
  cbn. repeat match goal with
              | |- context [if ?b then _ else _] => destruct b; cbn
              end; intros H; inversion H; subst; cbn; eauto.
Qed.

Lemma isConversationMember_rows (d d' : DB) (conversationID userID : UUID) :
  conversation_members d' = conversation_members d ->
  isConversationMember d' conversationID userID
  = isConversationMember d conversationID userID.
Proof. unfold isConversationMember. intros ->. reflexivity. Qed.

Lemma isConversationMember_app (d d' : DB) (added : list ConversationMember)
    (conversationID userID : UUID) :
  conversation_members d' = (conversation_members d ++ added)%list ->
  isConversationMember d' conversationID userID
  = isConversationMember d conversationID userID
    || existsb (is_active_member_row conversationID userID) added.
Proof.
  intros Hrows. apply eq_true_iff_eq.
  rewrite orb_true_iff, !isConversationMember_spec, existsb_exists, Hrows.
  split.
  - intros (m & Hin & Hrow). apply in_app_iff in Hin.
    destruct Hin; [left | right]; eauto.
  - intros [(m & Hin & Hrow)|(m & Hin & Hrow)]; exists m;
      (split; [apply in_app_iff; auto | exact Hrow]).
Qed.

(** The loop of [AddMembersToGroup] when it runs to its end. *)
Lemma add_members_loop (conversationID : UUID) (memberIDs : list UUID)
    (w w' : World) :
  for_each memberIDs (add_member_if_absent conversationID) w = (Ok tt, w') ->
  exists added,
    conversation_members (db w') = (conversation_members (db w) ++ added)%list
    /\ conversations (db w') = conversations (db w)
    /\ messages (db w') = messages (db w)
    /\ user_relationships (db w') = user_relationships (db w)
    /\ (forall m, In m added ->
          cm_ConversationID m = conversationID /\ In (cm_UserID m) memberIDs
          /\ Role m = "member" /\ LeftAt m = None
          /\ isConversationMember (db w) conversationID (cm_UserID m) = false)
    /\ (forall v, In v memberIDs ->
          isConversationMember (db w') conversationID v = true).
Proof.
  revert w; induction memberIDs as [|v rest IH]; intros w Hrun; cbn in Hrun.
  - injection Hrun as <-. exists []. rewrite app_nil_r.
    split; [reflexivity |]. split; [reflexivity |]. split; [reflexivity |].
    split; [reflexivity |]. split; intros ? [].
  - unfold bind in Hrun.
    destruct (add_member_if_absent conversationID v w) as [[[]|e] w1] eqn:Hstep;
      [|discriminate].
    apply IH in Hrun.
    destruct Hrun as (added & Hrows & Hconv & Hmsg & Hrel & Hadded & Hall).
    apply add_member_if_absent_ok in Hstep.
    destruct Hstep as [[Hin ->]|(Hout & m & Hrows1 & Hconv1 & Hmsg1 & Hrel1
                                 & Hc & Hu & Hrole & Hleft)].
    + exists added. repeat split; try assumption.
      * apply Hadded; assumption.
      * right. apply Hadded; assumption.
      * apply Hadded; assumption.
      * apply Hadded; assumption.
      * apply Hadded; assumption.
      * intros u [<-|Hu]; [|apply Hall; exact Hu].
        rewrite (isConversationMember_app (db w) (db w') added) by assumption.
        rewrite Hin. reflexivity.
    + exists (m :: added).
      assert (Hrows' : conversation_members (db w')
                       = (conversation_members (db w) ++ m :: added)%list).
      { rewrite Hrows, Hrows1, <- app_assoc. reflexivity. }
      assert (Hmono : forall u,
                 isConversationMember (db w) conversationID u = true ->
                 isConversationMember (db w1) conversationID u = true).
      { intros u Hmember.
        rewrite (isConversationMember_app (db w) (db w1) [m]) by assumption.
        rewrite Hmember. reflexivity. }
      repeat split; try congruence.
      * destruct H as [<-|Hm]; [exact Hc | apply Hadded; exact Hm].
      * destruct H as [<-|Hm]; [left; auto | right; apply Hadded; exact Hm].
      * destruct H as [<-|Hm]; [exact Hrole | apply Hadded; exact Hm].
      * destruct H as [<-|Hm]; [exact Hleft | apply Hadded; exact Hm].
      * destruct H as [<-|Hm]; [rewrite Hu; exact Hout |].
        destruct (isConversationMember (db w) conversationID (cm_UserID m0))
          eqn:Hwas; [|reflexivity].
        apply Hmono in Hwas.
        destruct (Hadded m0 Hm) as (_ & _ & _ & _ & Hnot). congruence.
      * intros u [<-|Hin]; [|apply Hall; exact Hin].
        rewrite (isConversationMember_app (db w) (db w') (m :: added))
          by assumption.
        cbn. replace (is_active_member_row conversationID v m) with true;
          [apply orb_true_r |].
        symmetry. apply is_active_member_row_spec. auto.
Qed.

Lemma AddMembersToGroup_cases (userID conversationID : UUID)
    (memberIDs : list UUID) (w : World) :
  (exists e, AddMembersToGroup userID conversationID memberIDs w = (Err e, w))
  \/ exists conversation operatorMember,
       find_conversation (db w) conversationID = Some conversation
       /\ ConversationType conversation = "group"
       /\ find_active_member (db w) conversationID userID = Some operatorMember
       /\ (Role operatorMember = "owner" \/ Role operatorMember = "admin")
       /\ AddMembersToGroup userID conversationID memberIDs w
          = for_each memberIDs (add_member_if_absent conversationID) w.
Proof.
  unfold AddMembersToGroup. run_monad.
  destruct (find_conversation (db w) conversationID) as [conversation|];
    [|left; eauto].
  destruct (String.eqb_spec (ConversationType conversation) "group") as [Hg|Hg];
    cbn [negb]; [|left; eauto].
  destruct (find_active_member (db w) conversationID userID) as [operatorMember|];
    [|left; eauto].
  destruct (String.eqb_spec (Role operatorMember) "owner") as [Ho|Ho]; cbn.
  - right. exists conversation, operatorMember. auto 10.
  - destruct (String.eqb_spec (Role operatorMember) "admin") as [Ha|Ha]; cbn.
    + right. exists conversation, operatorMember. auto 10.
    + left; eauto.
Qed.

(** X14: what a successful [AddMembersToGroup] has done.  The caller was
    an active owner or admin of a group; afterwards every listed user is an
    active member of it, nobody has lost a membership, and the rows added
    are rows of that group with role member for listed users who were not
    active members before. *)
Theorem AddMembersToGroup_adds (userID conversationID : UUID)
    (memberIDs : list UUID) (w w' : World) :
  AddMembersToGroup userID conversationID memberIDs w = (Ok tt, w') ->
  (exists conversation operatorMember,
      find_conversation (db w) conversationID = Some conversation
      /\ ConversationType conversation = "group"
      /\ find_active_member (db w) conversationID userID = Some operatorMember
      /\ (Role operatorMember = "owner" \/ Role operatorMember = "admin"))
  /\ (forall v, In v memberIDs ->
        isConversationMember (db w') conversationID v = true)
  /\ (forall c u, isConversationMember (db w) c u = true ->
        isConversationMember (db w') c u = true)
  /\ exists added,
       conversation_members (db w') = (conversation_members (db w) ++ added)%list
       /\ forall m, In m added ->
            cm_ConversationID m = conversationID /\ In (cm_UserID m) memberIDs
            /\ Role m = "member" /\ LeftAt m = None
            /\ isConversationMember (db w) conversationID (cm_UserID m) = false.
Proof.
  intros Hrun.
  destruct (AddMembersToGroup_cases userID conversationID memberIDs w)
    as [[e He]|(conversation & op & Hconv & Hgroup & Hop & Hrole & Hloop)];
    [rewrite He in Hrun; discriminate |].
  rewrite Hloop in Hrun. apply add_members_loop in Hrun.
  destruct Hrun as (added & Hrows & _ & _ & _ & Hadded & Hall).
  split; [eauto 10 |]. split; [exact Hall |]. split; [|eauto].
  intros c u Hmember.
  rewrite (isConversationMember_app (db w) (db w') added) by assumption.
  rewrite Hmember. reflexivity.
Qed.
Lemma AddMembersToGroup_adds_witness :
  (exists conversation operatorMember,
      find_conversation Sample.group_with_leaver 20 = Some conversation
      /\ ConversationType conversation = "group"
      /\ find_active_member Sample.group_with_leaver 20 Sample.alice
         = Some operatorMember
      /\ (Role operatorMember = "owner" \/ Role operatorMember = "admin"))
  /\ (forall v, In v [Sample.bob; 4%N] ->
        isConversationMember
          (db (snd (AddMembersToGroup Sample.alice 20 [Sample.bob; 4%N]
                      (Sample.world Sample.group_with_leaver 10 true))))
          20 v = true)
  /\ (forall c u, isConversationMember Sample.group_with_leaver c u = true ->
        isConversationMember
          (db (snd (AddMembersToGroup Sample.alice 20 [Sample.bob; 4%N]
                      (Sample.world Sample.group_with_leaver 10 true))))
          c u = true)
  /\ exists added,
       conversation_members
         (db (snd (AddMembersToGroup Sample.alice 20 [Sample.bob; 4%N]
                     (Sample.world Sample.group_with_leaver 10 true))))
       = (conversation_members Sample.group_with_leaver ++ added)%list
       /\ forall m, In m added ->
            cm_ConversationID m = 20%N /\ In (cm_UserID m) [Sample.bob; 4%N]
            /\ Role m = "member" /\ LeftAt m = None
            /\ isConversationMember Sample.group_with_leaver 20 (cm_UserID m)
               = false.
Proof.
  apply (AddMembersToGroup_adds Sample.alice 20 [Sample.bob; 4%N]
           (Sample.world Sample.group_with_leaver 10 true)).
  vm_compute. reflexivity.
Defined.

Lemma add_members_loop_former_member (conversationID targetUserID : UUID)
    (memberIDs : list UUID) (w : World) :
  In targetUserID memberIDs ->
  has_member_row (db w) conversationID targetUserID = true ->
  isConversationMember (db w) conversationID targetUserID = false ->
  exists e,
    fst (for_each memberIDs (add_member_if_absent conversationID) w) = Err e
    /\ isConversationMember
         (db (snd (for_each memberIDs (add_member_if_absent conversationID) w)))
         conversationID targetUserID = false.
Proof.
  intros Hin.
  revert w. induction memberIDs as [|v rest IH]; intros w Hrow Hout;
    [destruct Hin |].
  cbn. unfold bind.
  destruct (add_member_if_absent conversationID v w) as [[[]|e] w1] eqn:Hstep.
  - pose proof Hstep as Hok. apply add_member_if_absent_ok in Hok.
    destruct Hok as [[Hmember ->]|(_ & m & Hrows & _ & _ & _ & Hc & Hu & _ & _)].
    + destruct Hin as [->|Hin]; [congruence |]. apply IH; assumption.
    + destruct (N.eq_dec v targetUserID) as [->|Hne].
      * exfalso. revert Hstep. unfold add_member_if_absent. run_monad.
        rewrite Hout.
        destruct (CreateMember_existing conversationID targetUserID "member"
                    w Hrow) as [e He].
        destruct (CreateMember conversationID targetUserID "member" w)
          as [[[]|e0] w2]; cbn in He; [discriminate |].
        discriminate.
      * destruct Hin as [->|Hin]; [contradiction |].
        apply IH; [exact Hin | |].
        -- apply has_member_row_spec. apply has_member_row_spec in Hrow.
           destruct Hrow as (r & Hr & Hrc & Hru). exists r.
           rewrite Hrows. split; [apply in_app_iff; auto | auto].
        -- rewrite (isConversationMember_app (db w) (db w1) [m])
             by assumption.
           rewrite Hout. cbn. rewrite orb_false_r.
           apply not_true_iff_false. intros Hrow'.
           apply is_active_member_row_spec in Hrow'.
           destruct Hrow' as (_ & Hu' & _). congruence.
  - cbn. apply add_member_if_absent_error_db in Hstep.
    destruct Hstep as (Hdb & _). rewrite Hdb. eauto.
Qed.

(** X15: a former member cannot be added again.  The row of a user who
    has left, or was removed, stays in the table with [left_at] set; it is
    not counted as membership, so the loop tries to insert a second row for
    the same conversation and user, which [UNIQUE(conversation_id,
    user_id)] turns down.  Whatever else the list holds, the call fails. *)
Theorem AddMembersToGroup_former_member_fails
    (userID conversationID targetUserID : UUID) (memberIDs : list UUID)
    (w : World) :
  In targetUserID memberIDs ->
  has_member_row (db w) conversationID targetUserID = true ->
  isConversationMember (db w) conversationID targetUserID = false ->
  exists e,
    fst (AddMembersToGroup userID conversationID memberIDs w) = Err e
    /\ isConversationMember
         (db (snd (AddMembersToGroup userID conversationID memberIDs w)))
         conversationID targetUserID = false.
Proof.
  intros Hin Hrow Hout.
  destruct (AddMembersToGroup_cases userID conversationID memberIDs w)
    as [[e He]|(_ & _ & _ & _ & _ & _ & Hloop)].
  - rewrite He. cbn. eauto.
  - rewrite Hloop. apply add_members_loop_former_member; assumption.
Qed.

Lemma AddMembersToGroup_former_member_fails_witness :
  exists e,
    fst (AddMembersToGroup Sample.alice 20 [Sample.carol]
           (Sample.world Sample.group_with_leaver 10 true)) = Err e
    /\ isConversationMember
         (db (snd (AddMembersToGroup Sample.alice 20 [Sample.carol]
                     (Sample.world Sample.group_with_leaver 10 true))))
         20 Sample.carol = false.
Proof.
  apply (AddMembersToGroup_former_member_fails Sample.alice 20 Sample.carol
           [Sample.carol] (Sample.world Sample.group_with_leaver 10 true)).
  - left. reflexivity.
  - reflexivity.
  - reflexivity.
Defined.

Example AddMembersToGroup_carol_again :
  fst (AddMembersToGroup Sample.alice 20 [Sample.carol]
         (Sample.world Sample.group_with_leaver 10 true))
  = Err (ErrWrap "failed to add member"
           (ErrSQL "duplicate key value violates unique constraint conversation_members_conversation_id_user_id_key")).
Proof. vm_compute. reflexivity. Qed.

Lemma for_each_members_already (conversationID : UUID) (memberIDs : list UUID)
    (w : World) :
  (forall v, In v memberIDs ->
     isConversationMember (db w) conversationID v = true) ->
  for_each memberIDs (add_member_if_absent conversationID) w = (Ok tt, w).
Proof.
  induction memberIDs as [|v rest IH]; intros Hall; cbn; [reflexivity |].
  unfold bind. unfold add_member_if_absent at 1. run_monad.
  rewrite (Hall v) by (left; reflexivity). cbn.
  apply IH. intros u Hu. apply Hall. right. exact Hu.
Qed.

Lemma First_filter_app_none {A} (pk : A -> UUID) (p : A -> bool)
    (rows added : list A) :
  (forall r, In r added -> p r = false) ->
  First pk (List.filter p (rows ++ added)) = First pk (List.filter p rows).
Proof.
  intros Hnone. rewrite List.filter_app.
  replace (List.filter p added) with (@nil A); [rewrite app_nil_r; reflexivity |].
  symmetry. induction added as [|x added IH]; cbn; [reflexivity |].
  rewrite (Hnone x) by (left; reflexivity).
  apply IH. intros r Hr. apply Hnone. right. exact Hr.
Qed.

(** X16: adding is idempotent.  A second [AddMembersToGroup] with the same
    arguments, on the store the first one left, succeeds and changes
    nothing: every listed user is by then an active member and is
    skipped. *)
Theorem AddMembersToGroup_twice (userID conversationID : UUID)
    (memberIDs : list UUID) (w w1 w2 : World) :
  AddMembersToGroup userID conversationID memberIDs w = (Ok tt, w1) ->
  db w2 = db w1 ->
  AddMembersToGroup userID conversationID memberIDs w2 = (Ok tt, w2).
Proof.
  intros Hrun Hdb.
  destruct (AddMembersToGroup_cases userID conversationID memberIDs w)
    as [[e He]|(conversation & op & Hconv & Hgroup & Hop & Hrole & Hloop)];
    [rewrite He in Hrun; discriminate |].
  rewrite Hloop in Hrun. apply add_members_loop in Hrun.
  destruct Hrun as (added & Hrows & Hconvs & _ & _ & Hadded & Hall).
  assert (Hop2 : find_active_member (db w2) conversationID userID = Some op).
  { unfold find_active_member. rewrite Hdb, Hrows.
    rewrite First_filter_app_none; [exact Hop |].
    intros m Hm.
    change ((fun m0 => (cm_ConversationID m0 =? conversationID)%N
                       && (cm_UserID m0 =? userID)%N && is_null (LeftAt m0)) m)
      with (is_active_member_row conversationID userID m).
    apply not_true_iff_false. intros Hrow.
    apply is_active_member_row_spec in Hrow. destruct Hrow as (_ & Hu & _).
    destruct (Hadded m Hm) as (_ & _ & _ & _ & Hnot).
    rewrite Hu in Hnot.
    apply find_active_member_Some in Hop.
    assert (isConversationMember (db w) conversationID userID = true)
      by (apply isConversationMember_spec; eauto).
    congruence. }
  assert (Hconv2 : find_conversation (db w2) conversationID = Some conversation).
  { unfold find_conversation. rewrite Hdb, Hconvs. exact Hconv. }
  assert (Hpass : negb (String.eqb (Role op) "owner")
                  && negb (String.eqb (Role op) "admin") = false)
    by (destruct Hrole as [-> | ->]; reflexivity).
  unfold AddMembersToGroup. unfold bind at 1. unfold get_db at 1.
  cbv beta iota. rewrite Hconv2, Hgroup, Hop2, Hpass. cbn [negb String.eqb].
  apply for_each_members_already. intros v Hv.
  rewrite (isConversationMember_rows (db w1) (db w2)) by (rewrite Hdb; reflexivity).
  apply Hall. exact Hv.
Qed.

Lemma AddMembersToGroup_twice_witness :
  AddMembersToGroup Sample.alice 20 [Sample.bob; 4%N]
    (snd (AddMembersToGroup Sample.alice 20 [Sample.bob; 4%N]
            (Sample.world Sample.group_with_leaver 10 true)))
  = (Ok tt,
     snd (AddMembersToGroup Sample.alice 20 [Sample.bob; 4%N]
            (Sample.world Sample.group_with_leaver 10 true))).
Proof.
  apply (AddMembersToGroup_twice Sample.alice 20 [Sample.bob; 4%N]
           (Sample.world Sample.group_with_leaver 10 true)
           (snd (AddMembersToGroup Sample.alice 20 [Sample.bob; 4%N]
                   (Sample.world Sample.group_with_leaver 10 true)))).
  - vm_compute. reflexivity.
  - reflexivity.
Defined.

(** ** Roles and hidden conversations *)

Lemma First_map {A} (pk : A -> UUID) (f : A -> A) (rows : list A) :
  (forall r, pk (f r) = pk r) ->
  First pk (map f rows) = option_map f (First pk rows).
Proof.
  intros Hpk. induction rows as [|r rows IH]; cbn; [reflexivity |].
  rewrite IH. destruct (First pk rows) as [r'|]; cbn; [|reflexivity].
  rewrite !Hpk. destruct (pk r' <? pk r)%N; reflexivity.
Qed.

Lemma filter_map_where {A} (p : A -> bool) (f : A -> A) (rows : list A) :
  (forall r, p (f r) = p r) ->
  List.filter p (map (fun r => if p r then f r else r) rows)
  = map f (List.filter p rows).
Proof.
  intros Hp. induction rows as [|r rows IH]; cbn; [reflexivity |].
  destruct (p r) eqn:Hr.
  - rewrite Hp, Hr. cbn. f_equal. exact IH.
  - rewrite Hr. exact IH.
Qed.

Lemma filter_map_elsewhere {A} (p q : A -> bool) (f : A -> A) (rows : list A) :
  (forall r, q (f r) = q r) ->
  (forall r, p r = true -> q r = false) ->
  List.filter q (map (fun r => if p r then f r else r) rows)
  = List.filter q rows.
Proof.
  intros Hq Hpq. induction rows as [|r rows IH]; cbn; [reflexivity |].
  destruct (p r) eqn:Hr.
  - rewrite Hq, (Hpq r Hr). exact IH.
  - destruct (q r); [f_equal |]; exact IH.
Qed.

Lemma is_active_member_row_set (set : ConversationMember -> ConversationMember)
    (conversationID userID : UUID) (m : ConversationMember) :
  keeps_membership_columns set ->
  is_active_member_row conversationID userID (set m)
  = is_active_member_row conversationID userID m.
Proof.
  intros Hset. destruct (Hset m) as (_ & Hc & Hu & Hl).
  unfold is_active_member_row. rewrite Hc, Hu, Hl. reflexivity.
Qed.

Lemma update_active_member_rows_run (conversationID userID : UUID)
    (set : ConversationMember -> ConversationMember) (w : World) :
  update_active_member_rows conversationID userID set w
  = (Ok (Count (is_active_member_row conversationID userID)
               (conversation_members (db w))),
     with_db (set_conversation_members
                (members_after_update conversationID userID set
                   (conversation_members (db w))) (db w)) w).
Proof. reflexivity. Qed.




Lemma find_active_member_after_update (d : DB) (conversationID userID : UUID)
    (set : ConversationMember -> ConversationMember) :
  keeps_membership_columns set ->
  find_active_member
    (set_conversation_members
       (members_after_update conversationID userID set (conversation_members d))
       d) conversationID userID
  = option_map set (find_active_member d conversationID userID).
Proof.
  intros Hset. unfold find_active_member, members_after_update.
  cbn [conversation_members set_conversation_members].
  change (First cm_ID
            (List.filter (is_active_member_row conversationID userID)
               (map (fun m => if is_active_member_row conversationID userID m
                              then set m else m) (conversation_members d)))
          = option_map set
              (First cm_ID (List.filter
                              (is_active_member_row conversationID userID)
                              (conversation_members d)))).
  rewrite filter_map_where by (intros; apply is_active_member_row_set; exact Hset).
  apply First_map. intros r. apply (Hset r).
Qed.


Lemma with_is_hidden_keeps (hidden : bool) :
  keeps_membership_columns (with_is_hidden hidden).
Proof. intros m. cbn. auto. Qed.
Lemma members_unique_after_update (d : DB) (conversationID userID : UUID)
    (set : ConversationMember -> ConversationMember) :
  keeps_membership_columns set ->
  members_unique d ->
  members_unique
    (set_conversation_members
       (members_after_update conversationID userID set (conversation_members d))
       d).
Proof.
  intros Hset. unfold members_unique, members_after_update.
  cbn [conversation_members set_conversation_members].
  rewrite map_map. intros Huniq.
  erewrite map_ext; [exact Huniq |].
  intros m. cbn. destruct (is_active_member_row conversationID userID m);
    [|reflexivity].
  unfold member_key. destruct (Hset m) as (_ & -> & -> & _). reflexivity.
Qed.




(** X18: a hidden conversation comes back with the next message.  After
    a successful [HideConversation] the caller's active row has
    [is_hidden] set; the next successful [SendMessage] of somebody else
    into the conversation clears it on every row the caller has there. *)
Theorem HideConversation_until_next_message (s : MessageService)
    (userID senderID conversationID : UUID) (req : SendMessageRequest)
    (w w1 w2 : World) (message : Message) :
  members_unique (db w) ->
  HideConversation userID conversationID w = (Ok tt, w1) ->
  db w2 = db w1 ->
  req_ConversationID req = conversationID -> conversationID <> Nil ->
  senderID <> userID ->
  fst (SendMessage s senderID req w2) = Ok message ->
  (exists m, find_active_member (db w1) conversationID userID = Some m
             /\ IsHidden m = true)
  /\ forall m,
       In m (conversation_members (db (snd (SendMessage s senderID req w2)))) ->
       cm_ConversationID m = conversationID -> cm_UserID m = userID ->
       IsHidden m = false.
Proof.
  intros Huniq Hhide Hdb Hreq Hnil Hother Hsend.
  revert Hhide. unfold HideConversation, bind.
  rewrite update_active_member_rows_run.
  destruct (Z.eqb_spec (Count (is_active_member_row conversationID userID)
                              (conversation_members (db w))) 0) as [Hzero|Hsome];
    [discriminate |].
  intros H. injection H as <-. split.
  - cbn [db with_db].
    rewrite find_active_member_after_update by apply with_is_hidden_keeps.
    destruct (find_active_member (db w) conversationID userID) as [m|] eqn:Hfind.
    + cbn. eauto.
    + apply find_active_member_None in Hfind. unfold isConversationMember in Hfind.
      change ((Count (is_active_member_row conversationID userID)
                     (conversation_members (db w)) >? 0) = false) in Hfind.
      unfold Count in *. lia.
  - intros m Hm Hc Hu.
    rewrite (SendMessage_member_table s senderID req w2 message) in Hm;
      [| rewrite Hreq; exact Hnil
       | rewrite Hdb; apply members_unique_after_update;
         [apply with_is_hidden_keeps | exact Huniq]
       | exact Hsend].
    unfold members_after_send in Hm. apply in_map_iff in Hm.
    destruct Hm as (r & Hr & _). subst m.
    destruct ((cm_ConversationID r =? req_ConversationID req)%N
              && negb (cm_UserID r =? senderID)%N) eqn:Hsel; [reflexivity |].
    exfalso. rewrite Hreq, Hc, Hu, N.eqb_refl in Hsel. cbn in Hsel.
    apply negb_false_iff, N.eqb_eq in Hsel. congruence.
Qed.

Lemma HideConversation_until_next_message_witness :
  (exists m,
      find_active_member
        (db (snd (HideConversation Sample.bob 10
                    (Sample.world Sample.private_chat 10 true))))
        10 Sample.bob = Some m
      /\ IsHidden m = true)
  /\ forall m,
       In m (conversation_members
               (db (snd (SendMessage (Sample.service false) Sample.alice
                           (Sample.request 10 None "text" (Some "hello"))
                           (snd (HideConversation Sample.bob 10
                                   (Sample.world Sample.private_chat 10 true))))))) ->
       cm_ConversationID m = 10%N -> cm_UserID m = Sample.bob ->
       IsHidden m = false.
Proof.
  apply (HideConversation_until_next_message (Sample.service false)
           Sample.bob Sample.alice 10
           (Sample.request 10 None "text" (Some "hello"))
           (Sample.world Sample.private_chat 10 true)
           (snd (HideConversation Sample.bob 10
                   (Sample.world Sample.private_chat 10 true)))
           (snd (HideConversation Sample.bob 10
                   (Sample.world Sample.private_chat 10 true)))
           (match fst (SendMessage (Sample.service false) Sample.alice
                         (Sample.request 10 None "text" (Some "hello"))
                         (snd (HideConversation Sample.bob 10
                                 (Sample.world Sample.private_chat 10 true))))
            with
            | Ok m => m
            | Err _ => Sample.message 0 0 0 EmptyString None 0
            end)).
  - apply (bool_decide_unpack _). vm_compute. exact I.
  - vm_compute. reflexivity.
  - reflexivity.
  - reflexivity.
  - discriminate.
  - discriminate.
  - vm_compute. reflexivity.
Defined.

(** ** Recalling, once *)

Lemma find_message_Some (d : DB) (messageID : UUID) (m : Message) :
  find_message d messageID = Some m ->
  In m (messages d) /\ msg_ID m = messageID.
Proof.
  intros Hfind. apply First_In in Hfind. apply filter_In in Hfind.
  destruct Hfind as [Hin Hid]. apply N.eqb_eq in Hid. auto.
Qed.

Lemma RecallMessage_cases (userID messageID : UUID) (w : World) :
  (exists e, RecallMessage userID messageID w = (Err e, w))
  \/ exists m,
       find_message (db w) messageID = Some m
       /\ SenderID m = userID /\ IsRecalled m = false
       /\ now w - msg_CreatedAt m <= 10 * second
       /\ RecallMessage userID messageID w
          = (Ok tt,
             with_db (set_messages
                        (map (fun m' => if (msg_ID m' =? messageID)%N
                                        then recall (now w) m' else m')
                             (messages (db w))) (db w)) w).
Proof.
  destruct (RecallMessage userID messageID w) as [r w'] eqn:Hrun.
  revert Hrun. unfold RecallMessage. run_monad.
  destruct (find_message (db w) messageID) as [m|] eqn:Hfind;
    [|intros H; injection H as <- <-; left; eauto].
  destruct (N.eqb_spec (SenderID m) userID) as [Hsender|Hsender]; cbn [negb];
    [|intros H; injection H as <- <-; left; eauto].
  destruct (IsRecalled m) eqn:Hlive;
    [intros H; injection H as <- <-; left; eauto |].
  destruct (Z.gtb_spec (now w - msg_CreatedAt m) (10 * second)) as [Hlate|Hin];
    intros H; injection H as <- <-; [left; eauto |].
  right. exists m. apply find_message_Some in Hfind.
  destruct Hfind as [_ ->]. auto 10.
Qed.

Lemma find_message_after_recall (d : DB) (messageID : UUID) (t : Time)
    (id : UUID) :
  find_message
    (set_messages (map (fun m' => if (msg_ID m' =? messageID)%N
                                  then recall t m' else m') (messages d)) d) id
  = if (id =? messageID)%N then option_map (recall t) (find_message d id)
    else find_message d id.
Proof.
  unfold find_message. cbn [messages set_messages].
  destruct (N.eqb_spec id messageID) as [->|Hne].
  - rewrite (filter_map_where (fun m => (msg_ID m =? messageID)%N) (recall t))
      by reflexivity.
    apply First_map. reflexivity.
  - rewrite (filter_map_elsewhere (fun m => (msg_ID m =? messageID)%N)
               (fun m => (msg_ID m =? id)%N) (recall t)); [reflexivity | reflexivity |].
    intros m Hm. apply N.eqb_eq in Hm. apply N.eqb_neq. congruence.
Qed.

(** X19: a recall marks the message and erases nothing.  After a
    successful [RecallMessage], which only the sender obtains,
    [GetMessageByID] returns the message with [is_recalled] set and
    [recalled_at] at the time of the call, and with the content, type and
    metadata it had; every other message reads as before, no row is added
    or dropped, and the other tables are untouched. *)
Theorem RecallMessage_marks_and_keeps_content (userID messageID : UUID)
    (w w' : World) :
  RecallMessage userID messageID w = (Ok tt, w') ->
  (exists m,
      GetMessageByID (db w) messageID = Ok m
      /\ SenderID m = userID
      /\ GetMessageByID (db w') messageID = Ok (recall (now w) m)
      /\ IsRecalled (recall (now w) m) = true
      /\ RecalledAt (recall (now w) m) = Some (now w)
      /\ Content (recall (now w) m) = Content m)
  /\ (forall id, id <> messageID ->
        GetMessageByID (db w') id = GetMessageByID (db w) id)
  /\ length (messages (db w')) = length (messages (db w))
  /\ conversations (db w') = conversations (db w)
  /\ conversation_members (db w') = conversation_members (db w)
  /\ user_relationships (db w') = user_relationships (db w).
Proof.
  intros Hrun.
  destruct (RecallMessage_cases userID messageID w)
    as [[e He]|(m & Hfind & Hsender & _ & _ & Hok)];
    [rewrite He in Hrun; discriminate |].
  rewrite Hok in Hrun. injection Hrun as <-. cbn [db with_db].
  unfold GetMessageByID. split; [|split].
  - exists m. rewrite find_message_after_recall, N.eqb_refl, Hfind. cbn. auto 10.
  - intros id Hne. rewrite find_message_after_recall.
    destruct (N.eqb_spec id messageID); [contradiction | reflexivity].
  - cbn. rewrite length_map. auto.
Qed.

Lemma RecallMessage_marks_and_keeps_content_witness :
  (exists m,
      GetMessageByID Sample.private_chat 13 = Ok m
      /\ SenderID m = Sample.alice
      /\ GetMessageByID
           (db (snd (RecallMessage Sample.alice 13
                       (Sample.world Sample.private_chat (5 * second) true))))
           13 = Ok (recall (5 * second) m)
      /\ IsRecalled (recall (5 * second) m) = true
      /\ RecalledAt (recall (5 * second) m) = Some (5 * second)
      /\ Content (recall (5 * second) m) = Content m)
  /\ (forall id, id <> 13%N ->
        GetMessageByID
          (db (snd (RecallMessage Sample.alice 13
                      (Sample.world Sample.private_chat (5 * second) true))))
          id
        = GetMessageByID Sample.private_chat id)
  /\ length (messages
               (db (snd (RecallMessage Sample.alice 13
                           (Sample.world Sample.private_chat (5 * second) true)))))
     = length (messages Sample.private_chat)
  /\ conversations
       (db (snd (RecallMessage Sample.alice 13
                   (Sample.world Sample.private_chat (5 * second) true))))
     = conversations Sample.private_chat
  /\ conversation_members
       (db (snd (RecallMessage Sample.alice 13
                   (Sample.world Sample.private_chat (5 * second) true))))
     = conversation_members Sample.private_chat
  /\ user_relationships
       (db (snd (RecallMessage Sample.alice 13
                   (Sample.world Sample.private_chat (5 * second) true))))
     = user_relationships Sample.private_chat.
Proof.
  apply (RecallMessage_marks_and_keeps_content Sample.alice 13
           (Sample.world Sample.private_chat (5 * second) true)).
  vm_compute. reflexivity.
Defined.

(** X20: a message is recalled once.  After a successful recall, every
    further [RecallMessage] for that message, by anybody and at any time,
    fails and leaves the world untouched; for the sender the error is
    "message already recalled". *)
Theorem RecallMessage_once (userID messageID : UUID) (w w1 w2 : World) :
  RecallMessage userID messageID w = (Ok tt, w1) ->
  db w2 = db w1 ->
  RecallMessage userID messageID w2
  = (Err (ErrMsg "message already recalled"), w2)
  /\ forall otherID, exists e,
       RecallMessage otherID messageID w2 = (Err e, w2).
Proof.
  intros Hrun Hdb.
  destruct (RecallMessage_cases userID messageID w)
    as [[e He]|(m & Hfind & Hsender & _ & _ & Hok)];
    [rewrite He in Hrun; discriminate |].
  rewrite Hok in Hrun. injection Hrun as <-. cbn [db with_db] in Hdb.
  assert (Hfind2 : find_message (db w2) messageID = Some (recall (now w) m)).
  { rewrite Hdb, find_message_after_recall, N.eqb_refl, Hfind. reflexivity. }
  split.
  - unfold RecallMessage. run_monad. rewrite Hfind2. cbn.
    rewrite Hsender, N.eqb_refl. reflexivity.
  - intros otherID. unfold RecallMessage. run_monad. rewrite Hfind2. cbn.
    destruct (SenderID m =? otherID)%N; cbn; eauto.
Qed.

Lemma RecallMessage_once_witness :
  RecallMessage Sample.alice 13
    (snd (RecallMessage Sample.alice 13
            (Sample.world Sample.private_chat (5 * second) true)))
  = (Err (ErrMsg "message already recalled"),
     snd (RecallMessage Sample.alice 13
            (Sample.world Sample.private_chat (5 * second) true)))
  /\ forall otherID, exists e,
       RecallMessage otherID 13
         (snd (RecallMessage Sample.alice 13
                 (Sample.world Sample.private_chat (5 * second) true)))
       = (Err e,
          snd (RecallMessage Sample.alice 13
                 (Sample.world Sample.private_chat (5 * second) true))).
Proof.
  apply (RecallMessage_once Sample.alice 13
           (Sample.world Sample.private_chat (5 * second) true)
           (snd (RecallMessage Sample.alice 13
                   (Sample.world Sample.private_chat (5 * second) true)))).
  - vm_compute. reflexivity.
  - reflexivity.
Defined.

(** ** What a send leaves behind *)

Lemma persist_and_fan_out_error_db (s : MessageService) (senderID : UUID)
    (req : SendMessageRequest) (conversationID : UUID) (w w' : World)
    (e : error) :
  persist_and_fan_out s senderID req conversationID w = (Err e, w') ->
  db w' = db w.
Proof.
  unfold persist_and_fan_out. unfold bind at 1. unfold get_db. unfold bind at 1.
  destruct (save_message senderID req conversationID
              (other_member_rows (db w) conversationID senderID)
              (snapshot_viewing s conversationID
                 (other_member_rows (db w) conversationID senderID)) w)
    as [[m|e0] w1] eqn:Hsave.
  - unfold bind.
    match goal with
    | |- context [for_each ?ms ?body w1] =>
        destruct (for_each_never_fails ms body w1) as [Hr _];
          [intros; apply push_to_member_ok |];
          destruct (for_each ms body w1) as [[[]|e1] w2]; discriminate
    end.
  - intros H. injection H as <- <-. revert Hsave.
    unfold save_message, Transaction.
    match goal with
    | |- (let (_, _) := ?c w in _) = _ -> _ => destruct (c w) as [[a|e1] w2]
    end; intros H; inversion H. reflexivity.
Qed.

(** The course of a [SendMessage]: the conversation is resolved, which
    writes no message; then either the call ends in an error with the store
    as resolution left it, or steps 6 to 11 run on that store. *)
Lemma SendMessage_inv (s : MessageService) (senderID : UUID)
    (req : SendMessageRequest) (w w' : World) (r : result Message) :
  SendMessage s senderID req w = (r, w') ->
  exists w1,
    messages (db w1) = messages (db w)
    /\ user_relationships (db w1) = user_relationships (db w)
    /\ (req_ConversationID req <> Nil -> w1 = w)
    /\ ((exists e, r = Err e /\ db w' = db w1)
        \/ exists conversationID w2 w3 message,
             r = Ok message
             /\ db w2 = db w1 /\ now w2 = now w1
             /\ (req_ConversationID req <> Nil ->
                 conversationID = req_ConversationID req
                 /\ CheckCanSend s (db w1) senderID conversationID = true)
             /\ isConversationMember (db w1) conversationID senderID = true
             /\ persist_and_fan_out s senderID req conversationID w2
                = (Ok message, w3)
             /\ db w' = db w3
             /\ (forall e, In e (effects w3) -> In e (effects w'))).
Proof.
  intros Hrun. unfold SendMessage in Hrun.
  destruct (content_missing req).
  { injection Hrun as <- <-. exists w. repeat split; auto. left. eauto. }
  unfold bind at 1 in Hrun.
  match type of Hrun with
  | (let (_, _) := ?c w in _) = _ =>
      assert (Hres : messages (db (snd (c w))) = messages (db w)
                     /\ user_relationships (db (snd (c w)))
                        = user_relationships (db w)
                     /\ (req_ConversationID req <> Nil ->
                         c w = (Ok (req_ConversationID req, false), w)))
  end.
  { destruct (ReceiverID req) as [receiverID|]; [|cbn; auto].
    destruct (N.eqb_spec (req_ConversationID req) Nil) as [Hnil|Hnil];
      [|cbn; auto].
    split; [|split; [|contradiction]].
    - apply (keeps_wrap messages).
      apply getOrCreatePrivateConversation_keeps_messages.
    - apply (keeps_wrap user_relationships).
      apply getOrCreatePrivateConversation_keeps_relationships. }
  match type of Hrun with
  | (let (_, _) := ?c w in _) = _ =>
      destruct (c w) as [[[c0 created]|e] w1] eqn:Hc
  end; cbn [snd] in Hres; destruct Hres as (Hmsg & Hrel & Hnamed).
  2:{ injection Hrun as <- <-. exists w1. repeat split; auto.
      - intros Hnil. specialize (Hnamed Hnil). congruence.
      - left. eauto. }
  exists w1. split; [exact Hmsg |]. split; [exact Hrel |].
  split; [intros Hnil; specialize (Hnamed Hnil); congruence |].
  assert (Hcreated : req_ConversationID req <> Nil ->
                     c0 = req_ConversationID req /\ created = false).
  { intros Hnil. specialize (Hnamed Hnil). split; congruence. }
  clear Hnamed Hc.
  destruct (c0 =? Nil)%N; [injection Hrun as <- <-; left; eauto |].
  unfold bind at 1 in Hrun. unfold get_db at 1 in Hrun.
  destruct (isConversationMember (db w1) c0 senderID) eqn:Hmember;
    [|injection Hrun as <- <-; left; eauto].
  cbn [negb] in Hrun. unfold bind at 1 in Hrun.
  match type of Hrun with
  | (let (_, _) := ?c w1 in _) = _ =>
      assert (Hblock : c w1 = (Ok tt, w1) \/ exists e, c w1 = (Err e, w1))
        by (destruct (ReceiverID req) as [r0|];
            [destruct (isBlocked (db w1) senderID r0)|]; cbn; eauto);
      destruct Hblock as [Hblock|[e Hblock]]; rewrite Hblock in Hrun;
        [|injection Hrun as <- <-; left; eauto]
  end.
  cbv beta iota in Hrun.
  destruct (video_too_large s req); [injection Hrun as <- <-; left; eauto |].
  destruct (negb created
            && IsFeatureEnabled (sysSvc s) "enable_first_message_limit")
    eqn:Hlimit.
  - unfold bind at 1 in Hrun.
    pose proof (acquire_lock_db (LockSendMsg c0 senderID) (2 * second) 3 0 w1)
      as (Hdb & Hnow & _ & _ & [b Hb]).
    destruct (acquire_lock (LockSendMsg c0 senderID) (2 * second) 3 0 w1)
      as [r0 w2]; cbn in Hdb, Hnow, Hb. subst r0.
    destruct b; cbn [negb] in Hrun;
      [|injection Hrun as <- <-; left; eauto].
    unfold defer in Hrun. unfold bind at 1 in Hrun. unfold get_db at 1 in Hrun.
    destruct (CheckCanSend s (db w2) senderID c0) eqn:Hcan; cbn [negb] in Hrun.
    + destruct (persist_and_fan_out s senderID req c0 w2) as [[m|e] w3] eqn:Hp;
        injection Hrun as <- <-.
      * right. exists c0, w2, w3, m.
        split; [reflexivity |]. split; [congruence |]. split; [congruence |].
        split; [intros Hnil; split; [apply Hcreated; exact Hnil | congruence] |].
        split; [exact Hmember |]. split; [exact Hp |].
        split; [reflexivity |].
        intros e0 He0. cbn. apply in_app_iff. left. exact He0.
      * left. exists e. split; [reflexivity |]. cbn.
        apply persist_and_fan_out_error_db in Hp. congruence.
    + injection Hrun as <- <-. left. eauto.
  - unfold bind at 1 in Hrun. unfold get_db at 1 in Hrun.
    destruct (negb created && negb (CheckCanSend s (db w1) senderID c0))
      eqn:Hcan; [injection Hrun as <- <-; left; eauto |].
    destruct (persist_and_fan_out s senderID req c0 w1) as [[m|e] w3] eqn:Hp;
      injection Hrun as <- <-.
    + right. exists c0, w1, w3, m.
      split; [reflexivity |]. split; [reflexivity |]. split; [reflexivity |].
      split.
      { intros Hnil. destruct (Hcreated Hnil) as [Hc0 Hfalse].
        split; [exact Hc0 |]. rewrite Hfalse in Hcan. cbn in Hcan.
        apply negb_false_iff in Hcan. exact Hcan. }
      split; [exact Hmember |]. split; [exact Hp |]. split; [reflexivity |].
      intros e0 He0. exact He0.
    + left. exists e. split; [reflexivity |].
      apply persist_and_fan_out_error_db in Hp. exact Hp.
Qed.
Lemma save_message_rows (senderID : UUID) (req : SendMessageRequest)
    (conversationID : UUID) (members : list ConversationMember)
    (status : gmap UUID bool) (w w' : World) (message : Message) :
  save_message senderID req conversationID members status w = (Ok message, w') ->
  message = new_message (uuid_source w (uuid_drawn w)) conversationID senderID
              req (now w)
  /\ messages (db w') = (messages (db w) ++ [message])%list
  /\ conversations (db w')
     = map (fun c => if (conv_ID c =? conversationID)%N
                     then touch_conversation (now w) (msg_ID message) c else c)
           (conversations (db w))
  /\ user_relationships (db w') = user_relationships (db w)
  /\ existsb (fun m' => (msg_ID m' =? msg_ID message)%N) (messages (db w)) = false
  /\ conversation_exists (db w) conversationID = true.
Proof.
  unfold save_message, Transaction, insert_message,
    update_conversation_last_message.
  unfold bind at 1 2 3 4 5 6 7. unfold gen_random_uuid, get_now, wrap, get_db.
  cbn [db now uuid_source uuid_drawn setnx_reply effects msg_ID
       msg_ConversationID].
  destruct (existsb (fun m' => (msg_ID m' =? uuid_source w (uuid_drawn w))%N)
                    (messages (db w))) eqn:Hpk; cbn; [discriminate |].
  destruct (conversation_exists (db w) conversationID) eqn:Hfk; cbn;
    [|discriminate].
  unfold bind.
  match goal with
  | |- context [for_each ?ms ?body ?w0] =>
      destruct (for_each ms body w0) as [[[]|e] w2] eqn:Hloop; [|discriminate]
  end.
  apply (update_members_ok conversationID (viewing status)) in Hloop.
  cbn in Hloop. destruct Hloop as (_ & Hconv & Hmsg & Hrel).
  intros H. injection H as <- <-. cbn. auto 10.
Qed.

Lemma persist_and_fan_out_rows (s : MessageService) (senderID : UUID)
    (req : SendMessageRequest) (conversationID : UUID)
    (w w' : World) (message : Message) :
  persist_and_fan_out s senderID req conversationID w = (Ok message, w') ->
  message = new_message (uuid_source w (uuid_drawn w)) conversationID senderID
              req (now w)
  /\ messages (db w') = (messages (db w) ++ [message])%list
  /\ conversations (db w')
     = map (fun c => if (conv_ID c =? conversationID)%N
                     then touch_conversation (now w) (msg_ID message) c else c)
           (conversations (db w))
  /\ user_relationships (db w') = user_relationships (db w)
  /\ existsb (fun m' => (msg_ID m' =? msg_ID message)%N) (messages (db w)) = false
  /\ conversation_exists (db w) conversationID = true.
Proof.
  unfold persist_and_fan_out.
  unfold bind at 1. unfold get_db. unfold bind at 1.
  destruct (save_message senderID req conversationID
              (other_member_rows (db w) conversationID senderID)
              (snapshot_viewing s conversationID
                 (other_member_rows (db w) conversationID senderID)) w)
    as [[m|e] w1] eqn:Hsave; [|discriminate].
  apply save_message_rows in Hsave.
  unfold bind.
  match goal with
  | |- context [for_each ?ms ?body w1] =>
      destruct (for_each_never_fails ms body w1) as [Hr Hdb];
        [intros; apply push_to_member_ok |];
        destruct (for_each ms body w1) as [[[]|e] w2]; [|discriminate]
  end.
  cbn in Hdb. intros H. injection H as <- <-. rewrite Hdb. exact Hsave.
Qed.

Lemma find_conversation_after_touch (d : DB) (conversationID messageID : UUID)
    (t : Time) (id : UUID) :
  First conv_ID
    (List.filter (fun c => (conv_ID c =? id)%N)
       (map (fun c => if (conv_ID c =? conversationID)%N
                      then touch_conversation t messageID c else c)
            (conversations d)))
  = if (id =? conversationID)%N
    then option_map (touch_conversation t messageID) (find_conversation d id)
    else find_conversation d id.
Proof.
  unfold find_conversation.
  destruct (N.eqb_spec id conversationID) as [->|Hne].
  - rewrite (filter_map_where (fun c => (conv_ID c =? conversationID)%N)
               (touch_conversation t messageID)) by reflexivity.
    apply First_map. reflexivity.
  - rewrite (filter_map_elsewhere (fun c => (conv_ID c =? conversationID)%N)
               (fun c => (conv_ID c =? id)%N) (touch_conversation t messageID));
      [reflexivity | reflexivity |].
    intros c Hc. apply N.eqb_eq in Hc. apply N.eqb_neq. congruence.
Qed.


(** X21: a send that fails writes no message.  Whatever the request
    and the reason, a [SendMessage] that returns an error leaves the
    message table and the relationship table as they were; when the
    request names its conversation, the whole store. *)
Theorem SendMessage_error_writes_no_message (s : MessageService)
    (senderID : UUID) (req : SendMessageRequest) (w w' : World) (e : error) :
  SendMessage s senderID req w = (Err e, w') ->
  messages (db w') = messages (db w)
  /\ user_relationships (db w') = user_relationships (db w)
  /\ (req_ConversationID req <> Nil -> db w' = db w).
Proof.
  intros Hrun. apply SendMessage_inv in Hrun.
  destruct Hrun as (w1 & Hmsg & Hrel & Hnamed & [(e0 & _ & Hdb)|Hok]).
  - rewrite Hdb. repeat split; try assumption.
    intros Hnil. rewrite (Hnamed Hnil). reflexivity.
  - destruct Hok as (c & w2 & w3 & m & Hr & _). discriminate.
Qed.

Lemma SendMessage_error_writes_no_message_witness :
  messages
    (db (snd (SendMessage (Sample.service true) Sample.alice
                (Sample.request 10 None "text" (Some "again"))
                (Sample.world Sample.private_chat_unanswered 10 true))))
  = messages Sample.private_chat_unanswered
  /\ user_relationships
       (db (snd (SendMessage (Sample.service true) Sample.alice
                   (Sample.request 10 None "text" (Some "again"))
                   (Sample.world Sample.private_chat_unanswered 10 true))))
     = user_relationships Sample.private_chat_unanswered
  /\ (req_ConversationID (Sample.request 10 None "text" (Some "again")) <> Nil ->
      db (snd (SendMessage (Sample.service true) Sample.alice
                 (Sample.request 10 None "text" (Some "again"))
                 (Sample.world Sample.private_chat_unanswered 10 true)))
      = Sample.private_chat_unanswered).
Proof.
  apply (SendMessage_error_writes_no_message (Sample.service true) Sample.alice
           (Sample.request 10 None "text" (Some "again"))
           (Sample.world Sample.private_chat_unanswered 10 true) _
           (ErrMsg first_message_limit_text)).
  vm_compute. reflexivity.
Defined.


(** X23: the first-message limit bites after the first message.  With
    the limit on, once a user has sent a message into a private
    conversation in which nobody else has written, [CheckCanSend] answers
    no for that user, and every further [SendMessage] of the user that
    names the conversation fails without writing a message, until somebody
    else writes. *)
Theorem first_message_limit_after_first_send (s : MessageService)
    (senderID : UUID) (req : SendMessageRequest) (w w' : World)
    (message : Message) (c : Conversation) :
  IsFeatureEnabled (sysSvc s) "enable_first_message_limit" = true ->
  req_ConversationID req <> Nil ->
  find_conversation (db w) (req_ConversationID req) = Some c ->
  ConversationType c = "private" ->
  (forall m, In m (messages (db w)) ->
             msg_ConversationID m = req_ConversationID req ->
             SenderID m = senderID) ->
  SendMessage s senderID req w = (Ok message, w') ->
  CheckCanSend s (db w') senderID (req_ConversationID req) = false
  /\ forall req2 w2,
       req_ConversationID req2 = req_ConversationID req ->
       db w2 = db w' ->
       exists e,
         fst (SendMessage s senderID req2 w2) = Err e
         /\ db (snd (SendMessage s senderID req2 w2)) = db w'.
Proof.
  intros Hon Hnil Hfind Hprivate Halone Hrun.
  assert (Hcan : CheckCanSend s (db w') senderID (req_ConversationID req) = false).
  { apply SendMessage_inv in Hrun.
    destruct Hrun as (w1 & _ & _ & Hnamed & [(e0 & He & _)|Hok]);
      [discriminate |].
    destruct Hok as (c0 & w2 & w3 & m & Hm & Hdb & Hnow & Hc & _ & Hp & Hdb' & _).
    injection Hm as <-. destruct (Hc Hnil) as [-> _]. rewrite (Hnamed Hnil) in *.
    apply persist_and_fan_out_rows in Hp.
    destruct Hp as (Hrow & Hmsgs & Hconvs & _ & _ & _).
    rewrite Hdb in *.
    unfold CheckCanSend. rewrite Hon. cbn [negb].
    unfold find_conversation at 1. rewrite Hdb', Hconvs.
    rewrite find_conversation_after_touch, N.eqb_refl, Hfind. cbn [option_map].
    cbn [ConversationType touch_conversation]. rewrite Hprivate. cbn.
    rewrite Hmsgs, !Count_app_one.
    rewrite Hrow. cbn [msg_ConversationID SenderID new_message].
    rewrite !N.eqb_refl. cbn [andb negb].
    assert (Hothers : Count (fun m => (msg_ConversationID m =? req_ConversationID req)%N
                                      && negb (SenderID m =? senderID)%N)
                            (messages (db w)) = 0).
    { apply Count_zero. intros m0 Hin.
      destruct (N.eqb_spec (msg_ConversationID m0) (req_ConversationID req))
        as [Hc0|]; [|reflexivity].
      rewrite (Halone m0 Hin Hc0), N.eqb_refl. reflexivity. }
    rewrite Hothers. cbn.
    destruct (Z.eqb_spec
                (Count (fun m => (msg_ConversationID m =? req_ConversationID req)%N
                                 && (SenderID m =? senderID)%N)
                       (messages (db w)) + 1) 0) as [Hzero|]; [|reflexivity].
    unfold Count in Hzero. lia. }
  split; [exact Hcan |].
  intros req2 w2 Hreq2 Hdb2.
  destruct (SendMessage s senderID req2 w2) as [r w3] eqn:Hrun2. cbn [fst snd].
  apply SendMessage_inv in Hrun2.
  assert (Hnil2 : req_ConversationID req2 <> Nil) by congruence.
  destruct Hrun2 as (w1 & _ & _ & Hnamed & [(e0 & -> & Hdb)|Hok]).
  - exists e0. rewrite Hdb, (Hnamed Hnil2). auto.
  - exfalso.
    destruct Hok as (c0 & w4 & w5 & m & _ & _ & _ & Hc & _).
    destruct (Hc Hnil2) as [-> Hyes].
    rewrite (Hnamed Hnil2), Hreq2, Hdb2 in Hyes. congruence.
Qed.

Lemma first_message_limit_after_first_send_witness :
  let req := Sample.request 10 None "text" (Some "hello") in
  let d := set_messages [] Sample.private_chat in
  let w := Sample.world d 10 true in
  let w' := snd (SendMessage (Sample.service true) Sample.alice req w) in
  CheckCanSend (Sample.service true) (db w') Sample.alice
    (req_ConversationID req) = false
  /\ forall req2 w2,
       req_ConversationID req2 = req_ConversationID req ->
       db w2 = db w' ->
       exists e,
         fst (SendMessage (Sample.service true) Sample.alice req2 w2) = Err e
         /\ db (snd (SendMessage (Sample.service true) Sample.alice req2 w2))
            = db w'.
Proof.
  intros req d w w'.
  apply (first_message_limit_after_first_send (Sample.service true)
           Sample.alice req w w'
           (Sample.sent (Sample.service true) Sample.alice req w)
           (Sample.conversation 10 "private")).
  - reflexivity.
  - discriminate.
  - reflexivity.
  - reflexivity.
  - intros m [].
  - vm_compute. reflexivity.
Defined.

(** ** Leaving the hub *)

Lemma Register_accepted (h : Hub) (client : Client) :
  Z.of_nat (size (devices (Clients h) (client_UserID client)))
  < MaxConnectionsPerUser h ->
  Clients (fst (Register h client))
  = <[client_UserID client :=
        <[client_ID client := client]>
          (devices (Clients h) (client_UserID client))]> (Clients h)
  /\ MaxConnectionsPerUser (fst (Register h client)) = MaxConnectionsPerUser h
  /\ hub_sysSvc (fst (Register h client)) = hub_sysSvc h.
Proof.
  intros Hroom. unfold Register.
  rewrite devices_initialised.
  destruct (Z.geb_spec (Z.of_nat (size (devices (Clients h)
                                          (client_UserID client))))
                       (MaxConnectionsPerUser h)) as [Hfull|_]; [lia |].
  cbn. split; [|auto].
  destruct (Clients h !! client_UserID client); [reflexivity |].
  apply insert_insert_eq.
Qed.

Lemma devices_insert (clients : gmap UUID (gmap UUID Client))
    (userID u : UUID) (m : gmap UUID Client) :
  devices (<[userID := m]> clients) u
  = if decide (u = userID) then m else devices clients u.
Proof.
  unfold devices. destruct (decide (u = userID)) as [->|Hne].
  - rewrite lookup_insert_eq. reflexivity.
  - rewrite lookup_insert_ne by congruence. reflexivity.
Qed.

Lemma devices_delete_empty (clients : gmap UUID (gmap UUID Client))
    (userID u : UUID) :
  devices (delete userID clients) u
  = if decide (u = userID) then ∅ else devices clients u.
Proof.
  unfold devices. destruct (decide (u = userID)) as [->|Hne].
  - rewrite lookup_delete_eq. reflexivity.
  - rewrite lookup_delete_ne by congruence. reflexivity.
Qed.

Lemma IsOnline_devices (h : Hub) (userID : UUID) :
  IsOnline h userID = (0 <? size (devices (Clients h) userID))%nat.
Proof.
  unfold IsOnline, devices. destruct (Clients h !! userID); reflexivity.
Qed.

(** The registry after [Unregister], device set by device set. *)
Lemma Unregister_devices (h : Hub) (client : Client) (u : UUID) :
  devices (Clients (fst (fst (Unregister h client)))) u
  = if decide (u = client_UserID client)
    then delete (client_ID client) (devices (Clients h) u)
    else devices (Clients h) u.
Proof.
  unfold Unregister.
  assert (Hreg :
    devices (Clients (fst
      (match Clients h !! client_UserID client with
       | Some userClients =>
         match userClients !! client_ID client with
         | Some _ =>
           if (size (delete (client_ID client) userClients) =? 0)%nat
           then
             (with_clients (delete (client_UserID client) (Clients h)) h,
              if IsFeatureEnabled (hub_sysSvc h) "enable_online_status"
              then [HubRedisDel (Online (client_UserID client));
                    Did (GoNotifyOnlineStatusChange (client_UserID client) false)]
              else [])
           else (with_clients
                   (<[client_UserID client :=
                        delete (client_ID client) userClients]> (Clients h)) h,
                 [])
         | None => (h, [])
         end
       | None => (h, [])
       end))) u
    = if decide (u = client_UserID client)
      then delete (client_ID client) (devices (Clients h) u)
      else devices (Clients h) u).
  { destruct (Clients h !! client_UserID client) as [userClients|] eqn:Huser.
    - destruct (userClients !! client_ID client) as [c0|] eqn:Hdev.
      + destruct (Nat.eqb_spec (size (delete (client_ID client) userClients)) 0)
          as [Hlast|Hmore]; cbn [fst Clients with_clients].
        * rewrite devices_delete_empty.
          destruct (decide (u = client_UserID client)) as [->|]; [|reflexivity].
          unfold devices. rewrite Huser. cbn.
          apply map_size_empty_iff in Hlast. congruence.
        * rewrite devices_insert.
          destruct (decide (u = client_UserID client)) as [->|]; [|reflexivity].
          unfold devices. rewrite Huser. reflexivity.
      + cbn [fst]. destruct (decide (u = client_UserID client)) as [->|];
          [|reflexivity].
        unfold devices. rewrite Huser. cbn.
        symmetry. apply delete_id. exact Hdev.
    - cbn [fst]. destruct (decide (u = client_UserID client)) as [->|];
        [|reflexivity].
      unfold devices. rewrite Huser. cbn. symmetry. apply delete_empty. }
  match goal with
  | |- context [let '(_, _) := ?x in _] => destruct x as [h' actions]
  end.
  cbn [fst] in Hreg. destruct (closed client); exact Hreg.
Qed.

(** X24: registering and unregistering a connection is a round trip.
    When a client whose id is not yet in use registers below the cap and
    then unregisters, every user has the device set they had, [IsOnline]
    answers for everybody what it answered before, in between the user was
    online, and the client's channel has been closed. *)
Theorem Register_then_Unregister (h : Hub) (client : Client) :
  Z.of_nat (size (devices (Clients h) (client_UserID client)))
  < MaxConnectionsPerUser h ->
  devices (Clients h) (client_UserID client) !! client_ID client = None ->
  closed client = false ->
  let h1 := fst (Register h client) in
  let h2 := fst (fst (Unregister h1 client)) in
  IsOnline h1 (client_UserID client) = true
  /\ (forall u, devices (Clients h2) u = devices (Clients h) u)
  /\ (forall u, IsOnline h2 u = IsOnline h u)
  /\ closed (snd (fst (Unregister h1 client))) = true
  /\ In (CloseSend (client_ID client)) (snd (Unregister h1 client)).
Proof.
  intros Hroom Hnew Hopen h1 h2.
  destruct (Register_accepted h client Hroom) as (Hclients & _ & _).
  assert (Hdevices : forall u, devices (Clients h2) u = devices (Clients h) u).
  { intros u. unfold h2. rewrite Unregister_devices. unfold h1.
    rewrite Hclients, devices_insert.
    destruct (decide (u = client_UserID client)) as [->|]; [|reflexivity].
    apply delete_insert_id. exact Hnew. }
  split.
  { rewrite IsOnline_devices. unfold h1. rewrite Hclients, devices_insert.
    destruct (decide (client_UserID client = client_UserID client));
      [|contradiction].
    rewrite map_size_insert_None by exact Hnew. reflexivity. }
  split; [exact Hdevices |]. split.
  { intros u. rewrite !IsOnline_devices, Hdevices. reflexivity. }
  unfold Unregister.
  match goal with
  | |- context [let '(_, _) := ?x in _] => destruct x as [h' actions]
  end.
  rewrite Hopen. cbn. split; [reflexivity |].
  apply in_app_iff. right. left. reflexivity.
Qed.

Lemma Register_then_Unregister_witness :
  let h := Sample.hub_after 2 in
  let client := Sample.device Sample.alice 7 in
  let h1 := fst (Register h client) in
  let h2 := fst (fst (Unregister h1 client)) in
  IsOnline h1 (client_UserID client) = true
  /\ (forall u, devices (Clients h2) u = devices (Clients h) u)
  /\ (forall u, IsOnline h2 u = IsOnline h u)
  /\ closed (snd (fst (Unregister h1 client))) = true
  /\ In (CloseSend (client_ID client)) (snd (Unregister h1 client)).
Proof.
  intros h client.
  apply (Register_then_Unregister h client).
  - vm_compute. reflexivity.
  - vm_compute. reflexivity.
  - reflexivity.
Defined.

(** X25: unregistering twice is unregistering once.  A second
    [Unregister] of the same client finds it neither in the registry nor
    with an open channel: it changes nothing and does nothing, so the
    channel is closed at most once and the offline notice is not
    repeated. *)
Theorem Unregister_twice (h : Hub) (client : Client) :
  let h1 := fst (fst (Unregister h client)) in
  let client1 := snd (fst (Unregister h client)) in
  Unregister h1 client1 = (h1, client1, [])
  /\ devices (Clients h1) (client_UserID client) !! client_ID client = None.
Proof.
  intros h1 client1.
  assert (Hgone : devices (Clients h1) (client_UserID client)
                  !! client_ID client = None).
  { unfold h1. rewrite Unregister_devices.
    destruct (decide (client_UserID client = client_UserID client));
      [|contradiction].
    apply lookup_delete_eq. }
  split; [|exact Hgone].
  assert (Hclosed : closed client1 = true
                    /\ client_UserID client1 = client_UserID client
                    /\ client_ID client1 = client_ID client).
  { unfold client1, Unregister.
    match goal with
    | |- context [let '(_, _) := ?x in _] => destruct x as [h' actions]
    end.
    destruct (closed client) eqn:Hc; cbn; auto. }
  destruct Hclosed as (Hclosed & Huser & Hid).
  unfold Unregister. rewrite Hclosed, Huser, Hid.
  unfold devices in Hgone.
  destruct (Clients h1 !! client_UserID client) as [userClients|];
    [|reflexivity].
  cbn in Hgone. rewrite Hgone. reflexivity.
Qed.

Ltac hub_cases :=
  repeat split; intros;
  repeat match goal with
         | H : _ /\ _ |- _ => destruct H
         | H : _ \/ _ |- _ => destruct H
         | H : is_Some None |- _ => destruct H; discriminate
         | H : is_Some (?m !! ?k), H' : ?m !! ?k = None |- _ =>
             rewrite H' in H; destruct H; discriminate
         | H : False |- _ => destruct H
         end;
  try discriminate; try lia; eauto.

(** X26: who is online after a connection has gone.  After
    [Unregister] the user of the client is online exactly when another
    device of theirs remains, everybody else is online as before, and the
    offline notice (with the deletion of the online key) goes out exactly
    when the client was registered, was the user's last device, and the
    online-status feature is enabled. *)
Theorem Unregister_online_status (h : Hub) (client : Client) :
  let userID := client_UserID client in
  let before := devices (Clients h) userID in
  let h1 := fst (fst (Unregister h client)) in
  IsOnline h1 userID = (0 <? size (delete (client_ID client) before))%nat
  /\ (forall u, u <> userID -> IsOnline h1 u = IsOnline h u)
  /\ (forall u, IsUserOnline h1 u = IsOnline h1 u)
  /\ (In (Did (GoNotifyOnlineStatusChange userID false))
         (snd (Unregister h client))
      <-> is_Some (before !! client_ID client)
          /\ size (delete (client_ID client) before) = 0%nat
          /\ IsFeatureEnabled (hub_sysSvc h) "enable_online_status" = true)
  /\ (In (HubRedisDel (Online userID)) (snd (Unregister h client))
      <-> In (Did (GoNotifyOnlineStatusChange userID false))
             (snd (Unregister h client))).
Proof.
  intros userID before h1.
  split.
  { rewrite IsOnline_devices. unfold h1. rewrite Unregister_devices.
    destruct (decide (userID = client_UserID client)); [reflexivity |].
    contradiction. }
  split.
  { intros u Hne. rewrite !IsOnline_devices. unfold h1.
    rewrite Unregister_devices.
    destruct (decide (u = client_UserID client)); [contradiction | reflexivity]. }
  split; [reflexivity |].
  unfold Unregister, before, devices. fold userID.
  destruct (Clients h !! userID) as [userClients|] eqn:Huser; cbn [default].
  - destruct (userClients !! client_ID client) as [c0|] eqn:Hdev.
    + destruct (Nat.eqb_spec (size (delete (client_ID client) userClients)) 0)
        as [Hlast|Hmore].
      * destruct (IsFeatureEnabled (hub_sysSvc h) "enable_online_status");
          destruct (closed client); cbn; hub_cases.
      * destruct (closed client); cbn; hub_cases.
    + destruct (closed client); cbn; hub_cases.
  - rewrite lookup_empty. destruct (closed client); cbn; hub_cases.
Qed.

(** ** Resolving a private conversation, again *)

Lemma select_private_conversation_sym (d : DB) (a b : UUID) :
  select_private_conversation d a b = select_private_conversation d b a.
Proof.
  unfold select_private_conversation. f_equal. apply filter_ext.
  intros c. unfold private_conversation_matches.
  rewrite (andb_comm (has_member_row d (conv_ID c) a)). reflexivity.
Qed.

Lemma Count_app {A} (p : A -> bool) (l1 l2 : list A) :
  Count p (l1 ++ l2) = Count p l1 + Count p l2.
Proof. unfold Count. rewrite List.filter_app, length_app. lia. Qed.

Lemma filter_none {A} (p : A -> bool) (rows : list A) :
  (forall r, In r rows -> p r = false) -> List.filter p rows = [].
Proof.
  intros Hnone. induction rows as [|x rows IH]; cbn; [reflexivity |].
  rewrite (Hnone x) by (left; reflexivity).
  apply IH. intros r Hr. apply Hnone. right. exact Hr.
Qed.

(** The SELECT of [getOrCreatePrivateConversation] on the store that
    [createPrivateConversation] leaves. *)
Lemma select_after_create (d : DB) (a b cid id1 id2 : UUID) (t : Time) :
  a <> b ->
  conversation_exists d cid = false ->
  (forall m, In m (conversation_members d) -> cm_ConversationID m <> cid) ->
  select_private_conversation d a b = None ->
  select_private_conversation
    {| conversations := conversations d ++ [new_private_conversation cid t];
       conversation_members :=
         conversation_members d
         ++ [new_member id1 cid a t; new_member id2 cid b t];
       messages := messages d; user_relationships := user_relationships d |}
    a b
  = Some (new_private_conversation cid t).
Proof.
  intros Hne Hnew Hrows Hnone.
  set (d' := {| conversations := conversations d ++ [new_private_conversation cid t];
                conversation_members :=
                  conversation_members d
                  ++ [new_member id1 cid a t; new_member id2 cid b t];
                messages := messages d;
                user_relationships := user_relationships d |}).
  assert (Hold : forall c, In c (conversations d) ->
                           private_conversation_matches d' a b c
                           = private_conversation_matches d a b c).
  { intros c Hc.
    assert (Hid : (cid =? conv_ID c)%N = false).
    { apply N.eqb_neq. intros Heq.
      pose proof (existsb_false_In _ _ c Hnew Hc) as Hx. cbn in Hx.
      rewrite Heq, N.eqb_refl in Hx. discriminate. }
    unfold private_conversation_matches, has_member_row, active_member_count.
    cbn [conversation_members d'].
    rewrite !existsb_app, Count_app. cbn [existsb].
    cbn [cm_ConversationID new_member]. rewrite Hid. cbn.
    rewrite (Count_zero _ [new_member id1 cid a t; new_member id2 cid b t])
      by (intros m [<-|[<-|[]]]; cbn; rewrite Hid; reflexivity).
    rewrite !orb_false_r, Z.add_0_r. reflexivity. }
  assert (Hzero : Count (fun m => (cm_ConversationID m =? cid)%N
                                  && is_null (LeftAt m))
                        (conversation_members d) = 0).
  { apply Count_zero. intros m Hm.
    destruct (N.eqb_spec (cm_ConversationID m) cid) as [Heq|]; [|reflexivity].
    destruct (Hrows m Hm Heq). }
  assert (Hself : private_conversation_matches d' a b
                    (new_private_conversation cid t) = true).
  { unfold private_conversation_matches, has_member_row, active_member_count.
    cbn [conversation_members d' conv_ID new_private_conversation
         ConversationType].
    rewrite !existsb_app, Count_app, Hzero. unfold Count. cbn.
    rewrite !N.eqb_refl. cbn. rewrite !orb_true_r. reflexivity. }
  unfold select_private_conversation. cbn [conversations d'].
  rewrite List.filter_app.
  rewrite (filter_none (private_conversation_matches d' a b) (conversations d)).
  - cbn. rewrite Hself. reflexivity.
  - intros c Hc. rewrite (Hold c Hc).
    unfold select_private_conversation in Hnone. apply First_None in Hnone.
    destruct (private_conversation_matches d a b c) eqn:Hm; [|reflexivity].
    assert (Hin : In c (List.filter (private_conversation_matches d a b)
                                    (conversations d)))
      by (apply filter_In; auto).
    rewrite Hnone in Hin. destruct Hin.
Qed.

Lemma getOrCreatePrivateConversation_found (a b : UUID) (w : World)
    (c : Conversation) :
  a <> b ->
  select_private_conversation (db w) a b = Some c ->
  getOrCreatePrivateConversation a b w = (Ok (conv_ID c, false), w).
Proof.
  intros Hne Hsel. unfold getOrCreatePrivateConversation.
  destruct (N.eqb_spec a b); [contradiction |].
  run_monad. rewrite Hsel. reflexivity.
Qed.

(** X27: resolving is idempotent and symmetric.  Once
    [getOrCreatePrivateConversation a b] has returned a conversation,
    found or created (the ids it generated being free), a further call on
    the store it left returns the same conversation with created false and
    changes nothing, whether it is made for [a, b] or for [b, a]. *)
Theorem getOrCreatePrivateConversation_idempotent (a b : UUID)
    (w w1 w2 : World) (conversationID : UUID) (created : bool) :
  (created = true -> next_ids_fresh w) ->
  getOrCreatePrivateConversation a b w = (Ok (conversationID, created), w1) ->
  db w2 = db w1 ->
  getOrCreatePrivateConversation a b w2 = (Ok (conversationID, false), w2)
  /\ getOrCreatePrivateConversation b a w2 = (Ok (conversationID, false), w2).
Proof.
  intros Hfresh Hrun Hdb.
  assert (Hne : a <> b).
  { intros ->. unfold getOrCreatePrivateConversation in Hrun.
    rewrite N.eqb_refl in Hrun. discriminate. }
  assert (Hfound : forall c, select_private_conversation (db w2) a b = Some c ->
                             conv_ID c = conversationID ->
                             getOrCreatePrivateConversation a b w2
                             = (Ok (conversationID, false), w2)
                             /\ getOrCreatePrivateConversation b a w2
                                = (Ok (conversationID, false), w2)).
  { intros c Hsel <-. split.
    - apply getOrCreatePrivateConversation_found; assumption.
    - apply getOrCreatePrivateConversation_found; [congruence |].
      rewrite <- select_private_conversation_sym. exact Hsel. }
  unfold getOrCreatePrivateConversation in Hrun.
  destruct (N.eqb_spec a b); [contradiction |].
  unfold bind at 1 in Hrun. unfold get_db at 1 in Hrun.
  destruct (select_private_conversation (db w) a b) as [c|] eqn:Hsel.
  - injection Hrun as <- <- <-. apply (Hfound c); [|reflexivity].
    rewrite Hdb. exact Hsel.
  - unfold bind at 1 in Hrun.
    pose proof (acquire_lock_db (create_conversation_lock a b)
                  (5 * second) 30 0 w) as (Hdb0 & Hnow & Hsrc & Hdrawn & [b0 Hb]).
    destruct (acquire_lock (create_conversation_lock a b) (5 * second) 30 0 w)
      as [r0 w0]. cbn [fst snd] in *. subst r0.
    destruct b0; cbn [negb] in Hrun; [|discriminate].
    unfold defer in Hrun. unfold bind at 1 in Hrun. unfold get_db at 1 in Hrun.
    rewrite Hdb0, Hsel in Hrun.
    destruct (createPrivateConversation a b w0) as [r3 w3] eqn:Hcreate.
    injection Hrun as -> <-.
    assert (Hcreated : created = true).
    { revert Hcreate. unfold createPrivateConversation. unfold bind at 1.
      match goal with
      | |- (let (_, _) := ?c w0 in _) = _ -> _ => destruct (c w0) as [[x|e] w4]
      end; [|discriminate].
      intros H. injection H as _ -> _. reflexivity. }
    specialize (Hfresh Hcreated).
    assert (Hfresh0 : next_ids_fresh w0).
    { unfold next_ids_fresh. rewrite Hdb0, Hsrc, Hdrawn. exact Hfresh. }
    destruct (createPrivateConversation_fresh a b w0 Hne Hfresh0)
      as (w4 & Hok & Hdb4).
    rewrite Hok in Hcreate. injection Hcreate as <- _ <-.
    cbn [snd emit db] in Hdb. rewrite Hdb4 in Hdb.
    destruct Hfresh as (Hconv & Hrows & _).
    apply (Hfound (new_private_conversation (uuid_source w0 (uuid_drawn w0))
                                            (now w0))); [|reflexivity].
    rewrite Hdb, Hdb0. apply select_after_create; try assumption.
    + rewrite Hsrc, Hdrawn. exact Hconv.
    + intros m Hm. rewrite Hsrc, Hdrawn. apply (Hrows m Hm).
Qed.

Lemma getOrCreatePrivateConversation_idempotent_witness :
  let w := Sample.world Sample.empty_db 10 true in
  let w1 := snd (getOrCreatePrivateConversation Sample.alice Sample.bob w) in
  getOrCreatePrivateConversation Sample.alice Sample.bob w1
  = (Ok (1000%N, false), w1)
  /\ getOrCreatePrivateConversation Sample.bob Sample.alice w1
     = (Ok (1000%N, false), w1).
Proof.
  intros w w1.
  apply (getOrCreatePrivateConversation_idempotent Sample.alice Sample.bob
           w w1 w1 1000 true).
  - intros _. split; [reflexivity |]. split; [intros m [] | discriminate].
  - vm_compute. reflexivity.
  - reflexivity.
Defined.

(** ** Creating a group *)








(** ** What is pushed and what is stored *)

Lemma push_to_member_emits (s : MessageService) (senderID conversationID : UUID)
    (message : Message) (text : option string) (status : gmap UUID bool)
    (member : ConversationMember) (w : World) :
  unreadNotifier s = true ->
  let w1 := snd (push_to_member s senderID conversationID message text status
                   member w) in
  (forall e, In e (effects w) -> In e (effects w1))
  /\ In (RedisRPush (OfflineMsg (cm_UserID member)) message) (effects w1)
  /\ In (UnreadCountUpdate (cm_UserID member) conversationID
           (if viewing status (cm_UserID member) then UnreadCount member
            else UnreadCount member + 1))
        (effects w1).
Proof.
  intros Hnotifier. unfold push_to_member. rewrite Hnotifier. run_monad.
  destruct (convNotifier s && negb (cm_UserID member =? senderID)%N);
    cbn [fst snd effects]; repeat split; intros;
    rewrite ?in_app_iff; cbn; auto 10.
Qed.

Lemma for_each_push_emits (s : MessageService) (senderID conversationID : UUID)
    (message : Message) (text : option string) (status : gmap UUID bool)
    (members : list ConversationMember) (w : World) :
  unreadNotifier s = true ->
  let w1 := snd (for_each members
                   (push_to_member s senderID conversationID message text status)
                   w) in
  (forall e, In e (effects w) -> In e (effects w1))
  /\ forall member, In member members ->
       In (RedisRPush (OfflineMsg (cm_UserID member)) message) (effects w1)
       /\ In (UnreadCountUpdate (cm_UserID member) conversationID
                (if viewing status (cm_UserID member) then UnreadCount member
                 else UnreadCount member + 1))
             (effects w1).
Proof.
  intros Hnotifier. revert w.
  induction members as [|x members IH]; intros w; cbn.
  - split; [auto | intros ? []].
  - unfold bind.
    pose proof (push_to_member_ok s senderID conversationID message text status
                  x w) as [Hok _].
    pose proof (push_to_member_emits s senderID conversationID message text
                  status x w Hnotifier) as (Hmono & Hqueue & Hcount).
    destruct (push_to_member s senderID conversationID message text status x w)
      as [[[]|e] w0]; cbn in Hok, Hmono, Hqueue, Hcount; [|discriminate].
    destruct (IH w0) as [Hmono' Hall]. split; [auto |].
    intros member [<-|Hin]; [auto | apply Hall; exact Hin].
Qed.

(** X29: what is pushed is what is stored.  After a successful send
    into a named conversation, with the hub wired as unread notifier, every
    member row of the conversation that is not the sender's has been
    rewritten in place, the message has been appended to the offline queue
    of its user, and the unread count pushed to that user is the count the
    row now holds. *)
Theorem SendMessage_pushes_the_stored_count (s : MessageService)
    (senderID : UUID) (req : SendMessageRequest) (w w' : World)
    (message : Message) (row : ConversationMember) :
  req_ConversationID req <> Nil ->
  members_unique (db w) ->
  unreadNotifier s = true ->
  SendMessage s senderID req w = (Ok message, w') ->
  In row (conversation_members (db w)) ->
  cm_ConversationID row = req_ConversationID req ->
  cm_UserID row <> senderID ->
  exists row',
    In row' (conversation_members (db w'))
    /\ cm_ID row' = cm_ID row /\ member_key row' = member_key row
    /\ In (RedisRPush (OfflineMsg (cm_UserID row)) message) (effects w')
    /\ In (UnreadCountUpdate (cm_UserID row) (req_ConversationID req)
             (UnreadCount row'))
          (effects w').
Proof.
  intros Hnil Huniq Hnotifier Hrun Hrow Hconv Hother.
  apply SendMessage_inv in Hrun.
  destruct Hrun as (w1 & _ & _ & Hnamed & [(e0 & He & _)|Hok]); [discriminate |].
  destruct Hok as (c & w2 & w3 & m & Hm & Hdb & _ & Hc & _ & Hp & Hdb' & Heff).
  injection Hm as <-. destruct (Hc Hnil) as [-> _]. rewrite (Hnamed Hnil) in *.
  assert (Huniq2 : members_unique (db w2)) by (rewrite Hdb; exact Huniq).
  destruct (persist_and_fan_out_ok s senderID req _ w2 w3 message Huniq2 Hp)
    as (Hrows & _).
  assert (Hsel : (cm_ConversationID row =? req_ConversationID req)%N
                 && negb (cm_UserID row =? senderID)%N = true).
  { rewrite Hconv, N.eqb_refl. cbn. apply negb_true_iff, N.eqb_neq. exact Hother. }
  exists (member_after_message
            (isViewing s (cm_UserID row) (req_ConversationID req)) row).
  split.
  { rewrite Hdb', Hrows, Hdb. unfold members_after_send. apply in_map_iff.
    exists row. rewrite Hsel. auto. }
  split; [reflexivity |]. split; [reflexivity |].
  revert Hp. unfold persist_and_fan_out.
  unfold bind at 1. unfold get_db. unfold bind at 1.
  destruct (save_message senderID req (req_ConversationID req)
              (other_member_rows (db w2) (req_ConversationID req) senderID)
              (snapshot_viewing s (req_ConversationID req)
                 (other_member_rows (db w2) (req_ConversationID req) senderID))
              w2) as [[m0|e] w4]; [|discriminate].
  unfold bind.
  match goal with
  | |- context [for_each ?ms ?body w4] =>
      pose proof (for_each_push_emits s senderID (req_ConversationID req) m0
                    (lastMessageText m0)
                    (snapshot_viewing s (req_ConversationID req)
                       (other_member_rows (db w2) (req_ConversationID req)
                          senderID))
                    ms w4 Hnotifier) as [_ Hall];
        destruct (for_each ms body w4) as [[[]|e] w5]; [|discriminate]
  end.
  intros H. injection H as -> ->. cbn [snd] in Hall.
  assert (Hin : In row (other_member_rows (db w2) (req_ConversationID req)
                          senderID)).
  { unfold other_member_rows. apply filter_In. rewrite Hdb. auto. }
  destruct (Hall row Hin) as [Hqueue Hcount].
  rewrite viewing_snapshot in Hcount.
  - split; apply Heff; [exact Hqueue | exact Hcount].
  - rewrite (other_member_rows_users (db w2)); [| rewrite Hdb; exact Hrow | exact Hconv].
    apply negb_true_iff, N.eqb_neq. exact Hother.
Qed.

Lemma SendMessage_pushes_the_stored_count_witness :
  let req := Sample.request 20 None "text" (Some "hello") in
  let w := Sample.world Sample.group_with_leaver 10 true in
  let w' := snd (SendMessage (Sample.service false) Sample.alice req w) in
  let message := Sample.sent (Sample.service false) Sample.alice req w in
  let row := Sample.member 22 20 Sample.bob "member" None 0 None in
  exists row',
    In row' (conversation_members (db w'))
    /\ cm_ID row' = cm_ID row /\ member_key row' = member_key row
    /\ In (RedisRPush (OfflineMsg (cm_UserID row)) message) (effects w')
    /\ In (UnreadCountUpdate (cm_UserID row) (req_ConversationID req)
             (UnreadCount row'))
          (effects w').
Proof.
  intros req w w' message row.
  apply (SendMessage_pushes_the_stored_count (Sample.service false)
           Sample.alice req w w' message row).
  - discriminate.
  - apply (bool_decide_unpack _). vm_compute. exact I.
  - reflexivity.
  - vm_compute. reflexivity.
  - right. left. reflexivity.
  - reflexivity.
  - discriminate.
Defined.

(** ** Settings: the table and the cache *)

Lemma LoadSettings_lookup (rows : list SystemSettings)
    (cache : gmap string string) (key : string) :
  NoDup (map SettingKey rows) ->
  foldl (fun cache setting =>
           <[SettingKey setting := SettingValue setting]> cache) cache rows
  !! key
  = match List.find (fun setting => String.eqb (SettingKey setting) key) rows with
    | Some setting => Some (SettingValue setting)
    | None => cache !! key
    end.
Proof.
  revert cache; induction rows as [|r rows IH]; intros cache Hnodup; cbn;
    [reflexivity |].
  apply NoDup_cons in Hnodup. destruct Hnodup as [Hnotin Hnodup].
  rewrite IH by exact Hnodup.
  destruct (String.eqb_spec (SettingKey r) key) as [Hkey|Hkey].
  - destruct (List.find (fun setting => String.eqb (SettingKey setting) key) rows)
      as [r'|] eqn:Hfind.
    + exfalso. apply find_some in Hfind. destruct Hfind as [Hin Hk].
      apply String.eqb_eq in Hk. apply Hnotin. rewrite Hkey, <- Hk.
      apply list_elem_of_In, in_map. exact Hin.
    + rewrite Hkey. apply lookup_insert_eq.
  - destruct (List.find (fun setting => String.eqb (SettingKey setting) key) rows);
      [reflexivity |].
    apply lookup_insert_ne. exact Hkey.
Qed.

(** The service starts with a cache that holds the value of every row,
    the keys of the table being unique as the schema requires. *)
Lemma NewSystemSettingsService_coherent (table : list SystemSettings) :
  NoDup (map SettingKey table) ->
  cache_coherent (NewSystemSettingsService table).
Proof.
  intros Hnodup setting Hin.
  unfold NewSystemSettingsService, LoadSettings. cbn [settingsCache system_settings] in *.
  rewrite LoadSettings_lookup by exact Hnodup.
  destruct (List.find (fun r => String.eqb (SettingKey r) (SettingKey setting)) table)
    as [r|] eqn:Hfind.
  - apply find_some in Hfind. destruct Hfind as [Hr Hk].
    apply String.eqb_eq in Hk. f_equal. f_equal.
    apply (NoDup_map_inj SettingKey table); assumption.
  - exfalso. apply (find_none _ _ Hfind) in Hin.
    rewrite String.eqb_refl in Hin. discriminate.
Qed.

(** X30: the cache follows the table.  When the cache holds the value of
    every row, it still does after [UpdateSetting]: a key of the table gets
    the new value in the table and in the cache, so [GetSetting] and
    [IsFeatureEnabled] answer with it at once, and every other key reads as
    before; a key that is not in the table is an error that changes
    neither. *)
Theorem UpdateSetting_keeps_cache_coherent (s : SystemSettingsService)
    (t : Time) (key value : string) :
  cache_coherent s ->
  let r := fst (UpdateSetting s t key value) in
  let s' := snd (UpdateSetting s t key value) in
  cache_coherent s'
  /\ (forall other, other <> key -> GetSetting s' other = GetSetting s other)
  /\ ((exists setting, In setting (system_settings s) /\ SettingKey setting = key) ->
      r = Ok tt
      /\ GetSetting s' key = (value, true)
      /\ IsFeatureEnabled (GetAllSettings s') key = String.eqb value "true")
  /\ (~ (exists setting, In setting (system_settings s) /\ SettingKey setting = key) ->
      r = Err (ErrMsg ("setting key not found: " +:+ key)) /\ s' = s).
Proof.
  intros Hcoherent. unfold UpdateSetting.
  destruct (Z.eqb_spec (Count (fun setting => String.eqb (SettingKey setting) key)
                              (system_settings s)) 0) as [Hzero|Hsome];
    cbn [fst snd].
  - assert (Hnone : forall setting, In setting (system_settings s) ->
                                    String.eqb (SettingKey setting) key = false).
    { apply Count_zero_iff. apply Z.eqb_eq. exact Hzero. }
    assert (Hsame : map (fun setting => if String.eqb (SettingKey setting) key
                                        then with_setting_value value t setting
                                        else setting) (system_settings s)
                    = system_settings s).
    { rewrite <- (map_id (system_settings s)) at 2. apply map_ext_in.
      intros r Hr. rewrite (Hnone r Hr). reflexivity. }
    rewrite Hsame. split; [exact Hcoherent |]. split; [reflexivity |]. split.
    + intros (setting & Hin & Hkey). apply Hnone in Hin.
      rewrite Hkey, String.eqb_refl in Hin. discriminate.
    + intros _. split; [reflexivity |]. destruct s; reflexivity.
  - split.
    { intros setting' Hin. cbn [system_settings settingsCache] in *.
      apply in_map_iff in Hin. destruct Hin as (setting & <- & Hin).
      destruct (String.eqb_spec (SettingKey setting) key) as [Hkey|Hkey]; cbn.
      - rewrite Hkey. apply lookup_insert_eq.
      - rewrite lookup_insert_ne by congruence. apply Hcoherent. exact Hin. }
    split.
    { intros other Hne. unfold GetSetting. cbn [settingsCache].
      rewrite lookup_insert_ne by congruence. reflexivity. }
    split.
    + intros _. split; [reflexivity |].
      unfold GetSetting, IsFeatureEnabled, GetBoolSetting, GetAllSettings.
      cbn [settingsCache]. rewrite lookup_insert_eq. auto.
    + intros Hnone. exfalso. apply Hsome. apply Count_zero.
      intros setting Hin.
      destruct (String.eqb_spec (SettingKey setting) key) as [Hkey|]; [|reflexivity].
      destruct Hnone. eauto.
Qed.

Lemma UpdateSetting_keeps_cache_coherent_witness :
  let s := NewSystemSettingsService Sample.settings_table in
  let r := fst (UpdateSetting s 10 "enable_online_status" "false") in
  let s' := snd (UpdateSetting s 10 "enable_online_status" "false") in
  cache_coherent s'
  /\ (forall other, other <> "enable_online_status" ->
        GetSetting s' other = GetSetting s other)
  /\ ((exists setting, In setting (system_settings s)
                       /\ SettingKey setting = "enable_online_status") ->
      r = Ok tt
      /\ GetSetting s' "enable_online_status" = ("false", true)
      /\ IsFeatureEnabled (GetAllSettings s') "enable_online_status"
         = String.eqb "false" "true")
  /\ (~ (exists setting, In setting (system_settings s)
                         /\ SettingKey setting = "enable_online_status") ->
      r = Err (ErrMsg ("setting key not found: " +:+ "enable_online_status"))
      /\ s' = s).
Proof.
  intros s.
  apply (UpdateSetting_keeps_cache_coherent s 10 "enable_online_status" "false").
  intros setting Hin. cbn in Hin.
  destruct Hin as [<-|[<-|[]]]; vm_compute; reflexivity.
Defined.
